(** * CONUS-30m-LAI: monthly LAI retrieval and compositing

    A shallow embedding of [gee/lai_state_monthly_export.js].  The script
    is written against the Earth Engine client API, whose image operations
    act pixel by pixel.  An [Image] below is therefore an Earth Engine image
    observed at one pixel: an ordered list of named bands, each holding the
    pixel's value or no data (masked), together with the image's
    properties.  Pixel values are idealised as rationals; integer-typed
    bands hold integer-valued rationals and the casts of the script
    ([toInt], [toByte], [uint16], ...) truncate and saturate.  The product
    that is rounded to the stored code, the LAI times 100, is taken in
    double precision: its last bit decides the code of a value next to a
    tie. *)

From Stdlib Require Import ZArith QArith Qround Qminmax Qabs Qpower Lia Lqa String List Bool.
From stdpp Require Import base gmap strings pretty.
Import ListNotations.
Open Scope Z_scope.

(** ** Errors

    A failing server-side computation (a missing band, a missing dictionary
    key, a string that is no number) aborts the evaluation of everything
    that depends on it. *)

Inductive result (A : Type) : Type :=
| OK (a : A)
| Err (msg : string).
Arguments OK {A} a.
Arguments Err {A} msg.

Definition bind {A B : Type} (m : result A) (f : A -> result B) : result B :=
  match m with
  | OK a => f a
  | Err e => Err e
  end.

Notation "x <- m ;; k" := (bind m (fun x => k))
  (at level 62, m at next level, right associativity).

Fixpoint foldM {A B : Type} (f : A -> B -> result A) (l : list B) (a : A)
  : result A :=
  match l with
  | [] => OK a
  | b :: l' => a' <- f a b ;; foldM f l' a'
  end.

Fixpoint mapM {A B : Type} (f : A -> result B) (l : list A) : result (list B) :=
  match l with
  | [] => OK []
  | a :: l' => b <- f a ;; bs <- mapM f l' ;; OK (b :: bs)
  end.

(** ** Earth Engine primitives, at one pixel *)

Module EE.

(** One band at one pixel: [None] is a masked (no-data) pixel. *)
Definition band : Type := option Q.

Definition lift1 (f : Q -> Q) (a : band) : band :=
  match a with
  | Some x => Some (f x)
  | None => None
  end.

Definition lift2 (f : Q -> Q -> Q) (a b : band) : band :=
  match a, b with
  | Some x, Some y => Some (f x y)
  | _, _ => None
  end.

Definition b2q (b : bool) : Q := if b then 1%Q else 0%Q.
Definition nonzero (x : Q) : bool := negb (Qeq_bool x 0).

(** Integer part, towards zero. *)
Definition trunc (x : Q) : Z :=
  if Qle_bool 0 x then Qfloor x else Qceiling x.

Definition saturate (lo hi : Z) (x : Q) : Q :=
  inject_Z (Z.max lo (Z.min hi (trunc x))).

Definition constant (q : Q) : band := Some q.

Definition multiply (a b : band) : band := lift2 Qmult a b.
Definition add (a b : band) : band := lift2 Qplus a b.
Definition subtract (a b : band) : band := lift2 Qminus a b.
(** [divide] returns 0 for a division by 0, as [Qdiv] does. *)
Definition divide (a b : band) : band := lift2 Qdiv a b.

Definition floor (a : band) : band := lift1 (fun x => inject_Z (Qfloor x)) a.
(** Nearest integer; a tie goes up. *)
Definition round_Z (x : Q) : Z := Qfloor (x + (1 # 2))%Q.
Definition round (a : band) : band := lift1 (fun x => inject_Z (round_Z x)) a.
Definition clamp (lo hi : Q) (a : band) : band :=
  lift1 (fun x => Qmax lo (Qmin hi x)) a.

(** *** Double precision *)

(** The integer nearest to [x]; a tie goes to the even one. *)
Definition round_half_even (x : Q) : Z :=
  let f := Qfloor x in
  match (x - inject_Z f ?= 1 # 2)%Q with
  | Lt => f
  | Eq => if Z.even f then f else f + 1
  | Gt => f + 1
  end.

(** [floor (log2 x)] of a positive [x]. *)
Definition log2_floor (x : Q) : Z :=
  if Qle_bool 1 x then Z.log2 (Qfloor x) else - Z.log2_up (Qceiling (/ x)).

(** The exponent of the unit in the last place of the double of [x]:
    53 significant bits, and the multiples of 2^-1074 below 2^-1022. *)
Definition ulp_exponent (x : Q) : Z := Z.max (log2_floor (Qabs x) - 52) (-1074).

(** The double (IEEE 754 binary64) nearest to [x], a tie going to the even
    significand.  Overflow is left out: the pixel values of the script are
    far below 2^1024. *)
Definition binary64 (x : Q) : Q :=
  if Qeq_bool x 0 then 0%Q
  else
    let e := ulp_exponent x in
    let m := round_half_even (Qabs x / 2 ^ e) in
    let y := (inject_Z m * 2 ^ e)%Q in
    if Qle_bool 0 x then y else (- y)%Q.

(** [multiply] of two bands of type double: the double nearest to the
    exact product. *)
Definition multiply_double (a b : band) : band :=
  lift2 (fun x y => binary64 (x * y)) a b.

Definition toInt (a : band) : band := lift1 (saturate (-2147483648) 2147483647) a.
Definition toByte (a : band) : band := lift1 (saturate 0 255) a.
Definition toUint16 (a : band) : band := lift1 (saturate 0 65535) a.
Definition toDouble (a : band) : band := a.
Definition toFloat (a : band) : band := a.

Definition gte (a b : band) : band := lift2 (fun x y => b2q (Qle_bool y x)) a b.
Definition lte (a b : band) : band := lift2 (fun x y => b2q (Qle_bool x y)) a b.
Definition lt (a b : band) : band :=
  lift2 (fun x y => b2q (negb (Qle_bool y x))) a b.
Definition eq (a b : band) : band := lift2 (fun x y => b2q (Qeq_bool x y)) a b.
Definition neq (a b : band) : band :=
  lift2 (fun x y => b2q (negb (Qeq_bool x y))) a b.

Definition and (a b : band) : band :=
  lift2 (fun x y => b2q (nonzero x && nonzero y)) a b.
Definition or (a b : band) : band :=
  lift2 (fun x y => b2q (nonzero x || nonzero y)) a b.
Definition not (a : band) : band := lift1 (fun x => b2q (negb (nonzero x))) a.

Definition bitwiseAnd (a b : band) : band :=
  lift2 (fun x y => inject_Z (Z.land (trunc x) (trunc y))) a b.
Definition bitwiseOr (a b : band) : band :=
  lift2 (fun x y => inject_Z (Z.lor (trunc x) (trunc y))) a b.
Definition leftShift (a b : band) : band :=
  lift2 (fun x y => inject_Z (Z.shiftl (trunc x) (trunc y))) a b.

(** [updateMask]: the pixel stays valid only where it was valid and the
    mask is valid and non-zero. *)
Definition updateMask (a mask : band) : band :=
  match a, mask with
  | Some x, Some m => if nonzero m then Some x else None
  | _, _ => None
  end.

Definition unmask (a : band) (v : Q) : band :=
  match a with
  | Some x => Some x
  | None => Some v
  end.

(** [input.where(test, value)]: where [test] is non-zero the pixel of
    [value] is output, otherwise the input pixel; where [test] or [value] is
    masked the input value is used; a masked input stays masked. *)
Definition where_ (input test value : band) : band :=
  match input with
  | None => None
  | Some i =>
      match test, value with
      | Some t, Some v => if nonzero t then Some v else Some i
      | _, _ => Some i
      end
  end.

(** [remap(from, to)] without a default value: a value that is not in
    [from] is masked. *)
Fixpoint remap_value (from to : list Q) (x : Q) : option Q :=
  match from, to with
  | f :: from', t :: to' =>
      if Qeq_bool x f then Some t else remap_value from' to' x
  | _, _ => None
  end.

Definition remap (from to : list Q) (a : band) : band :=
  match a with
  | Some x => remap_value from to x
  | None => None
  end.

(** An array-valued image with a 4-D array at each valid pixel, read at
    the position given by four index bands: [array.arrayGet(position)]. *)
Definition arrayGet (array : option (Z -> Z -> Z -> Z -> Q)) (i j k l : band)
  : band :=
  match array, i, j, k, l with
  | Some a, Some i, Some j, Some k, Some l =>
      Some (a (trunc i) (trunc j) (trunc k) (trunc l))
  | _, _, _, _, _ => None
  end.

(** The values of a list of bands when all of them are valid. *)
Fixpoint all_valid (bs : list band) : option (list Q) :=
  match bs with
  | [] => Some []
  | Some x :: bs' =>
      match all_valid bs' with
      | Some xs => Some (x :: xs)
      | None => None
      end
  | None :: _ => None
  end.

(** *** Reducers over a collection of single-band images *)

(** The valid values a collection has at the pixel. *)
Fixpoint valid_values (coll : list band) : list Q :=
  match coll with
  | [] => []
  | Some x :: coll' => x :: valid_values coll'
  | None :: coll' => valid_values coll'
  end.

(** What [count()] gives at a pixel where no image of the collection has
    data.  The API documents the count as the number of images with a valid
    mask at the pixel; whether a pixel without any holds 0 or, as with the
    other reducers, no data, it does not say, and the scripts do not
    [unmask] the count.  Both readings are kept. *)
Inductive unobserved : Type :=
| CountsZero
| CountsNoData.

Definition unobserved_value (u : unobserved) : band :=
  match u with
  | CountsZero => Some 0%Q
  | CountsNoData => None
  end.

(** The count of a pixel: the number of images with a valid mask there. *)
Definition count_value (u : unobserved) (coll : list band) : band :=
  match valid_values coll with
  | [] => unobserved_value u
  | xs => Some (inject_Z (Z.of_nat (length xs)))
  end.

(** The mean of a pixel: masked where no image is valid. *)
Definition mean_value (coll : list band) : band :=
  match valid_values coll with
  | [] => None
  | xs => Some (fold_right Qplus 0%Q xs / inject_Z (Z.of_nat (length xs)))%Q
  end.

Fixpoint insert_sorted (x : Q) (l : list Q) : list Q :=
  match l with
  | [] => [x]
  | y :: l' => if Qle_bool x y then x :: y :: l' else y :: insert_sorted x l'
  end.

Definition sort_values (l : list Q) : list Q := fold_right insert_sorted [] l.

(** The median of a pixel: masked where no image is valid; for an even
    number of values the mean of the two in the middle. *)
Definition median_value (coll : list band) : band :=
  match sort_values (valid_values coll) with
  | [] => None
  | xs =>
      let n := length xs in
      if Nat.even n
      then Some ((nth (n / 2 - 1) xs 0%Q + nth (n / 2) xs 0%Q) / 2)%Q
      else Some (nth (n / 2) xs 0%Q)
  end.

(** The image a reducer makes of a collection, by its bands: the band of
    the images of the collection, reduced pixel by pixel, and no band at
    all when the collection has no image. *)
Definition reduce (reducer : list band -> band) (coll : list band) : list band :=
  match coll with
  | [] => []
  | _ => [reducer coll]
  end.

(** [collection.count()], [collection.mean()], [collection.median()]. *)
Definition count (u : unobserved) (coll : list band) : list band :=
  reduce (count_value u) coll.
Definition mean (coll : list band) : list band := reduce mean_value coll.
Definition median (coll : list band) : list band := reduce median_value coll.

(** [image.rename(name)] with one name, on the bands of a reduced image:
    the image has to have exactly one band, which takes the name. *)
Definition rename (bs : list band) (name : string) : result band :=
  match bs with
  | [b] => OK b
  | _ => Err ("Image.rename: the image does not have one band to call " ++ name)
  end.

(** Image properties are strings, numbers or booleans. *)
Inductive prop : Type :=
| PStr (s : string)
| PNum (q : Q)
| PBool (b : bool).

Record Image : Type := mkImage {
  bands : list (string * band);
  properties : gmap string prop
}.

Definition bandNames (img : Image) : list string := map fst (bands img).

Fixpoint lookup_band (name : string) (bs : list (string * band)) : option band :=
  match bs with
  | [] => None
  | (n, b) :: bs' => if String.eqb n name then Some b else lookup_band name bs'
  end.

(** [image.select(name)] of a single band; a band the image does not have
    is an error. *)
Definition select1 (img : Image) (name : string) : result band :=
  match lookup_band name (bands img) with
  | Some b => OK b
  | None => Err ("Image.select: band not found: " ++ name)
  end.

Fixpoint select_bands (from to : list string) (bs : list (string * band))
  : result (list (string * band)) :=
  match from, to with
  | [], [] => OK []
  | f :: from', t :: to' =>
      match lookup_band f bs with
      | Some b => rest <- select_bands from' to' bs ;; OK ((t, b) :: rest)
      | None => Err ("Image.select: band not found: " ++ f)
      end
  | _, _ => Err "Image.select: name lists differ in length"
  end.

(** [image.select(from, to)]: the bands [from], in that order, renamed to
    [to]; the properties are kept. *)
Definition select (img : Image) (from to : list string) : result Image :=
  bs <- select_bands from to (bands img) ;;
  OK (mkImage bs (properties img)).

Definition has_band (name : string) (bs : list (string * band)) : bool :=
  match lookup_band name bs with Some _ => true | None => false end.

(** [image.addBands(b)] of one band called [name]: appended; a name the
    image already has gets the suffix [_1]. *)
Definition addBand (img : Image) (name : string) (b : band) : Image :=
  let name' := if has_band name (bands img) then (name ++ "_1")%string else name in
  mkImage (bands img ++ [(name', b)]) (properties img).

Definition map_bands (f : band -> band) (img : Image) : Image :=
  mkImage (map (fun nb => (fst nb, f (snd nb))) (bands img)) (properties img).

(** [image.updateMask(mask)] with a single-band mask: every band is masked
    by it. *)
Definition updateMask_image (img : Image) (mask : band) : Image :=
  map_bands (fun b => updateMask b mask) img.

Definition get (img : Image) (key : string) : option prop :=
  properties img !! key.

Definition set (img : Image) (key : string) (v : prop) : Image :=
  mkImage (bands img) (<[key := v]> (properties img)).

(** [dest.copyProperties(source)]: the properties of [source] are added
    to those of [dest]. *)
Definition copyProperties (dest source : Image) : Image :=
  mkImage (bands dest) (properties source ∪ properties dest).

(** [image.propertyNames().contains(key)]. *)
Definition contains (img : Image) (key : string) : bool :=
  match properties img !! key with Some _ => true | None => false end.

(** [ee.Number(image.get(key))]: the property has to be there and to be a
    number. *)
Definition Number (key : string) (p : option prop) : result Q :=
  match p with
  | Some (PNum q) => OK q
  | Some _ => Err ("not a number: " ++ key)
  | None => Err ("property is null: " ++ key)
  end.

(** [ee.String(image.get(key))]. *)
Definition String (key : string) (p : option prop) : result string :=
  match p with
  | Some (PStr s) => OK s
  | Some _ => Err ("not a string: " ++ key)
  | None => Err ("property is null: " ++ key)
  end.

(** [s.slice(start, end)]. *)
Definition slice (s : string) (start stop : nat) : string :=
  substring start (stop - start) s.

Definition digit_value (c : Ascii.ascii) : option Z :=
  let n := Z.of_nat (Ascii.nat_of_ascii c) in
  if (48 <=? n) && (n <=? 57) then Some (n - 48) else None.

Fixpoint parse_digits (s : string) (acc : Z) : option Z :=
  match s with
  | EmptyString => Some acc
  | String.String c s' =>
      match digit_value c with
      | Some d => parse_digits s' (10 * acc + d)
      | None => None
      end
  end.

(** [ee.Number.parse(s)], for the strings the script parses: a non-empty
    run of decimal digits is its number, anything else is an error. *)
Definition Number_parse (s : string) : result Q :=
  match s with
  | EmptyString => Err "Number.parse: empty string"
  | _ =>
      match parse_digits s 0 with
      | Some n => OK (inject_Z n)
      | None => Err ("Number.parse: not a number: " ++ s)
      end
  end.

(** [ee.Dictionary(d).get(key)]: a missing key is an error. *)
Definition Dictionary_get {V : Type} (d : gmap string V) (key : string)
  : result V :=
  match d !! key with
  | Some v => OK v
  | None => Err ("Dictionary.get: no such key: " ++ key)
  end.

End EE.

(** ** Sample scenes and collaborators

    Concrete inputs on which the properties below are exercised: Landsat
    pixels as the archive delivers them (digital numbers and the QA_PIXEL
    bit field), and stand-ins for the assets the script reads. *)

Module Sample.

Definition props (id : string) : gmap string EE.prop :=
  list_to_map [
    ("SPACECRAFT_ID", EE.PStr id);
    ("SUN_ELEVATION", EE.PNum 60%Q);
    ("SUN_AZIMUTH", EE.PNum 135%Q);
    ("CLOUD_COVER", EE.PNum 10%Q);
    ("system:time_start", EE.PNum 962409600000%Q)
  ].

(** A clear pixel of an OLI scene (Landsat 8 and 9). *)
Definition bands_OLI : list (string * EE.band) :=
  [("SR_B1", Some 9000%Q); ("SR_B2", Some 12000%Q); ("SR_B3", Some 16000%Q);
   ("SR_B4", Some 18000%Q); ("SR_B5", Some 20000%Q); ("SR_B6", Some 15000%Q);
   ("SR_B7", Some 11000%Q); ("SR_QA_AEROSOL", Some 96%Q); ("ST_B10", Some 40000%Q);
   ("QA_PIXEL", Some 21824%Q); ("QA_RADSAT", Some 0%Q)].

(** A clear pixel of a TM or ETM+ scene (Landsat 4, 5 and 7). *)
Definition bands_TM : list (string * EE.band) :=
  [("SR_B1", Some 12000%Q); ("SR_B2", Some 16000%Q); ("SR_B3", Some 18000%Q);
   ("SR_B4", Some 20000%Q); ("SR_B5", Some 15000%Q); ("SR_B7", Some 11000%Q);
   ("SR_ATMOS_OPACITY", Some 100%Q); ("SR_CLOUD_QA", Some 0%Q);
   ("ST_B6", Some 40000%Q); ("QA_PIXEL", Some 5440%Q); ("QA_RADSAT", Some 0%Q)].

Definition scene_L8 : EE.Image := EE.mkImage bands_OLI (props "LANDSAT_8").
Definition scene_L5 : EE.Image := EE.mkImage bands_TM (props "LANDSAT_5").
Definition scene_L4 : EE.Image := EE.mkImage bands_TM (props "LANDSAT_4").

(** A scene without any solar geometry in its metadata. *)
Definition scene_plain : EE.Image :=
  EE.mkImage bands_OLI
    (list_to_map [("SPACECRAFT_ID", EE.PStr "LANDSAT_9");
                  ("system:time_start", EE.PNum 962409600000%Q)]).

Definition date_year (millis : Q) : Z := 2000.
(** NLCD with one land-cover code at the pixel, in every epoch. *)
Definition nlcd (code : Q) (year : Q) : option EE.band := Some (Some code).
Definition lon : Q := (-89.4)%Q.
Definition lat : Q := 43.07%Q.
(** A regression that answers with one value. *)
Definition rf (value : Q) (sensor : string) (biome : option Q) (xs : list Q) : Q :=
  value.
(** A regression that tells the biome it was trained for: 100 when it was
    trained on all the samples of the sensor. *)
Definition rf_biome (sensor : string) (biome : option Q) (xs : list Q) : Q :=
  match biome with Some b => b | None => 100%Q end.
(** A hull table that holds every bin, and one that holds none. *)
Definition hull_all (sensor : string) (i j k l : Z) : Q := 1%Q.
Definition hull_none (sensor : string) (i j k l : Z) : Q := 0%Q.
(** A hull table that holds every bin for Landsat 8 and 9 and none for
    the other sensors. *)
Definition hull_OLI (sensor : string) (i j k l : Z) : Q :=
  if String.eqb sensor "LC08" then 1%Q else 0%Q.
Definition no_scenes (year month : Z) : list EE.Image := [].
Definition one_scene (year month : Z) : list EE.Image := [scene_L8].
Definition two_scenes (year month : Z) : list EE.Image := [scene_L5; scene_L8].

(** A cloudy pixel of an OLI scene: bit 3 of QA_PIXEL is set. *)
Definition bands_cloudy : list (string * EE.band) :=
  [("SR_B1", Some 30000%Q); ("SR_B2", Some 31000%Q); ("SR_B3", Some 32000%Q);
   ("SR_B4", Some 33000%Q); ("SR_B5", Some 34000%Q); ("SR_B6", Some 30000%Q);
   ("SR_B7", Some 28000%Q); ("SR_QA_AEROSOL", Some 96%Q); ("ST_B10", Some 30000%Q);
   ("QA_PIXEL", Some 22280%Q); ("QA_RADSAT", Some 0%Q)].

Definition scene_cloudy : EE.Image := EE.mkImage bands_cloudy (props "LANDSAT_8").

(** A year with one clear scene in the month, followed by years with one
    cloudy scene. *)
Definition scenes_by_year (year month : Z) : list EE.Image :=
  if year =? 2000 then [scene_L8] else [scene_cloudy].

(** A clock that reads 2025 on every scene. *)
Definition date_year_2025 (millis : Q) : Z := 2025.

(** A regression that has the same answer for every biome. *)
Definition rf_any_biome (sensor : string) (biome : option Q) (xs : list Q) : Q :=
  100%Q.

(** A regression that tells what it was trained on: it answers 7 when it
    was trained on all the samples of the sensor, and [b] when it was
    trained on those of biome [b]. *)
Definition rf_trained_on (sensor : string) (biome : option Q) (xs : list Q) : Q :=
  match biome with Some b => b | None => 7%Q end.

(** The double nearest to 0.015, a little below it: its product with 100
    is the double 1.5. *)
Definition lai_near_tie : Q := EE.binary64 0.015.

(** A hull table that holds the bins from 0 to 9 and nothing outside. *)
Definition hull_inside (sensor : string) (i j k l : Z) : Q :=
  if (0 <=? i) && (i <=? 9) && (0 <=? j) && (j <=? 9)
     && (0 <=? k) && (k <=? 9) && (0 <=? l) && (l <=? 9)
  then 1%Q else 0%Q.

(** A pixel of a training image, as the QA band reads it. *)
Definition train_px : EE.Image :=
  EE.mkImage [("red", Some 3000%Q); ("green", Some 2400%Q); ("nir", Some 3500%Q);
              ("swir1", Some 2125%Q); ("biome2", Some 1%Q)] ∅.

(** Per-scene LAI images: a valid one, one with an LAI out of range, one
    of a non-vegetated pixel. *)
Definition lai_images : list EE.Image :=
  [EE.mkImage [("LAI", Some 200%Q); ("QA", Some 0%Q)] ∅;
   EE.mkImage [("LAI", Some 910%Q); ("QA", Some 2%Q)] ∅;
   EE.mkImage [("LAI", Some 400%Q); ("QA", Some 4%Q)] ∅].

End Sample.

(** ** The observation-density script

    [gee/obs_count_analysis.js] counts, for a pixel and a month, the scenes
    that are clear at the pixel, without running the retrieval.  The file
    holds the analysis script and the script that exports its results; the
    functions below are the same in the two and carry the names of the
    first. *)

Module ObsCount.

Section Density.

(** The scenes of the four Landsat collections inside the month of a
    year, the region and the cloud limit, merged. *)
Variable scenes : Z -> Z -> list EE.Image.
(** CONFIG: the years to average over. *)
Variable YEARS : list Z.
(** What the server's [count()] gives where no scene has data. *)
Variable count_unobserved : EE.unobserved.

(** QA mask: keep only clear land pixels (no cloud, shadow, water). *)
Definition maskLandsatQA (image : EE.Image) : result EE.Image :=
  qa <- EE.select1 image "QA_PIXEL" ;;
  let bit n := EE.constant (inject_Z (Z.shiftl 1 n)) in
  let cloud := EE.neq (EE.bitwiseAnd qa (bit 3)) (EE.constant 0) in
  let shadow := EE.neq (EE.bitwiseAnd qa (bit 4)) (EE.constant 0) in
  let water := EE.neq (EE.bitwiseAnd qa (bit 7)) (EE.constant 0) in
  OK (EE.updateMask_image image
        (EE.and (EE.and (EE.not cloud) (EE.not shadow)) (EE.not water))).

(** [col.map(maskLandsatQA).select(['SR_B1'], ['valid'])], on one scene:
    any band is kept as a placeholder for counting. *)
Definition makeValid (image : EE.Image) : result EE.band :=
  masked <- maskLandsatQA image ;;
  valid <- EE.select masked ["SR_B1"] ["valid"] ;;
  EE.select1 valid "valid".

(** Load all Landsat C02 L2 for a date range and region, apply QA mask. *)
Definition getLandsatValid (year month : Z) : result (list EE.band) :=
  mapM makeValid (scenes year month).

(** Count valid observations for a given year and month.  Of the
    properties of the result the start of the month is left out. *)
Definition getObsCount (year month : Z) : result EE.Image :=
  coll <- getLandsatValid year month ;;
  obs_count <- EE.rename (EE.count count_unobserved coll) "obs_count" ;;
  let obs := EE.mkImage [("obs_count", obs_count)] ∅ in
  OK (EE.set (EE.set obs "year" (EE.PNum (inject_Z year)))
             "month" (EE.PNum (inject_Z month))).

(** Average obs_count across multiple years for a given month. *)
Definition getMeanObsCount (month : Z) : result EE.band :=
  stack <- mapM (fun y => obs <- getObsCount y month ;; EE.select1 obs "obs_count")
                YEARS ;;
  EE.rename (EE.mean stack) "obs_count".

(** 1 = vegetated pixel, from the land cover of NLCD 2019. *)
Definition vegMask (landcover : EE.band) : EE.band :=
  EE.eq
    (EE.remap
       [11; 12; 21; 22; 23; 24; 31; 41; 42; 43; 51; 52; 71; 72; 73; 74; 81; 82; 90; 95]%Q
       [0; 0; 0; 0; 0; 0; 0; 1; 1; 1; 0; 1; 1; 0; 0; 0; 1; 1; 1; 1]%Q
       landcover)
    (EE.constant 1).

(** The gap image of a month: the vegetated pixels with fewer than 1
    valid observation on average. *)
Definition gapImg (month : Z) (landcover : EE.band) : result EE.band :=
  mean <- getMeanObsCount month ;;
  let img := EE.updateMask mean (vegMask landcover) in
  OK (EE.lt img (EE.constant 1)).

End Density.

End ObsCount.

(** ** The script *)

Section Retrieval.

Set Default Proof Using "Type".

(** *** CONFIG: the values a run is started with (the script has
    [NONVEG = false], [CLOUD_LIMIT = 50], [REDUCER = 'median']). *)
Variable NONVEG : bool.
Variable CLOUD_LIMIT : Q.
Variable REDUCER : string.

Definition LAI_version : string := "0.2.0".

(** *** The external collaborators, seen from the pixel. *)

(** [ee.Date(millis).get('year')]. *)
Variable date_year : Q -> Z.
(** The [landcover] band of the NLCD image whose year is the argument;
    [None] when the NLCD collection has no image of that year. *)
Variable nlcd_landcover : Q -> option EE.band.
(** [ee.Image.pixelLonLat()] at the pixel. *)
Variable pixel_lon pixel_lat : Q.
(** The random forest regression trained on the samples of a sensor, all
    of them or those of one biome, applied to a feature vector. *)
Variable train_rf : string -> option Q -> list Q -> Q.
(** The [in_hull] column of the convex-hull table of a sensor, sorted by
    index and reshaped to 10 x 10 x 10 x 10. *)
Variable hull_array_reshape : string -> Z -> Z -> Z -> Z -> Q.
(** [getLandsat] for the month of a year: the scenes of the four Landsat
    collections inside the dates, the region and the cloud limit, sorted
    by acquisition time. *)
Variable getLandsat : Z -> Z -> list EE.Image.
(** What the server's [count()] gives at a pixel where no image of the
    collection has data: 0, or no data. *)
Variable count_unobserved : EE.unobserved.

(** *** LAI FUNCTIONS *)

(** Rename Landsat bands (C02 L2); treat L9 same as L8. *)
Definition renameLandsat (image : EE.Image) : result EE.Image :=
  spacecraft <- EE.String "SPACECRAFT_ID" (EE.get image "SPACECRAFT_ID") ;;
  spacecraft_no <- EE.Number_parse (EE.slice spacecraft 8 9) ;;
  let isL8or9 := Qle_bool 8 spacecraft_no in
  let from :=
    if isL8or9
    then ["SR_B2"; "SR_B3"; "SR_B4"; "SR_B5"; "SR_B6"; "SR_B7"; "QA_PIXEL"]
    else ["SR_B1"; "SR_B2"; "SR_B3"; "SR_B4"; "SR_B5"; "SR_B7"; "QA_PIXEL"] in
  let to := ["blue"; "green"; "red"; "nir"; "swir1"; "swir2"; "pixel_qa"] in
  renamed <- EE.select image from to ;;
  OK (EE.set renamed "SPACECRAFT_NO" (EE.PNum spacecraft_no)).

(** Scale C02 SR to C01-like scale (0-10000). *)
Definition scaleLandsat (image : EE.Image) : result EE.Image :=
  sr <- EE.select image ["green"; "red"; "nir"; "swir1"]
                        ["green"; "red"; "nir"; "swir1"] ;;
  pixel_qa <- EE.select1 image "pixel_qa" ;;
  let scaled :=
    EE.map_bands
      (fun b => EE.divide
                  (EE.add (EE.multiply b (EE.constant 0.0000275%Q))
                          (EE.constant (-0.2)%Q))
                  (EE.constant 0.0001%Q)) sr in
  OK (EE.addBand scaled "pixel_qa" pixel_qa).

(** QA mask: remove cloud, shadow, water. *)
Definition maskLandsat (image : EE.Image) : result EE.Image :=
  qa <- EE.select1 image "pixel_qa" ;;
  let bit n := EE.constant (inject_Z (Z.shiftl 1 n)) in
  let cloud := EE.neq (EE.bitwiseAnd qa (bit 3)) (EE.constant 0) in
  let shadow := EE.neq (EE.bitwiseAnd qa (bit 4)) (EE.constant 0) in
  let water := EE.neq (EE.bitwiseAnd qa (bit 7)) (EE.constant 0) in
  OK (EE.updateMask_image
        (EE.updateMask_image
           (EE.updateMask_image image (EE.not cloud))
           (EE.not shadow))
        (EE.not water)).

(** Compute NDVI and NDWI (features for RF model). *)
Definition getVIs (img : EE.Image) : result EE.Image :=
  nir <- EE.select1 img "nir" ;;
  red <- EE.select1 img "red" ;;
  swir1 <- EE.select1 img "swir1" ;;
  let NDVI := EE.divide (EE.toFloat (EE.subtract nir red)) (EE.add nir red) in
  let NDWI := EE.divide (EE.toFloat (EE.subtract nir swir1)) (EE.add nir swir1) in
  OK (EE.addBand (EE.addBand img "NDVI" NDVI) "NDWI" NDWI).

(** The solar zenith of a scene: 90 - SUN_ELEVATION, else
    SOLAR_ZENITH_ANGLE, else 45.  [ee.Algorithms.If] selects one branch;
    the other one is not evaluated. *)
Definition solarZenith (image : EE.Image) : result Q :=
  if EE.contains image "SUN_ELEVATION"
  then
    sunElevation <- EE.Number "SUN_ELEVATION" (EE.get image "SUN_ELEVATION") ;;
    OK (90 - sunElevation)%Q
  else if EE.contains image "SOLAR_ZENITH_ANGLE"
  then EE.Number "SOLAR_ZENITH_ANGLE" (EE.get image "SOLAR_ZENITH_ANGLE")
  else OK 45%Q.

Definition solarAzimuth (image : EE.Image) : result Q :=
  if EE.contains image "SUN_AZIMUTH"
  then EE.Number "SUN_AZIMUTH" (EE.get image "SUN_AZIMUTH")
  else if EE.contains image "SOLAR_AZIMUTH_ANGLE"
  then EE.Number "SOLAR_AZIMUTH_ANGLE" (EE.get image "SOLAR_AZIMUTH_ANGLE")
  else OK 180%Q.

Definition processLandsat (image : EE.Image) : result EE.Image :=
  renamed_image <- renameLandsat image ;;
  rescaled_image <- scaleLandsat renamed_image ;;
  masked_image <- maskLandsat rescaled_image ;;
  final_image <- getVIs masked_image ;;
  solarZenith <- solarZenith image ;;
  solarAzimuth <- solarAzimuth image ;;
  OK (EE.set
        (EE.set (EE.copyProperties final_image image)
                "SOLAR_AZIMUTH_ANGLE" (EE.PNum solarAzimuth))
        "SOLAR_ZENITH_ANGLE" (EE.PNum solarZenith)).

(** LAI QA band (3 LSBits)
    bit0: input reflectance out of training range
    bit1: predicted LAI out of valid range (0-8)
    bit2: non-vegetation biome (biome=0) *)
Definition red_max : Q := 5100.
Definition green_max : Q := 5100.
Definition nir_max : Q := 7100.
Definition swir1_max : Q := 7100.
Definition lai_max : Q := 8.

(** [band.divide(max).multiply(10).floor().toInt()] *)
Definition scaled_bin (b : EE.band) (max : Q) : EE.band :=
  EE.toInt (EE.floor (EE.multiply (EE.divide b (EE.constant max)) (EE.constant 10))).

Definition range_mask (red green nir swir1 : EE.band) : EE.band :=
  EE.and (EE.and (EE.and (EE.and (EE.and (EE.and (EE.and
    (EE.gte red (EE.constant 0))
    (EE.lt red (EE.constant red_max)))
    (EE.gte green (EE.constant 0)))
    (EE.lt green (EE.constant green_max)))
    (EE.gte nir (EE.constant 0)))
    (EE.lt nir (EE.constant nir_max)))
    (EE.gte swir1 (EE.constant 0)))
    (EE.lt swir1 (EE.constant swir1_max)).

Definition in_mask (sensor : string) (red green nir swir1 : EE.band) : EE.band :=
  let hull_array_reshape := hull_array_reshape sensor in
  let image_scaled_red := scaled_bin red red_max in
  let image_scaled_green := scaled_bin green green_max in
  let image_scaled_nir := scaled_bin nir nir_max in
  let image_scaled_swir1 := scaled_bin swir1 swir1_max in
  let range_mask := range_mask red green nir swir1 in
  let hull_image :=
    match EE.updateMask (EE.multiply image_scaled_red (EE.constant 0)) range_mask with
    | Some _ => Some hull_array_reshape
    | None => None
    end in
  EE.toByte (EE.not (EE.unmask
    (EE.arrayGet hull_image
       (EE.updateMask image_scaled_red range_mask)
       (EE.updateMask image_scaled_green range_mask)
       (EE.updateMask image_scaled_nir range_mask)
       (EE.updateMask image_scaled_swir1 range_mask))
    0)).

Definition out_mask (lai : EE.band) : EE.band :=
  EE.toInt (EE.not (EE.and (EE.gte lai (EE.constant 0))
                           (EE.lte lai (EE.constant lai_max)))).

Definition biome_mask (biome2 : EE.band) : EE.band :=
  EE.toInt (EE.eq biome2 (EE.constant 0)).

Definition getLAIQA (landsat : EE.Image) (sensor : string) (lai : EE.band)
  : result EE.band :=
  red <- EE.select1 landsat "red" ;;
  green <- EE.select1 landsat "green" ;;
  nir <- EE.select1 landsat "nir" ;;
  swir1 <- EE.select1 landsat "swir1" ;;
  biome2 <- EE.select1 landsat "biome2" ;;
  let in_mask := in_mask sensor red green nir swir1 in
  let out_mask := out_mask lai in
  let biome_mask := biome_mask biome2 in
  let qa_band :=
    EE.toByte (EE.bitwiseOr
      (EE.bitwiseOr in_mask (EE.leftShift out_mask (EE.constant 1)))
      (EE.leftShift biome_mask (EE.constant 2))) in
  OK qa_band.

(** Map image year to nearest NLCD epoch. *)
Definition nlcd_dict : gmap string string :=
  list_to_map [
    ("1984","2001"); ("1985","2001"); ("1986","2001"); ("1987","2001");
    ("1988","2001"); ("1989","2001"); ("1990","2001"); ("1991","2001");
    ("1992","2001"); ("1993","2001"); ("1994","2001"); ("1995","2001");
    ("1996","2001"); ("1997","2001"); ("1998","2001"); ("1999","2001");
    ("2000","2001"); ("2001","2001"); ("2002","2001");
    ("2003","2004"); ("2004","2004"); ("2005","2004");
    ("2006","2006"); ("2007","2006");
    ("2008","2008"); ("2009","2008");
    ("2010","2011"); ("2011","2011"); ("2012","2011");
    ("2013","2013"); ("2014","2013");
    ("2015","2016"); ("2016","2016"); ("2017","2016");
    ("2018","2019"); ("2019","2019"); ("2020","2019"); ("2021","2021");
    ("2022","2021"); ("2023","2021"); ("2024","2021")
  ].

(** Map NLCD classes to LAI biome types (0=non-veg, 1-8=vegetation biomes). *)
Definition fromList : list Q :=
  [11; 12; 21; 22; 23; 24; 31; 41; 42; 43; 51; 52; 71; 72; 73; 74; 81; 82; 90; 95]%Q.
Definition toList : list Q :=
  [0; 0; 0; 0; 0; 0; 0; 1; 2; 3; 0; 4; 5; 0; 0; 0; 5; 6; 7; 8]%Q.

(** The NLCD epoch of a scene: the entry of [nlcd_dict] for the year of
    its acquisition, printed with [format('%d')], parsed as a number. *)
Definition nlcd_year (image : EE.Image) : result Q :=
  time_start <- EE.Number "system:time_start" (EE.get image "system:time_start") ;;
  let year := pretty (date_year time_start) in
  epoch <- EE.Dictionary_get nlcd_dict year ;;
  EE.Number_parse epoch.

Definition getTrainImg (image : EE.Image) : result EE.Image :=
  nlcd_year <- nlcd_year image ;;
  landcover <-
    match nlcd_landcover nlcd_year with
    | Some b => OK b
    | None => Err "Image.select: the NLCD image is null"
    end ;;
  let biome := EE.remap fromList toList landcover in
  image <- processLandsat image ;;
  pixel_qa <- EE.select1 image "pixel_qa" ;;
  let mask_img := EE.multiply pixel_qa (EE.constant 0) in
  sunZenith <- EE.Number "SOLAR_ZENITH_ANGLE" (EE.get image "SOLAR_ZENITH_ANGLE") ;;
  sunAzimuth <- EE.Number "SOLAR_AZIMUTH_ANGLE" (EE.get image "SOLAR_AZIMUTH_ANGLE") ;;
  let image := EE.addBand image "biome2" biome in
  let image := EE.addBand image "lon" (EE.add mask_img (EE.constant pixel_lon)) in
  let image := EE.addBand image "lat" (EE.add mask_img (EE.constant pixel_lat)) in
  let image := EE.addBand image "sun_zenith" (EE.toFloat (EE.constant sunZenith)) in
  let image := EE.addBand image "sun_azimuth" (EE.toFloat (EE.constant sunAzimuth)) in
  let image := EE.addBand image "mask" (EE.add mask_img (EE.constant 1)) in
  OK (EE.set image "nlcd_year" (EE.PNum nlcd_year)).

(** Train biome-specific RF model.  [getRFModel] runs in the client: its
    [biome > 0] is a JavaScript comparison of the value it is handed.  A
    JavaScript number is compared as such; a server-side [ee.Number] is an
    object, which the comparison converts to NaN, so that the test is
    false. *)
Inductive js_value : Type :=
| JsNumber (q : Q)
| EeNumber (q : Q).

Definition js_gt_0 (v : js_value) : bool :=
  match v with
  | JsNumber q => negb (Qle_bool q 0)
  | EeNumber _ => false
  end.

Definition ee_value (v : js_value) : Q :=
  match v with
  | JsNumber q => q
  | EeNumber q => q
  end.

Definition features : list string :=
  ["red"; "green"; "nir"; "swir1"; "lat"; "lon"; "NDVI"; "NDWI";
   "sun_zenith"; "sun_azimuth"].

Definition getRFModel (sensor : string) (biome : js_value) : list Q -> Q :=
  let biome_filter := None in
  let biome_filter := if js_gt_0 biome then Some (ee_value biome) else biome_filter in
  train_rf sensor biome_filter.

(** [image.classify(rf_model, 'LAI')]: the model applied to the feature
    bands; masked where one of them is. *)
Definition classify (image : EE.Image) (rf_model : list Q -> Q) : result EE.band :=
  inputs <- mapM (EE.select1 image) features ;;
  OK (match EE.all_valid inputs with
      | Some xs => Some (rf_model xs)
      | None => None
      end).

Definition getLAIforBiome (image : EE.Image) (rf_model : list Q -> Q)
    (biome : js_value) : result EE.band :=
  biome2 <- EE.select1 image "biome2" ;;
  classify
    (EE.updateMask_image image (EE.eq biome2 (EE.constant (ee_value biome))))
    rf_model.

Definition sensor_dict : gmap string string :=
  list_to_map [("5","LT05"); ("7","LE07"); ("8","LC08"); ("9","LC08")].

Definition sentinel : Q := 9999.

(** One round of [biomes.forEach]: the pixels of biome [b] take the value
    of the model of that biome. *)
Definition overlay_biome (train_img : EE.Image) (sensor : string)
    (lai_img : EE.band) (b : Q) : result EE.band :=
  let biome := EeNumber b in
  biome2 <- EE.select1 train_img "biome2" ;;
  value <- getLAIforBiome train_img (getRFModel sensor biome) biome ;;
  OK (EE.where_ lai_img (EE.eq biome2 (EE.constant (ee_value biome))) value).

Definition biomes_of (nonveg : bool) : list Q :=
  if nonveg then [0; 1; 2; 3; 4; 5; 6; 7; 8]%Q else [1; 2; 3; 4; 5; 6; 7; 8]%Q.

(** The LAI band of [getLAIImage] before its sentinel is masked: 9999
    on the valid pixels of the scene, overlaid biome by biome. *)
Definition lai_overlay (train_img : EE.Image) (sensor : string) (biomes : list Q)
  : result EE.band :=
  mask <- EE.select1 train_img "mask" ;;
  let lai_img :=
    EE.toDouble (EE.add (EE.multiply mask (EE.constant 0)) (EE.constant sentinel)) in
  foldM (overlay_biome train_img sensor) biomes lai_img.

(** [lai.multiply(100).round().clamp(0,65535).uint16()], on the LAI band
    of type double. *)
Definition scale_LAI (lai_img : EE.band) : EE.band :=
  EE.toUint16 (EE.clamp 0 65535
    (EE.round (EE.multiply_double lai_img (EE.constant 100)))).

(** Retrieve LAI for a single Landsat scene. *)
Definition getLAIImage (image : EE.Image) (nonveg : option bool) : result EE.Image :=
  let nonveg := match nonveg with Some b => b | None => false end in
  spacecraft <- EE.String "SPACECRAFT_ID" (EE.get image "SPACECRAFT_ID") ;;
  let satDigit := EE.slice spacecraft 8 9 in
  sensor <- EE.Dictionary_get sensor_dict satDigit ;;
  train_img <- getTrainImg image ;;
  let biomes := biomes_of nonveg in
  lai_img <- lai_overlay train_img sensor biomes ;;
  let lai_img := EE.updateMask lai_img (EE.neq lai_img (EE.constant sentinel)) in
  qa <- getLAIQA train_img sensor lai_img ;;
  let out :=
    EE.addBand (EE.mkImage [("LAI", scale_LAI lai_img)] ∅) "QA" (EE.toByte qa) in
  let out := EE.copyProperties out image in
  let out :=
    match EE.get image "system:time_start" with
    | Some t => EE.set out "system:time_start" t
    | None => out
    end in
  let out := EE.set out "LAI_scale_factor" (EE.PNum 0.01%Q) in
  let out :=
    match EE.get train_img "nlcd_year" with
    | Some y => EE.set out "LAI_NLCD_year" y
    | None => out
    end in
  let out := EE.set out "LAI_nonveg" (EE.PBool nonveg) in
  OK (EE.set out "LAI_version" (EE.PStr LAI_version)).

(** *** MONTHLY COMPOSITE *)

Definition validMaskFromQA (qa : EE.band) : EE.band :=
  let bad_input := EE.neq (EE.bitwiseAnd qa (EE.constant 1)) (EE.constant 0) in
  let bad_lai := EE.neq (EE.bitwiseAnd qa (EE.constant 2)) (EE.constant 0) in
  EE.not (EE.or bad_input bad_lai).

(** The function mapped over the scenes of the month, from the per-scene
    LAI image on: its LAI band, masked by the validity of its QA band. *)
Definition maskedLAI (laiImg : EE.Image) : result EE.band :=
  qa <- EE.select1 laiImg "QA" ;;
  let valid := validMaskFromQA qa in
  lai <- EE.select1 laiImg "LAI" ;;
  OK (EE.updateMask lai valid).

(** The reduction of the masked stack: the composite LAI and the count of
    observations.  A month without scenes is reduced over one image that is
    masked everywhere. *)
Definition reduceMonthly (laiColl : list EE.band) : result (EE.band * EE.band) :=
  let collSize := length laiColl in
  let empty := EE.updateMask (EE.constant 0) (EE.constant 0) in
  let safeColl := if (0 <? collSize)%nat then laiColl else [empty] in
  let laiMonthly :=
    if String.eqb REDUCER "mean" then EE.mean safeColl else EE.median safeColl in
  laiMonthly <- EE.rename laiMonthly "LAI" ;;
  let laiMonthly := EE.toUint16 laiMonthly in
  count <- EE.rename (EE.count count_unobserved safeColl) "obs_count" ;;
  let count := EE.toUint16 count in
  OK (laiMonthly, count).

(** The composite of a month at the pixel.  Of the metadata of the
    output the dates and the state code are left out, and so is the
    reprojection, which moves no value. *)
Definition buildMonthlyLAI (year month : Z) : result EE.Image :=
  let lstack := getLandsat year month in
  laiColl <- mapM (fun img =>
                     laiImg <- getLAIImage img (Some NONVEG) ;;
                     maskedLAI laiImg) lstack ;;
  reduced <- reduceMonthly laiColl ;;
  let '(laiMonthly, count) := reduced in
  let out := EE.addBand (EE.mkImage [("LAI", laiMonthly)] ∅) "obs_count" count in
  let out := EE.set out "year" (EE.PNum (inject_Z year)) in
  let out := EE.set out "month" (EE.PNum (inject_Z month)) in
  let out := EE.set out "LAI_scale_factor" (EE.PNum 0.01%Q) in
  let out := EE.set out "composite_reducer" (EE.PStr REDUCER) in
  let out := EE.set out "nonveg" (EE.PBool NONVEG) in
  let out := EE.set out "cloud_limit" (EE.PNum CLOUD_LIMIT) in
  OK (EE.set out "LAI_version" (EE.PStr LAI_version)).

(** *** SOURCES (States): the state of a run *)

(** [STATE_CODE]: the override when it is not empty, else the entry of
    the sorted state codes at [STATE_INDEX], the index being brought into
    the list; an array read outside its indices is [undefined], here
    [None]. *)
Definition STATE_CODE (STATE_CODE_OVERRIDE : string) (STATE_INDEX : Z)
    (stateCodes : list string) : option string :=
  if negb (String.eqb STATE_CODE_OVERRIDE "")
  then Some STATE_CODE_OVERRIDE
  else
    let i := Z.min (Z.max STATE_INDEX 0) (Z.of_nat (length stateCodes) - 1) in
    if i <? 0 then None else nth_error stateCodes (Z.to_nat i).

(** *** EXPORT *)

(** An export task as the client enqueues it.  The image of a task is
    computed when the task runs: a computation that fails there does not
    keep the task from being enqueued. *)
Inductive export_task : Type :=
| toAsset (image : result EE.Image) (description assetId : string)
| toDrive (image : result EE.Image) (description fileNamePrefix folder : string).

Definition exportMonthlyImageForState (EXPORT_TO ASSET_ROOT DRIVE_FOLDER : string)
    (img : result EE.Image) (year month : Z) (stateCode : string) : export_task :=
  let mm := if month <? 10 then ("0" ++ pretty month)%string else pretty month in
  let name := ("LAI_" ++ stateCode ++ "_" ++ pretty year ++ "_" ++ mm)%string in
  if String.eqb EXPORT_TO "Asset"
  then toAsset img name (ASSET_ROOT ++ "/" ++ name)%string
  else toDrive img name name DRIVE_FOLDER.

(** ENQUEUE 12 MONTHLY EXPORTS *)
Definition enqueue (EXPORT_TO ASSET_ROOT DRIVE_FOLDER : string)
    (YEAR_TO_EXPORT : Z) (STATE_CODE : string) : list export_task :=
  map (fun m =>
         let im := buildMonthlyLAI YEAR_TO_EXPORT m in
         exportMonthlyImageForState EXPORT_TO ASSET_ROOT DRIVE_FOLDER
           im YEAR_TO_EXPORT m STATE_CODE)
      [1; 2; 3; 4; 5; 6; 7; 8; 9; 10; 11; 12].

(** ** Definitions for the statements

    What the properties below speak of: the bits of a QA value, the pixels
    the compositor keeps, the encoding of an LAI value as the
    specification words it, the reading of the hull table, the steps of the
    normalizer, and the rounds of the overlay. *)

(** Bit [n] of a QA value. *)
Definition qa_bit (q : Q) (n : Z) : bool := Z.testbit (EE.trunc q) n.

(** A per-scene LAI image keeps its pixel in the monthly stack: its LAI
    and QA bands are valid there and bits 0 and 1 of the QA are clear. *)
Definition pixel_retained (laiImg : EE.Image) : bool :=
  match EE.lookup_band "LAI" (EE.bands laiImg), EE.lookup_band "QA" (EE.bands laiImg) with
  | Some (Some _), Some (Some q) => negb (qa_bit q 0 || qa_bit q 1)
  | _, _ => false
  end.

Definition is_valid (b : EE.band) : bool :=
  match b with Some _ => true | None => false end.

(** The band of a count of [n] images: the number, and where it is 0 what
    the server's [count()] gives at a pixel without observation. *)
Definition count_band (u : EE.unobserved) (n : Z) : EE.band :=
  if n =? 0 then EE.unobserved_value u else Some (inject_Z n).

(** The code the script stores for an LAI value:
    [multiply(100).round().clamp(0,65535).uint16()], the product being a
    double. *)
Definition stored_code (v : Q) : Z :=
  Z.max 0 (Z.min 65535 (EE.round_Z (EE.binary64 (v * 100)))).

(** The clamp of an LAI value to its valid domain, and the encoding as the
    specification words it: round(clamp(value, 0, 8) * 100). *)
Definition clamp_0_8 (v : Q) : Q := Qmax 0 (Qmin 8 v).
Definition encode_spec (v : Q) : Z := EE.round_Z (clamp_0_8 v * 100).

(** A reflectance inside its valid range [0, max), and its bin when the
    range is cut into 10 bins of equal width. *)
Definition in_range (x max : Q) : bool := Qle_bool 0 x && negb (Qle_bool max x).
Definition bin (x max : Q) : Z := Qfloor (x / max * 10).

(** The pixel is inside the training data of the sensor: the four
    reflectances are valid and inside their ranges, and the hull table is
    non-zero at their bins. *)
Definition in_training_hull (sensor : string) (red green nir swir1 : EE.band) : bool :=
  match red, green, nir, swir1 with
  | Some r, Some g, Some n, Some s =>
      in_range r red_max && in_range g green_max
      && in_range n nir_max && in_range s swir1_max
      && EE.nonzero (hull_array_reshape sensor (bin r red_max) (bin g green_max)
                                        (bin n nir_max) (bin s swir1_max))
  | _, _, _, _ => false
  end.

(** [bit0 | (bit1 << 1) | (bit2 << 2)] *)
Definition qa_code (bit0 bit1 bit2 : bool) : Z :=
  Z.lor (Z.lor (Z.b2z bit0) (Z.shiftl (Z.b2z bit1) 1)) (Z.shiftl (Z.b2z bit2) 2).

Definition lai_out_of_range (l : Q) : bool := negb (Qle_bool 0 l && Qle_bool l lai_max).

(** The QA band, band by band. *)
Definition qa_band_spec (sensor : string) (red green nir swir1 biome2 lai : EE.band)
  : EE.band :=
  match lai, biome2 with
  | Some l, Some b =>
      Some (inject_Z (qa_code (negb (in_training_hull sensor red green nir swir1))
                              (lai_out_of_range l)
                              (Qeq_bool b 0)))
  | _, _ => None
  end.

Definition canonical_bands : list string :=
  ["blue"; "green"; "red"; "nir"; "swir1"; "swir2"; "pixel_qa"].

Definition scale_value (b : EE.band) : EE.band :=
  EE.divide (EE.add (EE.multiply b (EE.constant 0.0000275%Q)) (EE.constant (-0.2)%Q))
            (EE.constant 0.0001%Q).

(** The first two steps of [processLandsat]: renaming, then rescaling. *)
Definition normalizeLandsat (image : EE.Image) : result EE.Image :=
  renamed_image <- renameLandsat image ;;
  scaleLandsat renamed_image.

Definition bands_L57 : list string :=
  ["SR_B1"; "SR_B2"; "SR_B3"; "SR_B4"; "SR_B5"; "SR_B7"; "QA_PIXEL"].
Definition bands_L89 : list string :=
  ["SR_B2"; "SR_B3"; "SR_B4"; "SR_B5"; "SR_B6"; "SR_B7"; "QA_PIXEL"].

(** The character of the spacecraft id that tells the sensor. *)
Definition satDigit_of (image : EE.Image) : option string :=
  match EE.get image "SPACECRAFT_ID" with
  | Some (EE.PStr id) => Some (EE.slice id 8 9)
  | _ => None
  end.

Definition has_bands (names : list string) (image : EE.Image) : bool :=
  forallb (fun n => EE.has_band n (EE.bands image)) names.

Definition mask_bands (m : EE.band) (bs : list EE.band) : list EE.band :=
  map (fun b => EE.updateMask b m) bs.

(** The value the model of biome [b] has at a pixel: the model applied to
    the feature bands, masked to the pixels of biome [b]. *)
Definition biome_value (sensor : string) (feats : list EE.band) (biome2 : EE.band)
    (b : Q) : EE.band :=
  match EE.all_valid (mask_bands (EE.eq biome2 (EE.constant b)) feats) with
  | Some xs => Some (getRFModel sensor (EeNumber b) xs)
  | None => None
  end.

Fixpoint distinct (l : list Q) : bool :=
  match l with
  | [] => true
  | x :: l' => negb (existsb (Qeq_bool x) l') && distinct l'
  end.

(** The LAI band once the pixels that kept the sentinel are masked. *)
Definition final_lai (lai_img : EE.band) : EE.band :=
  EE.updateMask lai_img (EE.neq lai_img (EE.constant sentinel)).

Definition sentinel_image (mask : EE.band) : EE.band :=
  EE.toDouble (EE.add (EE.multiply mask (EE.constant 0)) (EE.constant sentinel)).

Definition bands_of (r : result EE.Image) : result (list (string * EE.band)) :=
  img <- r ;; OK (EE.bands img).

(** A pixel of clear land: it has a QA value in which cloud (bit 3),
    cloud shadow (bit 4) and water (bit 7) are clear. *)
Definition clear_land (qa : EE.band) : bool :=
  match qa with
  | Some q => negb (qa_bit q 3 || qa_bit q 4 || qa_bit q 7)
  | None => false
  end.

Definition keep_if (c : bool) (b : EE.band) : EE.band := if c then b else None.

(** [float(a - b) / (a + b)] *)
Definition normalized_difference (a b : EE.band) : EE.band :=
  EE.divide (EE.toFloat (EE.subtract a b)) (EE.add a b).

(** The years of the NLCD images. *)
Definition nlcd_epochs : list Z := [2001; 2004; 2006; 2008; 2011; 2013; 2016; 2019; 2021].

(** The solar metadata of a scene can be read: the first property that is
    there, of the one the script prefers and the one it falls back to, is a
    number. *)
Definition is_number (p : EE.prop) : bool :=
  match p with EE.PNum _ => true | _ => false end.

Definition solar_ok (image : EE.Image) (preferred fallback : string) : bool :=
  match EE.get image preferred with
  | Some p => is_number p
  | None =>
      match EE.get image fallback with
      | Some p => is_number p
      | None => true
      end
  end.

(** A scene can be renamed: its spacecraft id is a string whose ninth
    character is a digit, and it has the seven bands of the band set that
    this digit selects. *)
Definition renamable (image : EE.Image) : Prop :=
  exists id no,
    EE.get image "SPACECRAFT_ID" = Some (EE.PStr id) /\
    EE.Number_parse (EE.slice id 8 9) = OK no /\
    has_bands (if Qle_bool 8 no then bands_L89 else bands_L57) image = true.

(** The epoch nearest to a year; of two epochs that are equally near, the
    earlier one. *)
Definition nearer (y a b : Z) : Z :=
  if Z.abs (y - b) <? Z.abs (y - a) then b else a.
Definition nearest_epoch (y : Z) : Z := fold_left (nearer y) nlcd_epochs 2001.

(** The years [nlcd_dict] has an entry for. *)
Definition nlcd_years : list Z := map Z.of_nat (seq 1984 41).

(** What the retrieval needs of a scene: the spacecraft id of Landsat 5,
    7, 8 or 9 with the bands of its band set, solar metadata that can be
    read, an acquisition time in a year from 1984 to 2024, and an NLCD
    image of the epoch nearest to that year. *)
Definition retrievable (image : EE.Image) : Prop :=
  (exists d,
      satDigit_of image = Some d /\
      ((In d ["5"; "7"] /\ has_bands bands_L57 image = true) \/
       (In d ["8"; "9"] /\ has_bands bands_L89 image = true))) /\
  solar_ok image "SUN_ELEVATION" "SOLAR_ZENITH_ANGLE" = true /\
  solar_ok image "SUN_AZIMUTH" "SOLAR_AZIMUTH_ANGLE" = true /\
  exists t,
    EE.get image "system:time_start" = Some (EE.PNum t) /\
    1984 <= date_year t <= 2024 /\
    nlcd_landcover (inject_Z (nearest_epoch (date_year t))) <> None.

Definition task_description (task : export_task) : string :=
  match task with
  | toAsset _ description _ => description
  | toDrive _ description _ _ => description
  end.

(** Where the image of a task is written: the asset id, or the folder and
    the file name prefix on Drive. *)
Definition task_target (task : export_task) : string * string :=
  match task with
  | toAsset _ _ assetId => ("", assetId)
  | toDrive _ _ fileNamePrefix folder => (folder, fileNamePrefix)
  end.

(** The two digits of a month:
    [month < 10 ? '0' + month : '' + month]. *)
Definition month_mm (month : Z) : string :=
  if month <? 10 then ("0" ++ pretty month)%string else pretty month.

(** A scene is clear at the pixel; and a scene the observation-density
    script counts: it is clear there and its band SR_B1 has data. *)
Definition clear_scene (image : EE.Image) : bool :=
  match EE.lookup_band "QA_PIXEL" (EE.bands image) with
  | Some qa => clear_land qa
  | None => false
  end.

Definition counted_scene (image : EE.Image) : bool :=
  match EE.lookup_band "SR_B1" (EE.bands image),
        EE.lookup_band "QA_PIXEL" (EE.bands image) with
  | Some b, Some qa => is_valid b && clear_land qa
  | _, _ => false
  end.

(** The number of scenes the observation-density script counts in each of
    the years, for one month. *)
Definition yearly_counts (scenes : Z -> Z -> list EE.Image) (YEARS : list Z)
    (month : Z) : list nat :=
  map (fun y => length (List.filter counted_scene (scenes y month))) YEARS.

Definition total (counts : list nat) : nat := fold_right Nat.add 0%nat counts.

(** A year with an observation. *)
Definition observed (k : nat) : bool := negb (Nat.eqb k 0).

(** The entry of [nlcd_dict] for a year, parsed. *)
Definition nlcd_epoch_of (y : Z) : result Q :=
  epoch <- EE.Dictionary_get nlcd_dict (pretty y) ;;
  EE.Number_parse epoch.

(** * Properties *)

(** ** Pixel arithmetic *)

Lemma nonzero_b2q (b : bool) : EE.nonzero (EE.b2q b) = b.
Proof. destruct b; reflexivity. Qed.

Lemma Qeq_bool_inject_Z (a b : Z) : Qeq_bool (inject_Z a) (inject_Z b) = (a =? b).
Proof.
  unfold Qeq_bool, inject_Z; simpl.
  now rewrite !Z.mul_1_r.
Qed.

Lemma trunc_inject_Z (z : Z) : EE.trunc (inject_Z z) = z.
Proof.
  unfold EE.trunc. destruct (Qle_bool 0 (inject_Z z)).
  - apply Qfloor_Z.
  - apply Qceiling_Z.
Qed.

Lemma land_1_testbit (z : Z) : (Z.land z 1 =? 0) = negb (Z.testbit z 0).
Proof.
  change 1 with (Z.ones 1). rewrite Z.land_ones by lia.
  rewrite Z.bit0_odd, <- Z.negb_even, Bool.negb_involutive.
  change (2 ^ 1) with 2. rewrite Zmod_even.
  destruct (Z.even z); reflexivity.
Qed.

Lemma land_2_testbit (z : Z) : (Z.land z 2 =? 0) = negb (Z.testbit z 1).
Proof.
  assert (H : Z.land z 2 = if Z.testbit z 1 then 2 else 0).
  { apply Z.bits_inj'. intros n Hn.
    rewrite Z.land_spec.
    destruct (Z.eq_dec n 1) as [->|Hne].
    - destruct (Z.testbit z 1); reflexivity.
    - assert (H2 : Z.testbit 2 n = false).
      { change 2 with (2 ^ 1). apply Z.pow2_bits_false. lia. }
      rewrite H2, Bool.andb_false_r.
      destruct (Z.testbit z 1); [now rewrite H2 | now rewrite Z.bits_0]. }
  rewrite H. destruct (Z.testbit z 1); reflexivity.
Qed.

(** ** C1: the validity mask of the compositor *)

Lemma validMaskFromQA_Some (q : Q) :
  validMaskFromQA (Some q)
  = Some (EE.b2q (negb (Z.testbit (EE.trunc q) 0 || Z.testbit (EE.trunc q) 1))).
Proof.
  unfold validMaskFromQA, EE.not, EE.or, EE.neq, EE.bitwiseAnd, EE.constant.
  cbn [EE.lift1 EE.lift2].
  rewrite !nonzero_b2q.
  change 1%Q with (inject_Z 1). change 2%Q with (inject_Z 2). change 0%Q with (inject_Z 0).
  rewrite !trunc_inject_Z, !Qeq_bool_inject_Z, land_1_testbit, land_2_testbit.
  rewrite !Bool.negb_involutive. reflexivity.
Qed.

Lemma maskedLAI_spec (laiImg : EE.Image) (out : EE.band) :
  maskedLAI laiImg = OK out ->
  exists lai qa,
    EE.select1 laiImg "LAI" = OK lai /\ EE.select1 laiImg "QA" = OK qa /\
    out = match lai, qa with
          | Some v, Some q => if negb (qa_bit q 0 || qa_bit q 1) then Some v else None
          | _, _ => None
          end.
Proof.
  unfold maskedLAI, bind.
  destruct (EE.select1 laiImg "QA") as [qa|e]; [|discriminate].
  destruct (EE.select1 laiImg "LAI") as [lai|e]; [|discriminate].
  intros [= <-]. exists lai, qa. repeat split.
  destruct lai as [v|], qa as [q|]; try reflexivity.
  rewrite validMaskFromQA_Some. unfold EE.updateMask. now rewrite nonzero_b2q.
Qed.

Lemma maskedLAI_valid (laiImg : EE.Image) (out : EE.band) :
  maskedLAI laiImg = OK out -> is_valid out = pixel_retained laiImg.
Proof.
  intros H. destruct (maskedLAI_spec _ _ H) as (lai & qa & Hl & Hq & ->).
  unfold pixel_retained. unfold EE.select1 in Hl, Hq.
  destruct (EE.lookup_band "LAI" (EE.bands laiImg)) as [l|]; [|discriminate].
  destruct (EE.lookup_band "QA" (EE.bands laiImg)) as [q|]; [|discriminate].
  injection Hl as <-. injection Hq as <-.
  destruct l as [v|], q as [q|]; try reflexivity.
  destruct (negb (qa_bit q 0 || qa_bit q 1)); reflexivity.
Qed.

Lemma valid_values_length (coll : list EE.band) :
  length (EE.valid_values coll) = length (List.filter is_valid coll).
Proof.
  induction coll as [|[x|] coll IH]; simpl; congruence.
Qed.

Lemma mapM_maskedLAI_count (imgs : list EE.Image) (coll : list EE.band) :
  mapM maskedLAI imgs = OK coll ->
  length (List.filter is_valid coll) = length (List.filter pixel_retained imgs).
Proof.
  revert coll. induction imgs as [|img imgs IH]; simpl; intros coll H.
  - injection H as <-. reflexivity.
  - unfold bind in H.
    destruct (maskedLAI img) as [out|e] eqn:Hout; [|discriminate].
    destruct (mapM maskedLAI imgs) as [outs|e]; [|discriminate].
    injection H as <-. simpl.
    rewrite (maskedLAI_valid _ _ Hout).
    destruct (pixel_retained img); simpl; rewrite (IH outs); reflexivity.
Qed.

Lemma saturate_inject_Z (lo hi z : Z) :
  EE.saturate lo hi (inject_Z z) = inject_Z (Z.max lo (Z.min hi z)).
Proof. unfold EE.saturate. now rewrite trunc_inject_Z. Qed.

(** The reduction never fails: the stack it reduces has an image, the
    one that is masked everywhere when the month has none. *)
Lemma reduceMonthly_closed_form (coll : list EE.band) :
  let safeColl := match coll with [] => [None] | _ => coll end in
  reduceMonthly coll
  = OK (EE.toUint16 (if String.eqb REDUCER "mean"
                     then EE.mean_value safeColl else EE.median_value safeColl),
        EE.toUint16 (EE.count_value count_unobserved safeColl)).
Proof.
  unfold reduceMonthly. destruct coll as [|b coll].
  - cbn [length Nat.ltb Nat.leb]. destruct (String.eqb REDUCER "mean"); reflexivity.
  - change (0 <? length (b :: coll))%nat with true. cbv iota.
    destruct (String.eqb REDUCER "mean"); reflexivity.
Qed.

Lemma count_value_band (u : EE.unobserved) (coll : list EE.band) :
  EE.count_value u coll
  = count_band u (Z.of_nat (length (List.filter is_valid coll))).
Proof.
  unfold EE.count_value, count_band. rewrite <- valid_values_length.
  destruct (EE.valid_values coll) as [|x xs]; reflexivity.
Qed.

Lemma toUint16_count_value (u : EE.unobserved) (coll : list EE.band) :
  EE.toUint16 (EE.count_value u coll)
  = count_band u (Z.min 65535 (Z.of_nat (length (List.filter is_valid coll)))).
Proof.
  unfold EE.count_value, count_band. rewrite <- valid_values_length.
  destruct (EE.valid_values coll) as [|x xs].
  - destruct u; reflexivity.
  - assert (E : (Z.min 65535 (Z.of_nat (length (x :: xs))) =? 0) = false).
    { apply Z.eqb_neq. cbn [length]. lia. }
    rewrite E. unfold EE.toUint16, EE.lift1.
    rewrite saturate_inject_Z. do 2 f_equal. lia.
Qed.

Lemma reduceMonthly_count (coll : list EE.band) :
  exists lai,
    reduceMonthly coll
    = OK (lai, count_band count_unobserved
                 (Z.min 65535 (Z.of_nat (length (List.filter is_valid coll))))).
Proof.
  rewrite reduceMonthly_closed_form. cbv zeta. rewrite toUint16_count_value.
  eexists. f_equal. f_equal. f_equal. f_equal.
  destruct coll; reflexivity.
Qed.

Lemma mapM_bind_split {A B C : Type} (f : A -> result B) (g : B -> result C)
    (l : list A) (cs : list C) :
  mapM (fun a => b <- f a ;; g b) l = OK cs ->
  exists bs, mapM f l = OK bs /\ mapM g bs = OK cs.
Proof.
  revert cs. induction l as [|a l IH]; simpl; intros cs H.
  - injection H as <-. exists []. split; reflexivity.
  - unfold bind in H at 1.
    destruct (f a) as [b|] eqn:Ef; [|discriminate]. cbn [bind] in H.
    destruct (g b) as [c|] eqn:Eg; [|discriminate]. cbn [bind] in H.
    destruct (mapM (fun a => b <- f a ;; g b) l) as [cs'|] eqn:El; [|discriminate].
    injection H as <-.
    destruct (IH cs' Logic.eq_refl) as (bs & Hbs & Hcs).
    exists (b :: bs). simpl. rewrite Hbs, Eg, Hcs. split; reflexivity.
Qed.

(** The stack the compositor reduces, and the two bands it makes of it. *)
Lemma buildMonthlyLAI_stack (year month : Z) (out : EE.Image) :
  buildMonthlyLAI year month = OK out ->
  exists laiImgs coll lai count,
    mapM (fun img => getLAIImage img (Some NONVEG)) (getLandsat year month) = OK laiImgs /\
    mapM maskedLAI laiImgs = OK coll /\
    reduceMonthly coll = OK (lai, count) /\
    EE.bands out = [("LAI", lai); ("obs_count", count)] /\
    EE.select1 out "LAI" = OK lai /\
    EE.select1 out "obs_count" = OK count.
Proof.
  unfold buildMonthlyLAI. unfold bind at 1.
  destruct (mapM _ (getLandsat year month)) as [coll|] eqn:E; [|discriminate].
  destruct (mapM_bind_split _ _ _ _ E) as (laiImgs & Himgs & Hcoll).
  destruct (reduceMonthly coll) as [[laiMonthly count]|] eqn:Er; [|discriminate].
  cbn [bind]. intros [= <-]. exists laiImgs, coll, laiMonthly, count.
  split; [exact Himgs|]. split; [exact Hcoll|]. split; [exact Er|].
  split; [reflexivity|]. split; reflexivity.
Qed.

Lemma maskedLAI_stack (imgs : list EE.Image) (coll : list EE.band) :
  mapM maskedLAI imgs = OK coll ->
  Forall2
    (fun laiImg out =>
       forall v, out = Some v <->
         EE.select1 laiImg "LAI" = OK (Some v) /\
         exists q, EE.select1 laiImg "QA" = OK (Some q) /\
                   qa_bit q 0 = false /\ qa_bit q 1 = false)
    imgs coll.
Proof.
  revert coll. induction imgs as [|img imgs IH]; simpl; intros coll H.
  - injection H as <-. constructor.
  - unfold bind in H.
    destruct (maskedLAI img) as [out|e] eqn:Hout; [|discriminate].
    destruct (mapM maskedLAI imgs) as [outs|e]; [|discriminate].
    injection H as <-. constructor; [|now apply IH].
    destruct (maskedLAI_spec _ _ Hout) as (lai & qa & Hl & Hq & ->).
    intros v. rewrite Hl, Hq. split.
    + destruct lai as [l|], qa as [q|]; try discriminate.
      destruct (qa_bit q 0) eqn:B0, (qa_bit q 1) eqn:B1; try discriminate.
      intros [= ->]. split; [reflexivity|]. exists q. auto.
    + intros [Hl' (q & Hq' & B0 & B1)].
      change (qa_bit q 0 = false) in B0. change (qa_bit q 1 = false) in B1.
      assert (El : lai = Some v) by congruence.
      assert (Eq : qa = Some q) by congruence.
      subst lai qa. now rewrite B0, B1.
Qed.

(** C1.  The monthly stack keeps the pixel of a per-scene LAI image exactly
    when the image has a value there and neither bit 0 nor bit 1 of its QA
    is set; the observation count is the number of such images; the
    validity mask does not read bit 2, which alone excludes no pixel. *)
Theorem C1_validity_mask_bits_0_and_1 (year month : Z) (out : EE.Image) :
  buildMonthlyLAI year month = OK out ->
  exists laiImgs coll lai,
    mapM (fun img => getLAIImage img (Some NONVEG)) (getLandsat year month) = OK laiImgs /\
    mapM maskedLAI laiImgs = OK coll /\
    Forall2
      (fun laiImg kept =>
         forall v, kept = Some v <->
           EE.select1 laiImg "LAI" = OK (Some v) /\
           exists q, EE.select1 laiImg "QA" = OK (Some q) /\
                     qa_bit q 0 = false /\ qa_bit q 1 = false)
      laiImgs coll
    /\ reduceMonthly coll
       = OK (lai, count_band count_unobserved (Z.min 65535
                    (Z.of_nat (length (List.filter pixel_retained laiImgs)))))
    /\ EE.select1 out "LAI" = OK lai
    /\ EE.select1 out "obs_count"
       = OK (count_band count_unobserved (Z.min 65535
                    (Z.of_nat (length (List.filter pixel_retained laiImgs)))))
    /\ (forall n, 1 <= n -> count_band count_unobserved n = Some (inject_Z n))
    /\ (forall q, validMaskFromQA (Some q)
                  = Some (EE.b2q (negb (qa_bit q 0 || qa_bit q 1))))
    /\ (forall q, qa_bit q 0 = false -> qa_bit q 1 = false -> qa_bit q 2 = true ->
                  validMaskFromQA (Some q) = Some 1%Q).
Proof.
  intros H.
  destruct (buildMonthlyLAI_stack _ _ _ H)
    as (laiImgs & coll & lai & count & Himgs & Hcoll & Hred & _ & HLAI & Hcount).
  destruct (reduceMonthly_count coll) as [lai' Hred'].
  rewrite (mapM_maskedLAI_count _ _ Hcoll) in Hred'.
  assert (El : lai' = lai) by congruence.
  assert (Ec : count = count_band count_unobserved (Z.min 65535
                         (Z.of_nat (length (List.filter pixel_retained laiImgs)))))
    by congruence.
  subst lai' count.
  exists laiImgs, coll, lai.
  split; [exact Himgs|]. split; [exact Hcoll|].
  split; [now apply maskedLAI_stack|]. split; [exact Hred|]. split; [exact HLAI|].
  split; [exact Hcount|]. split; [|split].
  - intros n Hn. unfold count_band.
    assert (E : (n =? 0) = false) by (apply Z.eqb_neq; lia). now rewrite E.
  - intros q. apply validMaskFromQA_Some.
  - intros q B0 B1 _. rewrite validMaskFromQA_Some.
    fold (qa_bit q 0) (qa_bit q 1). now rewrite B0, B1.
Qed.
(** ** Double precision *)

Lemma round_half_even_error (x : Q) :
  (Qabs (inject_Z (EE.round_half_even x) - x) <= 1 # 2)%Q.
Proof.
  unfold EE.round_half_even.
  pose proof (Qfloor_le x) as H1. pose proof (Qlt_floor x) as H2.
  rewrite inject_Z_plus in H2. change (inject_Z 1) with 1%Q in H2.
  set (f := Qfloor x) in *.
  apply Qabs_Qle_condition.
  destruct (x - inject_Z f ?= 1 # 2)%Q eqn:E.
  - apply Qeq_alt in E. destruct (Z.even f).
    + split; lra.
    + rewrite inject_Z_plus. change (inject_Z 1) with 1%Q. split; lra.
  - apply Qlt_alt in E. split; lra.
  - apply Qgt_alt in E. rewrite inject_Z_plus. change (inject_Z 1) with 1%Q. split; lra.
Qed.

Lemma round_half_even_nonneg (x : Q) : (0 <= x)%Q -> 0 <= EE.round_half_even x.
Proof.
  intros H. unfold EE.round_half_even.
  assert (Hf : 0 <= Qfloor x).
  { rewrite <- (Qfloor_Z 0). now apply Qfloor_resp_le. }
  destruct (x - inject_Z (Qfloor x) ?= 1 # 2)%Q; [destruct (Z.even _)| |]; lia.
Qed.

Lemma round_half_even_comp (x y : Q) :
  (x == y)%Q -> EE.round_half_even x = EE.round_half_even y.
Proof.
  intros H. unfold EE.round_half_even.
  rewrite (Qfloor_comp x y H).
  assert (E : (x - inject_Z (Qfloor y) ?= 1 # 2)%Q = (y - inject_Z (Qfloor y) ?= 1 # 2)%Q).
  { apply Qcompare_comp; [now rewrite H | reflexivity]. }
  now rewrite E.
Qed.

Lemma two_power_pos (e : Z) : (0 < 2 ^ e)%Q.
Proof. apply Qpower_0_lt. reflexivity. Qed.

(** [log2_floor] is at most the logarithm. *)
Lemma log2_floor_le (a : Q) : (0 < a)%Q -> (2 ^ EE.log2_floor a <= a)%Q.
Proof.
  intros Ha. unfold EE.log2_floor.
  destruct (Qle_bool 1 a) eqn:E.
  - apply Qle_bool_iff in E.
    assert (Hf : 1 <= Qfloor a).
    { rewrite <- (Qfloor_Z 1). now apply Qfloor_resp_le. }
    destruct (Z.log2_spec (Qfloor a)) as [H1 _]; [lia|].
    apply Qle_trans with (inject_Z (Qfloor a)); [|apply Qfloor_le].
    rewrite <- (Zpower_Qpower 2) by apply Z.log2_nonneg.
    rewrite <- Zle_Qle. exact H1.
  - assert (Hlt : (a < 1)%Q).
    { apply Qnot_le_lt. intros H. apply Qle_bool_iff in H. congruence. }
    pose proof (Qle_ceiling (/ a)) as Hc.
    set (c := Qceiling (/ a)) in *.
    assert (Hinv : (0 < / a)%Q) by now apply Qinv_lt_0_compat.
    destruct (Z.log2_up_spec c) as [_ H2].
    { assert (H1 : (1 < / a)%Q).
      { apply Qlt_shift_inv_l; [exact Ha | lra]. }
      assert (H1c : (inject_Z 1 < inject_Z c)%Q) by (change (inject_Z 1) with 1%Q; lra).
      now rewrite <- Zlt_Qlt in H1c. }
    rewrite Qpower_opp.
    assert (Hp : (/ a <= 2 ^ Z.log2_up c)%Q).
    { apply Qle_trans with (inject_Z c); [exact Hc|].
      rewrite <- (Zpower_Qpower 2) by apply Z.log2_up_nonneg.
      rewrite <- Zle_Qle. exact H2. }
    pose proof (two_power_pos (Z.log2_up c)) as Hpos.
    apply Qle_shift_inv_r; [exact Hpos|].
    assert (E1 : (a * / a == 1)%Q) by (field; lra).
    rewrite <- E1. apply Qmult_le_l; assumption.
Qed.

Lemma Qle_bool_comp_r (c x y : Q) : (x == y)%Q -> Qle_bool c x = Qle_bool c y.
Proof.
  intros H.
  destruct (Qle_bool c x) eqn:Ex, (Qle_bool c y) eqn:Ey; try reflexivity.
  - apply Qle_bool_iff in Ex. rewrite H in Ex. apply Qle_bool_iff in Ex. congruence.
  - apply Qle_bool_iff in Ey. rewrite <- H in Ey. apply Qle_bool_iff in Ey. congruence.
Qed.

Lemma Qeq_bool_comp_l (c x y : Q) : (x == y)%Q -> Qeq_bool x c = Qeq_bool y c.
Proof.
  intros H.
  destruct (Qeq_bool x c) eqn:Ex, (Qeq_bool y c) eqn:Ey; try reflexivity.
  - apply Qeq_bool_iff in Ex. rewrite H in Ex. apply Qeq_bool_iff in Ex. congruence.
  - apply Qeq_bool_iff in Ey. rewrite <- H in Ey. apply Qeq_bool_iff in Ey. congruence.
Qed.

Lemma log2_floor_comp (x y : Q) : (x == y)%Q -> EE.log2_floor x = EE.log2_floor y.
Proof.
  intros H. unfold EE.log2_floor.
  rewrite (Qle_bool_comp_r 1 x y H), (Qfloor_comp x y H).
  assert (Hinv : (/ x == / y)%Q) by now rewrite H.
  now rewrite (Qceiling_comp _ _ Hinv).
Qed.

Lemma ulp_exponent_comp (x y : Q) : (x == y)%Q -> EE.ulp_exponent x = EE.ulp_exponent y.
Proof.
  intros H. unfold EE.ulp_exponent.
  assert (Ha : (Qabs x == Qabs y)%Q) by now rewrite H.
  now rewrite (log2_floor_comp _ _ Ha).
Qed.

(** Equal numbers have the same double. *)
Lemma binary64_comp (x y : Q) : (x == y)%Q -> EE.binary64 x = EE.binary64 y.
Proof.
  intros H. unfold EE.binary64.
  rewrite (Qeq_bool_comp_l 0 x y H), (Qle_bool_comp_r 0 x y H), (ulp_exponent_comp x y H).
  assert (E : (Qabs x / 2 ^ EE.ulp_exponent y == Qabs y / 2 ^ EE.ulp_exponent y)%Q)
    by now rewrite H.
  now rewrite (round_half_even_comp _ _ E).
Qed.

Lemma significand_nonneg (x : Q) (e : Z) :
  (0 <= inject_Z (EE.round_half_even (Qabs x / 2 ^ e)) * 2 ^ e)%Q.
Proof.
  apply Qmult_le_0_compat.
  - change 0%Q with (inject_Z 0). rewrite <- Zle_Qle. apply round_half_even_nonneg.
    apply Qle_shift_div_l; [apply two_power_pos|]. rewrite Qmult_0_l. apply Qabs_nonneg.
  - apply Qlt_le_weak, two_power_pos.
Qed.

(** The double nearest to [x] is within half a unit in the last place. *)
Lemma binary64_error (x : Q) :
  (Qabs (EE.binary64 x - x) <= 2 ^ EE.ulp_exponent x * (1 # 2))%Q.
Proof.
  pose proof (two_power_pos (EE.ulp_exponent x)) as Hpos.
  unfold EE.binary64. destruct (Qeq_bool x 0) eqn:E0.
  - apply Qeq_bool_iff in E0.
    assert (Ez : (Qabs (0 - x) == 0)%Q) by (rewrite E0; reflexivity).
    rewrite Ez. set (p := (2 ^ EE.ulp_exponent x)%Q) in *. clearbody p. clear E0 Ez. lra.
  - cbv zeta. set (e := EE.ulp_exponent x) in *.
    pose proof (round_half_even_error (Qabs x / 2 ^ e)) as Hr.
    set (m := inject_Z (EE.round_half_even (Qabs x / 2 ^ e))) in *.
    apply Qabs_Qle_condition in Hr. destruct Hr as [R1 R2].
    assert (D : (Qabs x == Qabs x / 2 ^ e * 2 ^ e)%Q) by (field; lra).
    set (q := (Qabs x / 2 ^ e)%Q) in *. set (p := (2 ^ e)%Q) in *.
    clearbody m q p.
    assert (S1 : (Qabs x - p * (1 # 2) <= m * p)%Q) by (rewrite D; nra).
    assert (S2 : (m * p <= Qabs x + p * (1 # 2))%Q) by (rewrite D; nra).
    destruct (Qle_bool 0 x) eqn:Es.
    + apply Qle_bool_iff in Es. rewrite (Qabs_pos x Es) in S1, S2.
      apply Qabs_Qle_condition. split; lra.
    + assert (Hneg : (x <= 0)%Q).
      { apply Qlt_le_weak, Qnot_le_lt. intros H. apply Qle_bool_iff in H. congruence. }
      rewrite (Qabs_neg x Hneg) in S1, S2.
      apply Qabs_Qle_condition. split; lra.
Qed.

Lemma binary64_nonneg (x : Q) : (0 <= x)%Q -> (0 <= EE.binary64 x)%Q.
Proof.
  intros H. unfold EE.binary64. destruct (Qeq_bool x 0); [lra|]. cbv zeta.
  apply Qle_bool_iff in H. rewrite H. apply significand_nonneg.
Qed.

Lemma binary64_nonpos (x : Q) : (x <= 0)%Q -> (EE.binary64 x <= 0)%Q.
Proof.
  intros H. unfold EE.binary64. destruct (Qeq_bool x 0) eqn:E0; [lra|]. cbv zeta.
  assert (Es : Qle_bool 0 x = false).
  { destruct (Qle_bool 0 x) eqn:Es; [|reflexivity]. apply Qle_bool_iff in Es.
    assert (Hz : (x == 0)%Q) by lra. apply Qeq_bool_iff in Hz. congruence. }
  rewrite Es. pose proof (significand_nonneg x (EE.ulp_exponent x)). lra.
Qed.

(** Below 1024 a double is within 2^-44 of the number. *)
Lemma binary64_error_below_1024 (x : Q) :
  (Qabs x < 1024)%Q -> (Qabs (EE.binary64 x - x) <= 1 # 17592186044416)%Q.
Proof.
  intros Hx. apply Qle_trans with (2 ^ EE.ulp_exponent x * (1 # 2))%Q; [apply binary64_error|].
  destruct (Qlt_le_dec 0 (Qabs x)) as [Ha|Hz].
  - pose proof (log2_floor_le _ Ha) as Hl.
    assert (Hlog : EE.log2_floor (Qabs x) < 10).
    { apply (Qpower_lt_compat_l_inv 2); [|reflexivity].
      apply Qle_lt_trans with (Qabs x); [exact Hl|].
      change (2 ^ 10)%Q with 1024%Q. exact Hx. }
    assert (He : EE.ulp_exponent x <= -43) by (unfold EE.ulp_exponent; lia).
    pose proof (Qpower_le_compat_l 2 _ _ He) as Hp.
    assert (H43 : (2 ^ EE.ulp_exponent x <= 2 ^ (-43))%Q) by (apply Hp; discriminate).
    change (2 ^ (-43))%Q with (/ 8796093022208)%Q in H43.
    set (p := (2 ^ EE.ulp_exponent x)%Q) in *. clearbody p.
    change (/ 8796093022208)%Q with (1 # 8796093022208)%Q in H43. lra.
  - assert (Hx0 : (x == 0)%Q).
    { apply Qabs_Qle_condition in Hz. lra. }
    rewrite (ulp_exponent_comp x 0 Hx0). vm_compute. discriminate.
Qed.

(** [log2_floor] is the integer part of the logarithm. *)
Lemma log2_floor_lt (a : Q) : (0 < a)%Q -> (a < 2 ^ (EE.log2_floor a + 1))%Q.
Proof.
  intros Ha. unfold EE.log2_floor.
  destruct (Qle_bool 1 a) eqn:E.
  - apply Qle_bool_iff in E.
    assert (Hf : 1 <= Qfloor a).
    { rewrite <- (Qfloor_Z 1). now apply Qfloor_resp_le. }
    destruct (Z.log2_spec (Qfloor a)) as [_ H2]; [lia|].
    apply Qlt_le_trans with (inject_Z (Qfloor a + 1)); [apply Qlt_floor|].
    rewrite <- (Zpower_Qpower 2) by (pose proof (Z.log2_nonneg (Qfloor a)); lia).
    rewrite <- Zle_Qle. unfold Z.succ in H2. lia.
  - assert (Hlt : (a < 1)%Q).
    { apply Qnot_le_lt. intros H. apply Qle_bool_iff in H. congruence. }
    pose proof (Qceiling_lt (/ a)) as Hc.
    pose proof (Qle_ceiling (/ a)) as Hle.
    set (c := Qceiling (/ a)) in *.
    assert (Hinv : (0 < / a)%Q) by now apply Qinv_lt_0_compat.
    assert (H1c : 1 < c).
    { assert (H1 : (1 < / a)%Q).
      { apply Qlt_shift_inv_l; [exact Ha | lra]. }
      assert (H1c : (inject_Z 1 < inject_Z c)%Q).
      { change (inject_Z 1) with 1%Q. apply Qlt_le_trans with (/ a)%Q; assumption. }
      now rewrite <- Zlt_Qlt in H1c. }
    destruct (Z.log2_up_spec c H1c) as [H2 _].
    set (j := Z.log2_up c) in *.
    assert (Hj : 0 < j) by (apply Z.log2_up_pos; exact H1c).
    replace (- j + 1) with (- (j - 1)) by lia.
    rewrite Qpower_opp.
    assert (Hp : (2 ^ (j - 1) < / a)%Q).
    { apply Qle_lt_trans with (inject_Z (c - 1)); [|exact Hc].
      rewrite <- (Zpower_Qpower 2) by lia.
      rewrite <- Zle_Qle. change (j - 1) with (Z.pred j). lia. }
    pose proof (two_power_pos (j - 1)) as Hpos.
    set (p := (2 ^ (j - 1))%Q) in *. clearbody p.
    apply Qlt_shift_inv_l; [exact Hpos|].
    assert (E1 : (a * / a == 1)%Q) by (field; lra).
    rewrite <- E1. apply Qmult_lt_l; assumption.
Qed.

Lemma round_half_even_le (x : Q) (n : Z) :
  (x < inject_Z n)%Q -> EE.round_half_even x <= n.
Proof.
  intros H. unfold EE.round_half_even.
  assert (Hf : Qfloor x < n).
  { pose proof (Qfloor_le x) as Hf.
    assert (Hlt : (inject_Z (Qfloor x) < inject_Z n)%Q) by lra.
    now rewrite <- Zlt_Qlt in Hlt. }
  destruct (x - inject_Z (Qfloor x) ?= 1 # 2)%Q; [destruct (Z.even _)| |]; lia.
Qed.

(** The double of a number has a significand of 53 bits. *)
Lemma binary64_significand (x : Q) :
  exists m : Z,
    (EE.binary64 x == inject_Z m * 2 ^ EE.ulp_exponent x)%Q
    /\ - 2 ^ 53 <= m <= 2 ^ 53.
Proof.
  unfold EE.binary64. destruct (Qeq_bool x 0) eqn:E0.
  - exists 0. split; [ring | lia].
  - cbv zeta. set (e := EE.ulp_exponent x).
    assert (Hx : (0 < Qabs x)%Q).
    { destruct (Qlt_le_dec 0 (Qabs x)) as [H|H]; [exact H|]. exfalso.
      apply Qabs_Qle_condition in H.
      assert (Hz : (x == 0)%Q) by lra. apply Qeq_bool_iff in Hz. congruence. }
    assert (Hm : 0 <= EE.round_half_even (Qabs x / 2 ^ e) <= 2 ^ 53).
    { split.
      - apply round_half_even_nonneg.
        apply Qle_shift_div_l; [apply two_power_pos|]. rewrite Qmult_0_l.
        apply Qabs_nonneg.
      - apply round_half_even_le.
        apply Qlt_shift_div_r; [apply two_power_pos|].
        apply Qlt_le_trans with (2 ^ (EE.log2_floor (Qabs x) + 1))%Q;
          [now apply log2_floor_lt|].
        rewrite (Zpower_Qpower 2) by lia.
        rewrite <- Qpower_plus by discriminate.
        apply Qpower_le_compat_l; [|discriminate].
        unfold e, EE.ulp_exponent. lia. }
    destruct (Qle_bool 0 x).
    + eexists. split; [reflexivity | lia].
    + exists (- EE.round_half_even (Qabs x / 2 ^ e)). split; [|lia].
      rewrite inject_Z_opp. ring.
Qed.

(** Doubles as the IEEE arithmetic of a client gives them: 0.1, a third,
    and two ties, which go to the even significand. *)
Example binary64_known_values :
  (EE.binary64 0.1 == 3602879701896397 # 36028797018963968)%Q
  /\ (EE.binary64 (1 # 3) == 6004799503160661 # 18014398509481984)%Q
  /\ (EE.binary64 9007199254740993 == 9007199254740992)%Q
  /\ (EE.binary64 9007199254740995 == 9007199254740996)%Q
  /\ (EE.binary64 (-9.1) == - (5122844576133939 # 562949953421312))%Q.
Proof. repeat split; vm_compute; reflexivity. Qed.

(** ** C2: the stored LAI code *)

Lemma Qmin_inject_Z (a b : Z) : Qmin (inject_Z a) (inject_Z b) = inject_Z (Z.min a b).
Proof.
  unfold Qmin, GenericMinMax.gmin, Qcompare, Z.min, inject_Z; simpl.
  rewrite !Z.mul_1_r. destruct (a ?= b); reflexivity.
Qed.

Lemma Qmax_inject_Z (a b : Z) : Qmax (inject_Z a) (inject_Z b) = inject_Z (Z.max a b).
Proof.
  unfold Qmax, GenericMinMax.gmax, Qcompare, Z.max, inject_Z; simpl.
  rewrite !Z.mul_1_r. destruct (a ?= b); reflexivity.
Qed.

Lemma scale_LAI_Some (v : Q) : scale_LAI (Some v) = Some (inject_Z (stored_code v)).
Proof.
  unfold scale_LAI, EE.toUint16, EE.clamp, EE.round, EE.multiply_double, EE.constant.
  cbn [EE.lift1 EE.lift2].
  change 0%Q with (inject_Z 0). change 65535%Q with (inject_Z 65535).
  rewrite Qmin_inject_Z, Qmax_inject_Z, saturate_inject_Z.
  unfold stored_code. do 2 f_equal. lia.
Qed.

Lemma round_Z_le (x : Q) : (inject_Z (EE.round_Z x) <= x + (1 # 2))%Q.
Proof. apply Qfloor_le. Qed.

Lemma round_Z_gt (x : Q) : (x - (1 # 2) < inject_Z (EE.round_Z x))%Q.
Proof.
  unfold EE.round_Z.
  pose proof (Qlt_floor (x + (1 # 2))) as H.
  rewrite inject_Z_plus in H. change (inject_Z 1) with 1%Q in H. lra.
Qed.

Lemma round_Z_comp (x y : Q) : (x == y)%Q -> EE.round_Z x = EE.round_Z y.
Proof. intros H. unfold EE.round_Z. apply Qfloor_comp. now rewrite H. Qed.

Lemma round_Z_mono (x y : Q) : (x <= y)%Q -> EE.round_Z x <= EE.round_Z y.
Proof. intros H. unfold EE.round_Z. apply Qfloor_resp_le. lra. Qed.

Lemma round_Z_inject_Z (z : Z) : EE.round_Z (inject_Z z) = z.
Proof.
  unfold EE.round_Z.
  pose proof (Qfloor_le (inject_Z z + (1 # 2))) as H1.
  pose proof (Qlt_floor (inject_Z z + (1 # 2))) as H2.
  set (f := Qfloor (inject_Z z + (1 # 2))) in *.
  assert (Hlo : (inject_Z f < inject_Z (z + 1))%Q).
  { rewrite inject_Z_plus. change (inject_Z 1) with 1%Q. lra. }
  assert (Hhi : (inject_Z z < inject_Z (f + 1))%Q) by lra.
  rewrite <- Zlt_Qlt in Hlo, Hhi. lia.
Qed.

Lemma clamp_0_8_below (v : Q) : (v <= 0)%Q -> (clamp_0_8 v == 0)%Q.
Proof.
  intros H. unfold clamp_0_8.
  rewrite (Q.min_r 8 v) by lra. now apply Q.max_l.
Qed.

Lemma clamp_0_8_inside (v : Q) : (0 <= v)%Q -> (v <= 8)%Q -> (clamp_0_8 v == v)%Q.
Proof.
  intros H0 H8. unfold clamp_0_8.
  rewrite (Q.min_r 8 v) by lra. now apply Q.max_r.
Qed.

Lemma round_Z_within_1 (x y : Q) :
  (y <= x + 1)%Q -> EE.round_Z y <= EE.round_Z x + 1.
Proof.
  intros H.
  pose proof (round_Z_le y) as H1. pose proof (round_Z_gt x) as H2.
  assert (Hlt : (inject_Z (EE.round_Z y) < inject_Z (EE.round_Z x + 2))%Q).
  { rewrite inject_Z_plus. change (inject_Z 2) with 2%Q. lra. }
  rewrite <- Zlt_Qlt in Hlt. lia.
Qed.

Lemma clamp_0_8_range (v : Q) : (0 <= clamp_0_8 v /\ clamp_0_8 v <= 8)%Q.
Proof.
  unfold clamp_0_8. split.
  - apply Q.le_max_l.
  - apply Q.max_lub; [lra | apply Q.le_min_l].
Qed.

(** The product of an LAI between 0 and 8 with 100, as a double, is within
    2^-44 of the exact product. *)
Lemma product_error (v : Q) :
  (0 <= v)%Q -> (v <= 8)%Q ->
  (v * 100 - (1 # 17592186044416) <= EE.binary64 (v * 100)
   /\ EE.binary64 (v * 100) <= v * 100 + (1 # 17592186044416))%Q.
Proof.
  intros H0 H8.
  assert (Ha : (Qabs (v * 100) < 1024)%Q).
  { rewrite Qabs_pos by lra. lra. }
  pose proof (binary64_error_below_1024 _ Ha) as He.
  apply Qabs_Qle_condition in He. split; lra.
Qed.

Lemma code_0_800 (v : Q) :
  (0 <= v)%Q -> (v <= 8)%Q -> 0 <= EE.round_Z (EE.binary64 (v * 100)) <= 800.
Proof.
  intros H0 H8. destruct (product_error v H0 H8) as [_ Hup]. split.
  - rewrite <- (round_Z_inject_Z 0). apply round_Z_mono.
    change (inject_Z 0) with 0%Q. apply binary64_nonneg. lra.
  - assert (E : EE.round_Z (800 + (1 # 17592186044416)) = 800) by (vm_compute; reflexivity).
    rewrite <- E. apply round_Z_mono. lra.
Qed.

(** For a value of at most 8 the stored code is the code of the clamped
    value. *)
Lemma stored_code_le_8 (v : Q) :
  (v <= 8)%Q -> stored_code v = EE.round_Z (EE.binary64 (clamp_0_8 v * 100)).
Proof.
  intros H8. unfold stored_code.
  destruct (Qlt_le_dec v 0) as [Hneg|Hpos].
  - assert (Hlo : EE.round_Z (EE.binary64 (v * 100)) <= 0).
    { rewrite <- (round_Z_inject_Z 0). apply round_Z_mono.
      change (inject_Z 0) with 0%Q. apply binary64_nonpos. lra. }
    assert (Ez : (clamp_0_8 v * 100 == 0)%Q) by (rewrite clamp_0_8_below by lra; reflexivity).
    rewrite (binary64_comp _ _ Ez).
    change (EE.round_Z (EE.binary64 0)) with 0. lia.
  - assert (Ev : (clamp_0_8 v * 100 == v * 100)%Q) by now rewrite clamp_0_8_inside.
    rewrite (binary64_comp _ _ Ev).
    pose proof (code_0_800 v Hpos H8). lia.
Qed.

Lemma stored_code_le_800 (v : Q) : (v <= 8)%Q -> 0 <= stored_code v <= 800.
Proof.
  intros H8. rewrite (stored_code_le_8 v H8).
  destruct (clamp_0_8_range v) as [C0 C8]. now apply code_0_800.
Qed.

(** Decoded with the scale factor 0.01 the code is within 0.005 of the
    clamped value, and the rounding of the product, less than 10^-15. *)
Lemma stored_code_decodes (v : Q) :
  (v <= 8)%Q ->
  (Qabs (inject_Z (stored_code v) * 0.01 - clamp_0_8 v)
   <= 0.005 + (1 # 1000000000000000))%Q.
Proof.
  intros H8. rewrite (stored_code_le_8 v H8).
  destruct (clamp_0_8_range v) as [C0 C8].
  destruct (product_error _ C0 C8) as [P1 P2].
  pose proof (round_Z_le (EE.binary64 (clamp_0_8 v * 100))) as R1.
  pose proof (round_Z_gt (EE.binary64 (clamp_0_8 v * 100))) as R2.
  set (c := inject_Z (EE.round_Z (EE.binary64 (clamp_0_8 v * 100)))) in *.
  set (b := EE.binary64 (clamp_0_8 v * 100)) in *.
  set (w := clamp_0_8 v) in *. clearbody c b w.
  apply Qabs_Qle_condition. split; lra.
Qed.

(** The code is the one of the specification, the rounding of the exact
    product, or next to it; it is that one where the double product is
    exact. *)
Lemma stored_code_near_spec (v : Q) :
  (v <= 8)%Q -> encode_spec v - 1 <= stored_code v <= encode_spec v + 1.
Proof.
  intros H8. rewrite (stored_code_le_8 v H8). unfold encode_spec.
  destruct (clamp_0_8_range v) as [C0 C8].
  destruct (product_error _ C0 C8) as [P1 P2].
  split.
  - pose proof (round_Z_within_1 (EE.binary64 (clamp_0_8 v * 100)) (clamp_0_8 v * 100)).
    assert (Hle : (clamp_0_8 v * 100 <= EE.binary64 (clamp_0_8 v * 100) + 1)%Q) by lra.
    specialize (H Hle). lia.
  - apply round_Z_within_1. lra.
Qed.

Lemma stored_code_exact (v : Q) :
  (v <= 8)%Q ->
  (EE.binary64 (clamp_0_8 v * 100) == clamp_0_8 v * 100)%Q ->
  stored_code v = encode_spec v.
Proof.
  intros H8 He. rewrite (stored_code_le_8 v H8). unfold encode_spec.
  now apply round_Z_comp.
Qed.

Lemma out_mask_above_8 (v : Q) : (8 < v)%Q -> out_mask (Some v) = Some 1%Q.
Proof.
  intros H. unfold out_mask, EE.toInt, EE.not, EE.and, EE.gte, EE.lte, EE.constant.
  cbn [EE.lift1 EE.lift2].
  assert (E : Qle_bool v lai_max = false).
  { destruct (Qle_bool v lai_max) eqn:E; [|reflexivity].
    apply Qle_bool_iff in E. unfold lai_max in E. lra. }
  rewrite E, !nonzero_b2q, Bool.andb_false_r. reflexivity.
Qed.

(** C2, as the code has it.  The stored LAI is
    clamp(round(value * 100), 0, 65535), the value itself not being clamped
    to [0, 8] and the product being a double.  For a value of at most 8
    this is the rounded double product of clamp(value, 0, 8) and 100: it is
    at most 800, it is the code round(clamp(value, 0, 8) * 100) of the
    exact product or the code next to it, the former where the double
    product is exact, and it decodes with the scale factor 0.01 to within
    0.005 + 10^-15 of the clamped value.  A value above 8 raises bit 1 of
    the QA instead of being clamped. *)
Theorem C2_stored_LAI_code (v : Q) :
  scale_LAI (Some v)
  = Some (inject_Z (Z.max 0 (Z.min 65535 (EE.round_Z (EE.binary64 (v * 100))))))
  /\ ((v <= 8)%Q ->
      exists c,
        scale_LAI (Some v) = Some (inject_Z c)
        /\ c = EE.round_Z (EE.binary64 (clamp_0_8 v * 100))
        /\ 0 <= c <= 800
        /\ encode_spec v - 1 <= c <= encode_spec v + 1
        /\ ((EE.binary64 (clamp_0_8 v * 100) == clamp_0_8 v * 100)%Q ->
            c = encode_spec v)
        /\ (Qabs (inject_Z c * 0.01 - clamp_0_8 v)
            <= 0.005 + (1 # 1000000000000000))%Q)
  /\ ((8 < v)%Q -> out_mask (Some v) = Some 1%Q).
Proof.
  rewrite scale_LAI_Some. split; [reflexivity|]. split.
  - intros H8. exists (stored_code v). split; [reflexivity|].
    split; [now apply stored_code_le_8|].
    split; [now apply stored_code_le_800|].
    split; [now apply stored_code_near_spec|].
    split; [now apply stored_code_exact | now apply stored_code_decodes].
  - apply out_mask_above_8.
Qed.

(** ** C4, C7: the QA band *)

Lemma b2q_b2z (b : bool) : EE.b2q b = inject_Z (Z.b2z b).
Proof. destruct b; reflexivity. Qed.

Lemma in_range_iff (x max : Q) : in_range x max = true <-> (0 <= x /\ x < max)%Q.
Proof.
  unfold in_range. rewrite Bool.andb_true_iff, Bool.negb_true_iff, Qle_bool_iff.
  split; intros [H0 H1]; split; trivial.
  - apply Qnot_le_lt. intros Hle. apply Qle_bool_iff in Hle. congruence.
  - destruct (Qle_bool max x) eqn:E; [|reflexivity].
    apply Qle_bool_iff in E. lra.
Qed.

Lemma bin_bounds (x max : Q) (k : Z) :
  (0 < max)%Q ->
  bin x max = k <-> (inject_Z k * (max / 10) <= x /\ x < inject_Z (k + 1) * (max / 10))%Q.
Proof.
  intros Hmax. unfold bin.
  pose proof (Qfloor_le (x / max * 10)) as Hlo.
  pose proof (Qlt_floor (x / max * 10)) as Hhi.
  assert (Hx : (x / max * 10 * (max / 10) == x)%Q) by (field; lra).
  assert (Hpos : (0 < max / 10)%Q).
  { apply Qlt_shift_div_l; lra. }
  split.
  - intros <-. split.
    + rewrite <- Hx at 2. apply Qmult_le_compat_r; [exact Hlo | lra].
    + rewrite <- Hx at 1. apply Qmult_lt_compat_r; [exact Hpos | exact Hhi].
  - intros [H1 H2].
    assert (G1 : (inject_Z k <= x / max * 10)%Q).
    { apply Qmult_le_r with (z := (max / 10)%Q); [exact Hpos | now rewrite Hx]. }
    assert (G2 : (x / max * 10 < inject_Z (k + 1))%Q).
    { apply Qmult_lt_r with (z := (max / 10)%Q); [exact Hpos | now rewrite Hx]. }
    set (f := Qfloor (x / max * 10)) in *.
    assert (A : (inject_Z k < inject_Z (f + 1))%Q) by lra.
    assert (B : (inject_Z f < inject_Z (k + 1))%Q) by lra.
    rewrite <- Zlt_Qlt in A, B. lia.
Qed.

Lemma bin_in_range (x max : Q) :
  (0 < max)%Q -> in_range x max = true -> 0 <= bin x max <= 9.
Proof.
  intros Hmax Hr. apply in_range_iff in Hr. destruct Hr as [H0 H1].
  destruct (proj1 (bin_bounds x max (bin x max) Hmax) Logic.eq_refl) as [Hlo Hhi].
  assert (Hpos : (0 < max / 10)%Q) by (apply Qlt_shift_div_l; lra).
  assert (A : (inject_Z (-1) < inject_Z (bin x max))%Q).
  { apply Qmult_lt_r with (z := (max / 10)%Q); [exact Hpos|].
    rewrite inject_Z_plus in Hhi. change (inject_Z 1) with 1%Q in Hhi.
    change (inject_Z (-1)) with (-1)%Q. lra. }
  assert (B : (inject_Z (bin x max) < inject_Z 10)%Q).
  { apply Qmult_lt_r with (z := (max / 10)%Q); [exact Hpos|].
    change (inject_Z 10) with 10%Q.
    assert (E : (10 * (max / 10) == max)%Q) by (field; lra).
    rewrite E. lra. }
  rewrite <- Zlt_Qlt in A, B. lia.
Qed.

Lemma scaled_bin_in_range (x max : Q) :
  (0 < max)%Q -> in_range x max = true ->
  scaled_bin (Some x) max = Some (inject_Z (bin x max)).
Proof.
  intros Hmax Hr. pose proof (bin_in_range x max Hmax Hr) as Hb.
  unfold scaled_bin, EE.toInt, EE.floor, EE.multiply, EE.divide, EE.constant.
  cbn [EE.lift1 EE.lift2]. rewrite saturate_inject_Z.
  fold (bin x max). do 2 f_equal. lia.
Qed.

Lemma range_mask_Some (r g n s : Q) :
  range_mask (Some r) (Some g) (Some n) (Some s)
  = Some (EE.b2q (in_range r red_max && in_range g green_max
                  && in_range n nir_max && in_range s swir1_max)).
Proof.
  unfold range_mask, EE.and, EE.gte, EE.lt, EE.constant.
  cbn [EE.lift2]. rewrite !nonzero_b2q. unfold in_range.
  rewrite !Bool.andb_assoc. reflexivity.
Qed.

Lemma toByte_b2q (b : bool) : EE.saturate 0 255 (EE.b2q b) = EE.b2q b.
Proof. destruct b; reflexivity. Qed.

Lemma toInt_b2q (b : bool) : EE.saturate (-2147483648) 2147483647 (EE.b2q b) = EE.b2q b.
Proof. destruct b; reflexivity. Qed.

Lemma in_mask_spec (sensor : string) (red green nir swir1 : EE.band) :
  in_mask sensor red green nir swir1
  = Some (EE.b2q (negb (in_training_hull sensor red green nir swir1))).
Proof.
  unfold in_mask.
  destruct red as [r|], green as [g|], nir as [n|], swir1 as [s|];
    try (destruct (scaled_bin _ _); reflexivity);
    try (unfold range_mask; cbn;
         repeat match goal with |- context [scaled_bin ?a ?b] => destruct (scaled_bin a b) end;
         reflexivity).
  rewrite range_mask_Some. unfold in_training_hull.
  destruct (in_range r red_max) eqn:Er; cbn [andb];
    [|destruct (scaled_bin (Some r) red_max); reflexivity].
  destruct (in_range g green_max) eqn:Eg; cbn [andb];
    [|destruct (scaled_bin (Some r) red_max); reflexivity].
  destruct (in_range n nir_max) eqn:En; cbn [andb];
    [|destruct (scaled_bin (Some r) red_max); reflexivity].
  destruct (in_range s swir1_max) eqn:Es; cbn [andb];
    [|destruct (scaled_bin (Some r) red_max); reflexivity].
  rewrite !scaled_bin_in_range by (trivial; reflexivity).
  unfold EE.multiply, EE.constant, EE.updateMask, EE.arrayGet, EE.unmask,
    EE.not, EE.toByte.
  cbn [EE.lift1 EE.lift2]. rewrite !nonzero_b2q. cbv iota.
  cbn [EE.lift1]. rewrite !trunc_inject_Z, toByte_b2q. reflexivity.
Qed.

Lemma out_mask_Some (l : Q) : out_mask (Some l) = Some (EE.b2q (lai_out_of_range l)).
Proof.
  unfold out_mask, EE.toInt, EE.not, EE.and, EE.gte, EE.lte, EE.constant.
  cbn [EE.lift1 EE.lift2]. rewrite !nonzero_b2q, toInt_b2q. reflexivity.
Qed.

Lemma biome_mask_Some (b : Q) : biome_mask (Some b) = Some (EE.b2q (Qeq_bool b 0)).
Proof.
  unfold biome_mask, EE.toInt, EE.eq, EE.constant.
  cbn [EE.lift1 EE.lift2]. now rewrite toInt_b2q.
Qed.

Lemma qa_code_bits (b0 b1 b2 : bool) :
  Z.testbit (qa_code b0 b1 b2) 0 = b0
  /\ Z.testbit (qa_code b0 b1 b2) 1 = b1
  /\ Z.testbit (qa_code b0 b1 b2) 2 = b2.
Proof. destruct b0, b1, b2; repeat split; reflexivity. Qed.

Lemma getLAIQA_spec (landsat : EE.Image) (sensor : string) (lai qa : EE.band) :
  getLAIQA landsat sensor lai = OK qa ->
  exists red green nir swir1 biome2,
    EE.select1 landsat "red" = OK red /\ EE.select1 landsat "green" = OK green /\
    EE.select1 landsat "nir" = OK nir /\ EE.select1 landsat "swir1" = OK swir1 /\
    EE.select1 landsat "biome2" = OK biome2 /\
    qa = qa_band_spec sensor red green nir swir1 biome2 lai.
Proof.
  unfold getLAIQA, bind.
  destruct (EE.select1 landsat "red") as [red|]; [|discriminate].
  destruct (EE.select1 landsat "green") as [green|]; [|discriminate].
  destruct (EE.select1 landsat "nir") as [nir|]; [|discriminate].
  destruct (EE.select1 landsat "swir1") as [swir1|]; [|discriminate].
  destruct (EE.select1 landsat "biome2") as [biome2|]; [|discriminate].
  intros [= <-]. exists red, green, nir, swir1, biome2. repeat split.
  rewrite in_mask_spec. unfold qa_band_spec.
  destruct lai as [l|]; [|reflexivity].
  destruct biome2 as [b|]; [|reflexivity].
  rewrite out_mask_Some, biome_mask_Some.
  unfold EE.toByte, EE.bitwiseOr, EE.leftShift, EE.constant.
  cbn [EE.lift1 EE.lift2].
  rewrite !b2q_b2z. change 1%Q with (inject_Z 1). change 2%Q with (inject_Z 2).
  rewrite !trunc_inject_Z, saturate_inject_Z. unfold qa_code.
  destruct (negb (in_training_hull sensor red green nir swir1)),
    (lai_out_of_range l), (Qeq_bool b 0); reflexivity.
Qed.

Lemma getLAIQA_bits (landsat : EE.Image) (sensor : string) (lai : EE.band) (q : Q) :
  getLAIQA landsat sensor lai = OK (Some q) ->
  exists red green nir swir1 b l,
    EE.select1 landsat "red" = OK red /\ EE.select1 landsat "green" = OK green /\
    EE.select1 landsat "nir" = OK nir /\ EE.select1 landsat "swir1" = OK swir1 /\
    EE.select1 landsat "biome2" = OK (Some b) /\ lai = Some l /\
    q = inject_Z (qa_code (negb (in_training_hull sensor red green nir swir1))
                          (lai_out_of_range l) (Qeq_bool b 0)) /\
    qa_bit q 0 = negb (in_training_hull sensor red green nir swir1) /\
    qa_bit q 1 = lai_out_of_range l /\
    qa_bit q 2 = Qeq_bool b 0.
Proof.
  intros H.
  destruct (getLAIQA_spec _ _ _ _ H)
    as (red & green & nir & swir1 & biome2 & Hr & Hg & Hn & Hs & Hb & Hq).
  unfold qa_band_spec in Hq.
  destruct lai as [l|]; [|discriminate].
  destruct biome2 as [b|]; [|discriminate].
  injection Hq as ->.
  exists red, green, nir, swir1, b, l.
  unfold qa_bit. rewrite trunc_inject_Z.
  pose proof (qa_code_bits (negb (in_training_hull sensor red green nir swir1))
                (lai_out_of_range l) (Qeq_bool b 0)) as (B0 & B1 & B2).
  repeat split; assumption.
Qed.

(** C4.  The three flags are computed each on its own: bit 0 from the
    reflectances, bit 1 from the predicted LAI, bit 2 from the biome, bit 2
    being 1 exactly when the biome is 0.  The QA band is
    [bit0 | (bit1 << 1) | (bit2 << 2)]: no data where the LAI or the biome
    is no data, and elsewhere the number with these three bits, so that
    its bit 2 is set exactly when the biome is 0, whatever the reflectances
    and the LAI are. *)
Theorem C4_qa_bits_packed_bit2_is_biome_0
    (landsat : EE.Image) (sensor : string) (lai qa : EE.band) :
  getLAIQA landsat sensor lai = OK qa ->
  exists red green nir swir1 biome2,
    EE.select1 landsat "red" = OK red /\ EE.select1 landsat "green" = OK green /\
    EE.select1 landsat "nir" = OK nir /\ EE.select1 landsat "swir1" = OK swir1 /\
    EE.select1 landsat "biome2" = OK biome2 /\
    in_mask sensor red green nir swir1
    = Some (EE.b2q (negb (in_training_hull sensor red green nir swir1))) /\
    (forall l, lai = Some l -> out_mask lai = Some (EE.b2q (lai_out_of_range l))) /\
    (forall b, biome2 = Some b ->
               biome_mask biome2 = Some (EE.b2q (Qeq_bool b 0)) /\
               (Qeq_bool b 0 = true <-> (b == 0)%Q)) /\
    qa = match lai, biome2 with
         | Some l, Some b =>
             let bit0 := negb (in_training_hull sensor red green nir swir1) in
             let bit1 := lai_out_of_range l in
             let bit2 := Qeq_bool b 0 in
             Some (inject_Z (Z.lor (Z.lor (Z.b2z bit0) (Z.shiftl (Z.b2z bit1) 1))
                                   (Z.shiftl (Z.b2z bit2) 2)))
         | _, _ => None
         end
    /\ (forall q, qa = Some q ->
         exists l b,
           lai = Some l /\ biome2 = Some b /\
           qa_bit q 0 = negb (in_training_hull sensor red green nir swir1) /\
           qa_bit q 1 = lai_out_of_range l /\
           qa_bit q 2 = Qeq_bool b 0 /\
           (qa_bit q 2 = true <-> (b == 0)%Q))
    /\ (forall landsat' sensor' lai' q q' b b',
          qa = Some q -> biome2 = Some b ->
          getLAIQA landsat' sensor' lai' = OK (Some q') ->
          EE.select1 landsat' "biome2" = OK (Some b') ->
          (b' == b)%Q -> qa_bit q' 2 = qa_bit q 2).
Proof.
  intros H.
  destruct (getLAIQA_spec _ _ _ _ H)
    as (red & green & nir & swir1 & biome2 & Hr & Hg & Hn & Hs & Hb & Hq).
  exists red, green, nir, swir1, biome2.
  split; [exact Hr|]. split; [exact Hg|]. split; [exact Hn|]. split; [exact Hs|].
  split; [exact Hb|]. split; [apply in_mask_spec|].
  split; [intros l ->; apply out_mask_Some|].
  split; [intros b ->; split; [apply biome_mask_Some | apply Qeq_bool_iff]|].
  split; [exact Hq|].
  assert (Hbits : forall q, qa = Some q ->
            exists l b,
              lai = Some l /\ biome2 = Some b /\
              qa_bit q 0 = negb (in_training_hull sensor red green nir swir1) /\
              qa_bit q 1 = lai_out_of_range l /\
              qa_bit q 2 = Qeq_bool b 0).
  { intros q Eq. pose proof H as H'. rewrite Eq in H'.
    destruct (getLAIQA_bits _ _ _ _ H')
      as (red' & green' & nir' & swir1' & b & l & Hr' & Hg' & Hn' & Hs' & Hb' & Hl & _
          & B0 & B1 & B2).
    assert (red' = red) by congruence. assert (green' = green) by congruence.
    assert (nir' = nir) by congruence. assert (swir1' = swir1) by congruence.
    subst red' green' nir' swir1'.
    exists l, b. split; [exact Hl|]. split; [congruence|].
    split; [exact B0|]. split; [exact B1 | exact B2]. }
  split.
  - intros q Eq. destruct (Hbits q Eq) as (l & b & Hl & Hb0 & B0 & B1 & B2).
    exists l, b. split; [exact Hl|]. split; [exact Hb0|]. split; [exact B0|].
    split; [exact B1|]. split; [exact B2|]. rewrite B2. apply Qeq_bool_iff.
  - intros landsat' sensor' lai' q q' b b' Eq Hb0 H' Hb' Hbb.
    destruct (Hbits q Eq) as (l & b0 & _ & Hb0' & _ & _ & B2).
    assert (b0 = b) by congruence. subst b0.
    destruct (getLAIQA_bits _ _ _ _ H')
      as (_ & _ & _ & _ & b'' & _ & _ & _ & _ & _ & Hb'' & _ & _ & _ & _ & B2').
    assert (b'' = b') by congruence. subst b''.
    rewrite B2, B2'.
    destruct (Qeq_bool b 0) eqn:E.
    + apply Qeq_bool_iff. apply Qeq_bool_iff in E. now rewrite Hbb.
    + destruct (Qeq_bool b' 0) eqn:E'; [|reflexivity].
      apply Qeq_bool_iff in E'. rewrite Hbb in E'. apply Qeq_bool_iff in E'. congruence.
Qed.

Lemma in_range_false_iff (x max : Q) :
  in_range x max = false <-> ~ (0 <= x /\ x < max)%Q.
Proof.
  rewrite <- in_range_iff. destruct (in_range x max); split; intros H;
    try reflexivity; try discriminate; try (intros E; discriminate).
  exfalso. now apply H.
Qed.

Lemma nonzero_false_iff (x : Q) : EE.nonzero x = false <-> (x == 0)%Q.
Proof. unfold EE.nonzero. rewrite Bool.negb_false_iff. apply Qeq_bool_iff. Qed.

(** C7.  The flag of bit 0 has a value at every pixel: it is 1 exactly
    when one of the four reflectances is outside its range [0, max), or the
    hull table of the sensor is 0 at the bins of the four reflectances,
    each range being cut into 10 bins of equal width; a pixel with a
    reflectance outside its range, or masked, has the flag set whatever the
    table holds.  Bit 0 of a QA value is this flag. *)
Theorem C7_bit0_out_of_range_or_out_of_hull
    (landsat : EE.Image) (sensor : string) (lai qa : EE.band)
    (red green nir swir1 : EE.band) :
  getLAIQA landsat sensor lai = OK qa ->
  EE.select1 landsat "red" = OK red -> EE.select1 landsat "green" = OK green ->
  EE.select1 landsat "nir" = OK nir -> EE.select1 landsat "swir1" = OK swir1 ->
  exists bit0 : bool,
    in_mask sensor red green nir swir1 = Some (EE.b2q bit0)
    /\ (forall q, qa = Some q -> qa_bit q 0 = bit0)
    /\ (forall r g n s,
          red = Some r -> green = Some g -> nir = Some n -> swir1 = Some s ->
          (bit0 = true <->
           ~ (0 <= r /\ r < 5100)%Q \/ ~ (0 <= g /\ g < 5100)%Q \/
           ~ (0 <= n /\ n < 7100)%Q \/ ~ (0 <= s /\ s < 7100)%Q \/
           (hull_array_reshape sensor (bin r 5100) (bin g 5100) (bin n 7100)
                               (bin s 7100) == 0)%Q))
    /\ (red = None \/ green = None \/ nir = None \/ swir1 = None -> bit0 = true)
    /\ (forall x max k, (0 < max)%Q ->
          (bin x max = k <->
           (inject_Z k * (max / 10) <= x /\ x < inject_Z (k + 1) * (max / 10))%Q))
    /\ (forall x max, (0 < max)%Q -> (0 <= x /\ x < max)%Q -> 0 <= bin x max <= 9).
Proof.
  intros H Hr Hg Hn Hs.
  exists (negb (in_training_hull sensor red green nir swir1)).
  split; [apply in_mask_spec|]. split; [|split; [|split; [|split]]].
  - intros q Eq. rewrite Eq in H.
    destruct (getLAIQA_bits _ _ _ _ H)
      as (red' & green' & nir' & swir1' & b & l & Hr' & Hg' & Hn' & Hs' & _ & _ & _ & B0 & _).
    assert (red' = red) by congruence. assert (green' = green) by congruence.
    assert (nir' = nir) by congruence. assert (swir1' = swir1) by congruence.
    subst red' green' nir' swir1'. exact B0.
  - intros r g n s -> -> -> ->. unfold in_training_hull.
    rewrite Bool.negb_true_iff, !Bool.andb_false_iff.
    rewrite !in_range_false_iff, nonzero_false_iff.
    change red_max with 5100%Q. change green_max with 5100%Q.
    change nir_max with 7100%Q. change swir1_max with 7100%Q.
    split; [intros [[[[G|G]|G]|G]|G] | intros [G|[G|[G|[G|G]]]]]; auto 10.
  - intros Hnone. unfold in_training_hull.
    destruct red, green, nir, swir1; try reflexivity.
    destruct Hnone as [E|[E|[E|E]]]; discriminate.
  - intros x max k Hmax. now apply bin_bounds.
  - intros x max Hmax Hx. apply bin_in_range; [exact Hmax|]. now apply in_range_iff.
Qed.

(** ** The bands of an image along the pipeline *)

Lemma select_bands_names (from to : list string) (bs out : list (string * EE.band)) :
  EE.select_bands from to bs = OK out -> map fst out = to.
Proof.
  revert to out. induction from as [|f from IH]; intros [|t to] out; simpl;
    try discriminate.
  - intros [= <-]. reflexivity.
  - destruct (EE.lookup_band f bs) as [b|]; [|discriminate].
    unfold bind. destruct (EE.select_bands from to bs) as [rest|] eqn:E; [|discriminate].
    intros [= <-]. simpl. f_equal. now apply IH.
Qed.

Lemma select_bands_ok (from to : list string) (bs : list (string * EE.band)) :
  length from = length to ->
  forallb (fun n => EE.has_band n bs) from = true ->
  exists out, EE.select_bands from to bs = OK out.
Proof.
  revert to. induction from as [|f from IH]; intros [|t to]; simpl; try discriminate.
  - intros _ _. eexists. reflexivity.
  - intros Hlen Hall. apply Bool.andb_true_iff in Hall. destruct Hall as [Hf Hrest].
    unfold EE.has_band in Hf.
    destruct (EE.lookup_band f bs) as [b|]; [|discriminate].
    destruct (IH to) as [rest Hr]; [congruence | exact Hrest |].
    rewrite Hr. eexists. reflexivity.
Qed.

Lemma map_fst_cons_inv {B : Type} (l : list (string * B)) (n : string) (ns : list string) :
  map fst l = n :: ns -> exists v l', l = (n, v) :: l' /\ map fst l' = ns.
Proof.
  destruct l as [|[n' v] l']; simpl; [discriminate|].
  intros [= -> <-]. exists v, l'. split; reflexivity.
Qed.

Lemma map_fst_nil_inv {B : Type} (l : list (string * B)) : map fst l = [] -> l = [].
Proof. destruct l; [reflexivity | discriminate]. Qed.

(** Turn [map fst l = [n1; ...; nk]] into the shape of [l]. *)
Ltac names_inv H :=
  repeat
    (let v := fresh "v" in
     let l' := fresh "l" in
     let E := fresh "E" in
     apply map_fst_cons_inv in H; destruct H as (v & l' & E & H); subst);
  apply map_fst_nil_inv in H; subst.

Lemma renameLandsat_names (image renamed : EE.Image) :
  renameLandsat image = OK renamed -> EE.bandNames renamed = canonical_bands.
Proof.
  unfold renameLandsat, bind.
  destruct (EE.String _ _) as [spacecraft|]; [|discriminate].
  destruct (EE.Number_parse _) as [no|]; [|discriminate].
  unfold EE.select, bind.
  destruct (EE.select_bands _ _ _) as [bs|] eqn:E; [|discriminate].
  intros [= <-]. apply select_bands_names in E. exact E.
Qed.

Lemma scaleLandsat_renamed (renamed : EE.Image) :
  EE.bandNames renamed = canonical_bands ->
  exists blue green red nir swir1 swir2 pixel_qa,
    EE.bands renamed
    = [("blue", blue); ("green", green); ("red", red); ("nir", nir);
       ("swir1", swir1); ("swir2", swir2); ("pixel_qa", pixel_qa)]
    /\ scaleLandsat renamed
       = OK (EE.mkImage
               [("green", scale_value green); ("red", scale_value red);
                ("nir", scale_value nir); ("swir1", scale_value swir1);
                ("pixel_qa", pixel_qa)]
               (EE.properties renamed)).
Proof.
  destruct renamed as [bs props]. unfold EE.bandNames, canonical_bands. simpl.
  intros H. names_inv H.
  do 7 eexists. split; reflexivity.
Qed.

(** ** C3, C6: the Reflectance Normalizer *)

Lemma renameLandsat_ok (image : EE.Image) (d : string) :
  satDigit_of image = Some d ->
  (In d ["5"; "7"] /\ has_bands bands_L57 image = true) \/
  (In d ["8"; "9"] /\ has_bands bands_L89 image = true) ->
  exists renamed, renameLandsat image = OK renamed.
Proof.
  unfold satDigit_of, renameLandsat, EE.String. intros Hd Hcase.
  destruct (EE.get image "SPACECRAFT_ID") as [[id| |]|]; try discriminate.
  injection Hd as Hd. unfold bind at 1. rewrite Hd.
  assert (Hsel : forall from,
             has_bands from image = true -> length from = 7%nat ->
             exists renamed, EE.select image from canonical_bands = OK renamed).
  { intros from Hhas Hlen. unfold EE.select.
    destruct (select_bands_ok from canonical_bands (EE.bands image)) as [out Ho];
      [rewrite Hlen; reflexivity | exact Hhas |].
    rewrite Ho. eexists. reflexivity. }
  destruct Hcase as [[Hin Hhas]|[Hin Hhas]]; simpl in Hin;
    destruct Hin as [<-|[<-|[]]];
    (set (p := EE.Number_parse _); vm_compute in p; subst p; unfold bind at 1;
     set (c := Qle_bool _ _); vm_compute in c; subst c; cbv iota;
     destruct (Hsel _ Hhas Logic.eq_refl) as [renamed Hr];
     unfold canonical_bands, bands_L57, bands_L89 in Hr; rewrite Hr;
     eexists; reflexivity).
Qed.

(** C3, as the code has it.  Whatever sensor a scene is from, the renamed
    image has exactly the seven bands blue, green, red, nir, swir1, swir2
    and pixel_qa, and the rescaled image that follows keeps exactly five of
    them: green, red, nir, swir1 and pixel_qa.  The renaming succeeds on
    the scenes of the four sensors that carry the bands of their band
    set. *)
Theorem C3_normalizer_bands (image : EE.Image) :
  (forall renamed,
      renameLandsat image = OK renamed ->
      EE.bandNames renamed
      = ["blue"; "green"; "red"; "nir"; "swir1"; "swir2"; "pixel_qa"]
      /\ exists rescaled,
           scaleLandsat renamed = OK rescaled
           /\ normalizeLandsat image = OK rescaled
           /\ EE.bandNames rescaled = ["green"; "red"; "nir"; "swir1"; "pixel_qa"])
  /\ (forall d,
        satDigit_of image = Some d ->
        (In d ["5"; "7"] /\ has_bands bands_L57 image = true) \/
        (In d ["8"; "9"] /\ has_bands bands_L89 image = true) ->
        exists renamed, renameLandsat image = OK renamed).
Proof.
  split.
  - intros renamed H. pose proof (renameLandsat_names _ _ H) as Hn.
    split; [exact Hn|].
    destruct (scaleLandsat_renamed renamed Hn)
      as (blue & green & red & nir & swir1 & swir2 & pixel_qa & _ & Hs).
    eexists. split; [exact Hs|]. split; [|reflexivity].
    unfold normalizeLandsat, bind. rewrite H. exact Hs.
  - intros d. apply renameLandsat_ok.
Qed.

(** C6, as the code has it.  The retrieval of a scene whose spacecraft id
    does not name Landsat 5, 7, 8 or 9 fails: the sensor dictionary has no
    entry for it.  The renaming itself does not reject a sensor: for an id
    whose digit parses to a number it takes the bands of Landsat 8 and 9
    when the number is at least 8 and the bands of Landsat 5 and 7
    otherwise. *)
Theorem C6_unknown_sensor_fails_at_sensor_lookup
    (image : EE.Image) (nonveg : option bool) :
  (forall d, satDigit_of image = Some d -> ~ In d ["5"; "7"; "8"; "9"]) ->
  (exists msg, getLAIImage image nonveg = Err msg)
  /\ (forall d n,
        satDigit_of image = Some d -> EE.Number_parse d = OK n ->
        renameLandsat image
        = (renamed <- EE.select image
                        (if Qle_bool 8 n then bands_L89 else bands_L57)
                        canonical_bands ;;
           OK (EE.set renamed "SPACECRAFT_NO" (EE.PNum n)))).
Proof.
  intros Hun. split.
  - unfold getLAIImage, satDigit_of in *. unfold EE.String.
    destruct (EE.get image "SPACECRAFT_ID") as [[id| |]|];
      try (eexists; reflexivity).
    unfold bind at 1. unfold EE.Dictionary_get.
    destruct (sensor_dict !! EE.slice id 8 9) as [sensor|] eqn:E.
    + exfalso. apply (Hun _ Logic.eq_refl).
      unfold sensor_dict in E.
      apply elem_of_list_to_map_2 in E.
      apply list_elem_of_In in E. simpl in E. simpl.
      destruct E as [E|[E|[E|[E|[]]]]]; injection E as <- _; auto.
    + eexists. reflexivity.
  - intros d n Hd Hp. unfold satDigit_of in Hd. unfold renameLandsat, EE.String.
    destruct (EE.get image "SPACECRAFT_ID") as [[id| |]|]; try discriminate.
    injection Hd as Hd. subst d. unfold bind at 1. rewrite Hp. reflexivity.
Qed.

(** ** C9: solar geometry *)

Lemma processLandsat_solar (image out : EE.Image) :
  processLandsat image = OK out ->
  exists z a,
    solarZenith image = OK z /\ solarAzimuth image = OK a /\
    EE.get out "SOLAR_ZENITH_ANGLE" = Some (EE.PNum z) /\
    EE.get out "SOLAR_AZIMUTH_ANGLE" = Some (EE.PNum a).
Proof.
  unfold processLandsat, bind.
  destruct (renameLandsat image) as [renamed|]; [|discriminate].
  destruct (scaleLandsat renamed) as [rescaled|]; [|discriminate].
  destruct (maskLandsat rescaled) as [masked|]; [|discriminate].
  destruct (getVIs masked) as [final|]; [|discriminate].
  destruct (solarZenith image) as [z|]; [|discriminate].
  destruct (solarAzimuth image) as [a|]; [|discriminate].
  intros [= <-]. exists z, a. repeat split; unfold EE.get, EE.set; simpl.
  - apply lookup_insert_eq.
  - rewrite lookup_insert_ne by discriminate. apply lookup_insert_eq.
Qed.


(** ** The bands of the processed scene and of the training image *)

Lemma processLandsat_bands (image out : EE.Image) :
  processLandsat image = OK out ->
  exists green red nir swir1 pixel_qa NDVI NDWI,
    EE.bands out
    = [("green", green); ("red", red); ("nir", nir); ("swir1", swir1);
       ("pixel_qa", pixel_qa); ("NDVI", NDVI); ("NDWI", NDWI)].
Proof.
  unfold processLandsat. unfold bind at 1.
  destruct (renameLandsat image) as [renamed|] eqn:Hr; [|discriminate].
  destruct (scaleLandsat_renamed renamed (renameLandsat_names _ _ Hr))
    as (blue & green & red & nir & swir1 & swir2 & pixel_qa & _ & Hs).
  rewrite Hs. unfold bind at 1.
  unfold maskLandsat, EE.select1. cbn [EE.bands EE.lookup_band String.eqb Ascii.eqb Bool.eqb].
  unfold bind at 1. unfold bind at 1.
  unfold getVIs, EE.select1, EE.updateMask_image, EE.map_bands.
  cbn [EE.bands EE.properties map fst snd EE.lookup_band String.eqb Ascii.eqb Bool.eqb].
  unfold bind at 1. unfold bind at 1. unfold bind at 1. unfold bind at 1.
  unfold bind.
  destruct (solarZenith image) as [z|]; [|discriminate].
  destruct (solarAzimuth image) as [a|]; [|discriminate].
  intros [= <-]. do 7 eexists. reflexivity.
Qed.

Lemma getTrainImg_bands (image train_img : EE.Image) :
  getTrainImg image = OK train_img ->
  exists y landcover green red nir swir1 pixel_qa NDVI NDWI sz sa,
    nlcd_year image = OK y /\ nlcd_landcover y = Some landcover /\
    EE.get train_img "nlcd_year" = Some (EE.PNum y) /\
    EE.bands train_img
    = [("green", green); ("red", red); ("nir", nir); ("swir1", swir1);
       ("pixel_qa", pixel_qa); ("NDVI", NDVI); ("NDWI", NDWI);
       ("biome2", EE.remap fromList toList landcover);
       ("lon", EE.add (EE.multiply pixel_qa (EE.constant 0)) (EE.constant pixel_lon));
       ("lat", EE.add (EE.multiply pixel_qa (EE.constant 0)) (EE.constant pixel_lat));
       ("sun_zenith", Some sz); ("sun_azimuth", Some sa);
       ("mask", EE.add (EE.multiply pixel_qa (EE.constant 0)) (EE.constant 1))].
Proof.
  unfold getTrainImg. unfold bind at 1.
  destruct (nlcd_year image) as [y|] eqn:Hy; [|discriminate].
  unfold bind at 1.
  destruct (nlcd_landcover y) as [landcover|] eqn:Hlc; [|discriminate].
  unfold bind at 1.
  destruct (processLandsat image) as [p|] eqn:Hp; [|discriminate].
  destruct (processLandsat_bands _ _ Hp)
    as (green & red & nir & swir1 & pixel_qa & NDVI & NDWI & Hb).
  unfold EE.select1. rewrite Hb.
  cbn [EE.lookup_band String.eqb Ascii.eqb Bool.eqb]. unfold bind at 1.
  unfold bind.
  destruct (EE.Number "SOLAR_ZENITH_ANGLE" _) as [sz|]; [|discriminate].
  destruct (EE.Number "SOLAR_AZIMUTH_ANGLE" _) as [sa|]; [|discriminate].
  intros [= <-]. exists y, landcover, green, red, nir, swir1, pixel_qa, NDVI, NDWI, sz, sa.
  split; [reflexivity|]. split; [exact Hlc|]. split.
  - unfold EE.get, EE.set. simpl. apply lookup_insert_eq.
  - unfold EE.addBand, EE.has_band, EE.set. cbn [EE.bands]. rewrite Hb.
    reflexivity.
Qed.

(** ** C8: the overlay of the biome models *)

Lemma lookup_band_map (f : EE.band -> EE.band) (n : string) (bs : list (string * EE.band)) :
  EE.lookup_band n (map (fun nb => (fst nb, f (snd nb))) bs)
  = match EE.lookup_band n bs with Some b => Some (f b) | None => None end.
Proof.
  induction bs as [|[n' b] bs IH]; simpl; [reflexivity|].
  destruct (String.eqb n' n); [reflexivity | exact IH].
Qed.

Lemma select1_updateMask_image (t : EE.Image) (m : EE.band) (n : string) :
  EE.select1 (EE.updateMask_image t m) n
  = (b <- EE.select1 t n ;; OK (EE.updateMask b m)).
Proof.
  unfold EE.select1, EE.updateMask_image, EE.map_bands. cbn [EE.bands].
  rewrite (lookup_band_map (fun b => EE.updateMask b m)).
  destruct (EE.lookup_band n (EE.bands t)); reflexivity.
Qed.

Lemma mapM_select1_updateMask_image (t : EE.Image) (m : EE.band) (ns : list string) :
  mapM (EE.select1 (EE.updateMask_image t m)) ns
  = (bs <- mapM (EE.select1 t) ns ;; OK (mask_bands m bs)).
Proof.
  unfold mask_bands.
  induction ns as [|n ns IH]; simpl; [reflexivity|].
  rewrite select1_updateMask_image, IH. unfold bind.
  destruct (EE.select1 t n); [|reflexivity].
  destruct (mapM (EE.select1 t) ns); reflexivity.
Qed.

Lemma overlay_biome_eq (t : EE.Image) (sensor : string) (biome2 : EE.band)
    (feats : list EE.band) (lai : EE.band) (b : Q) :
  EE.select1 t "biome2" = OK biome2 ->
  mapM (EE.select1 t) features = OK feats ->
  overlay_biome t sensor lai b
  = OK (EE.where_ lai (EE.eq biome2 (EE.constant b)) (biome_value sensor feats biome2 b)).
Proof.
  intros Hb Hf. unfold overlay_biome, getLAIforBiome, classify.
  rewrite Hb. cbn [bind ee_value].
  rewrite mapM_select1_updateMask_image, Hf. reflexivity.
Qed.

Lemma updateMask_true (f : EE.band) : EE.updateMask f (Some (EE.b2q true)) = f.
Proof. destruct f; reflexivity. Qed.

Lemma mask_bands_true (feats : list EE.band) :
  mask_bands (Some (EE.b2q true)) feats = feats.
Proof.
  unfold mask_bands. induction feats as [|f feats IH]; cbn [map]; [reflexivity|].
  now rewrite updateMask_true, IH.
Qed.

Lemma biome_value_own (sensor : string) (feats : list EE.band) (b0 b : Q) :
  Qeq_bool b0 b = true ->
  biome_value sensor feats (Some b0) b
  = match EE.all_valid feats with
    | Some xs => Some (getRFModel sensor (EeNumber b) xs)
    | None => None
    end.
Proof.
  intros E. unfold biome_value, EE.eq, EE.constant, EE.lift2. rewrite E.
  now rewrite mask_bands_true.
Qed.

(** A round of another biome leaves the pixel as it is. *)
Lemma where_other_biome (lai biome2 value : EE.band) (b : Q) :
  (biome2 = None \/ exists b0, biome2 = Some b0 /\ Qeq_bool b0 b = false) ->
  EE.where_ lai (EE.eq biome2 (EE.constant b)) value = lai.
Proof.
  intros [->|(b0 & -> & E)]; unfold EE.where_, EE.eq, EE.constant, EE.lift2.
  - destruct lai; reflexivity.
  - rewrite E. destruct lai as [i|]; [|reflexivity].
    destruct value; reflexivity.
Qed.

Lemma biomes_distinct (nonveg : bool) : distinct (biomes_of nonveg) = true.
Proof. destruct nonveg; reflexivity. Qed.

Section Overlay.

Variables (t : EE.Image) (sensor : string) (biome2 : EE.band) (feats : list EE.band).
Hypothesis Hbiome2 : EE.select1 t "biome2" = OK biome2.
Hypothesis Hfeats : mapM (EE.select1 t) features = OK feats.

Lemma overlay_others (bs : list Q) (lai : EE.band) :
  (biome2 = None \/
   exists b0, biome2 = Some b0 /\ existsb (Qeq_bool b0) bs = false) ->
  foldM (overlay_biome t sensor) bs lai = OK lai.
Proof using Hbiome2 Hfeats.
  intros H. induction bs as [|b bs IH]; simpl; [reflexivity|].
  rewrite (overlay_biome_eq t sensor biome2 feats lai b Hbiome2 Hfeats).
  unfold bind. rewrite where_other_biome.
  - apply IH. destruct H as [H|(b0 & Hb0 & Hex)]; [now left|right].
    exists b0. split; [exact Hb0|]. simpl in Hex.
    now apply Bool.orb_false_iff in Hex.
  - destruct H as [H|(b0 & Hb0 & Hex)]; [now left|right].
    exists b0. split; [exact Hb0|]. simpl in Hex.
    now apply Bool.orb_false_iff in Hex.
Qed.

(** The overlay over distinct biomes, in closed form: the pixel of biome
    [b0] takes the value of the one round that is for [b0], when the model
    has a value there. *)
Lemma overlay_closed_form (bs : list Q) (i b0 : Q) :
  distinct bs = true -> biome2 = Some b0 ->
  foldM (overlay_biome t sensor) bs (Some i)
  = OK (match find (Qeq_bool b0) bs with
        | Some b =>
            match EE.all_valid feats with
            | Some xs => Some (getRFModel sensor (EeNumber b) xs)
            | None => Some i
            end
        | None => Some i
        end).
Proof using Hbiome2 Hfeats.
  intros Hd Hb0. induction bs as [|b bs IH]; simpl; [reflexivity|].
  simpl in Hd. apply Bool.andb_true_iff in Hd. destruct Hd as [Hnb Hd].
  apply Bool.negb_true_iff in Hnb.
  rewrite (overlay_biome_eq t sensor biome2 feats (Some i) b Hbiome2 Hfeats).
  unfold bind. destruct (Qeq_bool b0 b) eqn:E.
  - rewrite Hb0, (biome_value_own sensor feats b0 b E).
    unfold EE.where_, EE.eq, EE.constant, EE.lift2. rewrite E.
    change (EE.nonzero (EE.b2q true)) with true.
    assert (Hrest : existsb (Qeq_bool b0) bs = false).
    { apply Bool.not_true_is_false. intros Hex.
      apply existsb_exists in Hex. destruct Hex as (c & Hin & Hc).
      assert (Hbc : existsb (Qeq_bool b) bs = true).
      { apply existsb_exists. exists c. split; [exact Hin|].
        apply Qeq_bool_iff. apply Qeq_bool_iff in E, Hc. now rewrite <- E. }
      congruence. }
    destruct (EE.all_valid feats) as [xs|];
      apply overlay_others; right; exists b0; split; assumption.
  - rewrite where_other_biome; [now apply IH|].
    right. exists b0. split; assumption.
Qed.

End Overlay.

Lemma final_lai_sentinel (mask : EE.band) : final_lai (sentinel_image mask) = None.
Proof.
  destruct mask as [m|]; [|reflexivity].
  unfold final_lai, sentinel_image, EE.toDouble, EE.add, EE.multiply, EE.neq,
    EE.constant, EE.updateMask. cbn [EE.lift2].
  assert (E : Qeq_bool (m * 0 + sentinel) sentinel = true).
  { apply Qeq_bool_iff. ring. }
  rewrite E. reflexivity.
Qed.

Lemma sentinel_image_value (mask : EE.band) (x : Q) :
  sentinel_image mask = Some x -> (x == sentinel)%Q.
Proof.
  destruct mask as [m|]; [|discriminate].
  unfold sentinel_image, EE.toDouble, EE.add, EE.multiply, EE.constant. cbn [EE.lift2].
  intros [= <-]. ring.
Qed.

Lemma getLAIImage_spec (image : EE.Image) (nonveg : option bool) (out : EE.Image) :
  getLAIImage image nonveg = OK out ->
  exists sensor train_img lai_img qa,
    getTrainImg image = OK train_img /\
    lai_overlay train_img sensor
      (biomes_of (match nonveg with Some b => b | None => false end)) = OK lai_img /\
    getLAIQA train_img sensor (final_lai lai_img) = OK qa /\
    EE.bands out = [("LAI", scale_LAI (final_lai lai_img)); ("QA", EE.toByte qa)].
Proof.
  unfold getLAIImage, bind.
  destruct (EE.String _ _) as [id|]; [|discriminate].
  destruct (EE.Dictionary_get _ _) as [sensor|]; [|discriminate].
  destruct (getTrainImg image) as [train_img|]; [|discriminate].
  destruct (lai_overlay train_img sensor _) as [lai_img|] eqn:Ho; [|discriminate].
  fold (final_lai lai_img).
  destruct (getLAIQA train_img sensor (final_lai lai_img)) as [qa|] eqn:Hq; [|discriminate].
  intros [= <-]. exists sensor, train_img, lai_img, qa.
  repeat split; try assumption.
  destruct (EE.get image "system:time_start"), (EE.get train_img "nlcd_year"); reflexivity.
Qed.

Lemma find_distinct (bs : list Q) (b b' : Q) :
  distinct bs = true -> In b' bs -> Qeq_bool b b' = true ->
  find (Qeq_bool b) bs = Some b'.
Proof.
  induction bs as [|c bs IH]; simpl; [contradiction|].
  intros Hd Hin E. apply Bool.andb_true_iff in Hd. destruct Hd as [Hc Hd].
  apply Bool.negb_true_iff in Hc.
  destruct (Qeq_bool b c) eqn:Ebc.
  - destruct Hin as [->|Hin]; [reflexivity|].
    exfalso.
    assert (Hex : existsb (Qeq_bool c) bs = true).
    { apply existsb_exists. exists b'. split; [exact Hin|].
      apply Qeq_bool_iff. apply Qeq_bool_iff in Ebc, E. now rewrite <- Ebc. }
    congruence.
  - destruct Hin as [->|Hin]; [congruence|]. now apply IH.
Qed.

Lemma existsb_Qeq_false (bs : list Q) (b : Q) :
  (forall b', In b' bs -> ~ (b == b')%Q) -> existsb (Qeq_bool b) bs = false.
Proof.
  intros H. apply Bool.not_true_is_false. intros Hex.
  apply existsb_exists in Hex. destruct Hex as (c & Hin & Hc).
  apply Qeq_bool_iff in Hc. exact (H c Hin Hc).
Qed.

(** The overlay inside the retrieval of a scene: the bands it reads and
    the fold it runs. *)
Lemma getLAIImage_overlay
    (image : EE.Image) (nonveg : option bool) (out : EE.Image) :
  getLAIImage image nonveg = OK out ->
  exists sensor train_img lai_img mask biome2 feats,
    let biomes := biomes_of (match nonveg with Some b => b | None => false end) in
    getTrainImg image = OK train_img /\
    EE.select1 train_img "mask" = OK mask /\
    EE.select1 train_img "biome2" = OK biome2 /\
    mapM (EE.select1 train_img) features = OK feats /\
    lai_overlay train_img sensor biomes = OK lai_img /\
    foldM (overlay_biome train_img sensor) biomes (sentinel_image mask) = OK lai_img /\
    EE.select1 out "LAI" = OK (scale_LAI (final_lai lai_img)) /\
    exists qa, EE.select1 out "QA" = OK qa.
Proof.
  intros H.
  destruct (getLAIImage_spec _ _ _ H) as (sensor & train_img & lai_img & qa & Ht & Ho & Hq & Hout).
  destruct (getTrainImg_bands _ _ Ht)
    as (y & landcover & green & red & nir & swir1 & pixel_qa & NDVI & NDWI & sz & sa
        & _ & _ & _ & Hb).
  assert (Hmask : EE.select1 train_img "mask"
                  = OK (EE.add (EE.multiply pixel_qa (EE.constant 0)) (EE.constant 1))).
  { unfold EE.select1. rewrite Hb. reflexivity. }
  assert (Hbiome : EE.select1 train_img "biome2" = OK (EE.remap fromList toList landcover)).
  { unfold EE.select1. rewrite Hb. reflexivity. }
  assert (Hfeats : exists feats, mapM (EE.select1 train_img) features = OK feats).
  { unfold features, EE.select1. rewrite Hb. cbn. eexists. reflexivity. }
  destruct Hfeats as [feats Hfeats].
  exists sensor, train_img, lai_img,
    (EE.add (EE.multiply pixel_qa (EE.constant 0)) (EE.constant 1)),
    (EE.remap fromList toList landcover), feats. cbv zeta.
  split; [exact Ht|]. split; [exact Hmask|]. split; [exact Hbiome|].
  split; [exact Hfeats|]. split; [exact Ho|]. split; [|split].
  - unfold lai_overlay in Ho. rewrite Hmask in Ho. exact Ho.
  - unfold EE.select1. rewrite Hout. reflexivity.
  - exists (EE.toByte qa). unfold EE.select1. rewrite Hout. reflexivity.
Qed.

(** X22.  A pixel whose biome is none of the processed biomes, biome 0
    when non-vegetated retrieval is off among them, keeps the sentinel and
    is masked in the LAI of the scene, whatever its reflectances are.  A
    round of the overlay changes only the pixels of its own biome and the
    rounds are for distinct biomes, so that a pixel is written once, in the
    round of its biome; what it then holds is the answer of the model
    trained on all the samples of the sensor. *)
Theorem unmatched_biome_keeps_sentinel_and_is_masked
    (image : EE.Image) (nonveg : option bool) (out : EE.Image) :
  getLAIImage image nonveg = OK out ->
  exists sensor train_img lai_img mask biome2 feats,
    let biomes := biomes_of (match nonveg with Some b => b | None => false end) in
    getTrainImg image = OK train_img /\
    EE.select1 train_img "mask" = OK mask /\
    EE.select1 train_img "biome2" = OK biome2 /\
    mapM (EE.select1 train_img) features = OK feats /\
    lai_overlay train_img sensor biomes = OK lai_img /\
    EE.select1 out "LAI" = OK (scale_LAI (final_lai lai_img)) /\
    ((biome2 = None \/
      exists b, biome2 = Some b /\ forall b', In b' biomes -> ~ (b == b')%Q) ->
     lai_img = sentinel_image mask /\
     (forall x, lai_img = Some x -> (x == 9999)%Q) /\
     final_lai lai_img = None /\
     EE.select1 out "LAI" = OK None) /\
    (forall b, biome2 = Some b -> (b == 0)%Q ->
               nonveg = None \/ nonveg = Some false ->
               lai_img = sentinel_image mask /\ EE.select1 out "LAI" = OK None) /\
    (forall lai b',
        (biome2 = None \/ exists b, biome2 = Some b /\ ~ (b == b')%Q) ->
        overlay_biome train_img sensor lai b' = OK lai) /\
    distinct biomes = true /\
    (forall b b' i xs,
        biome2 = Some b -> In b' biomes -> (b == b')%Q ->
        mask = Some i -> EE.all_valid feats = Some xs ->
        lai_img = Some (train_rf sensor None xs)).
Proof.
  intros H.
  destruct (getLAIImage_overlay _ _ _ H)
    as (sensor & train_img & lai_img & mask & biome2 & feats & Hall).
  cbv zeta in Hall.
  destruct Hall as (Ht & Hmask & Hbiome & Hfeats & Ho & Hfold & HLAI & _).
  set (nv := match nonveg with Some b => b | None => false end) in *.
  exists sensor, train_img, lai_img, mask, biome2, feats. cbv zeta.
  assert (Hunmatched :
            (biome2 = None \/
             exists b, biome2 = Some b /\ forall b', In b' (biomes_of nv) -> ~ (b == b')%Q) ->
            lai_img = sentinel_image mask).
  { intros Hun.
    rewrite (overlay_others train_img sensor biome2 feats Hbiome Hfeats) in Hfold.
    - congruence.
    - destruct Hun as [Hn|(b & Hb0 & Hall)]; [now left|right].
      exists b. split; [exact Hb0|]. now apply existsb_Qeq_false. }
  split; [exact Ht|]. split; [exact Hmask|]. split; [exact Hbiome|].
  split; [exact Hfeats|]. split; [exact Ho|]. split; [exact HLAI|].
  split; [|split; [|split; [|split]]].
  - intros Hun. pose proof (Hunmatched Hun) as ->.
    split; [reflexivity|]. split; [|split].
    + intros x Hx. now apply sentinel_image_value in Hx.
    + apply final_lai_sentinel.
    + rewrite HLAI, final_lai_sentinel. reflexivity.
  - intros b Hb0 Hzero Hnv.
    assert (Env : nv = false) by (destruct Hnv as [->| ->]; reflexivity).
    assert (Hun : lai_img = sentinel_image mask).
    { apply Hunmatched. right. exists b. split; [exact Hb0|].
      rewrite Env. intros b' Hin Hbb. rewrite Hzero in Hbb.
      simpl in Hin.
      repeat (destruct Hin as [<-|Hin]; [discriminate Hbb|]). exact Hin. }
    split; [exact Hun|]. rewrite HLAI, Hun, final_lai_sentinel. reflexivity.
  - intros lai b' Hother.
    rewrite (overlay_biome_eq train_img sensor biome2 feats lai b' Hbiome Hfeats).
    rewrite where_other_biome; [reflexivity|].
    destruct Hother as [Hn|(b & Hb0 & Hne)]; [now left|right].
    exists b. split; [exact Hb0|].
    apply Bool.not_true_is_false. intros E. apply Qeq_bool_iff in E. exact (Hne E).
  - apply biomes_distinct.
  - intros b b' i xs Hb0 Hin Hbb Hi Hxs.
    assert (Hs : sentinel_image mask = Some (i * 0 + sentinel)%Q) by (rewrite Hi; reflexivity).
    rewrite Hs in Hfold.
    rewrite (overlay_closed_form train_img sensor biome2 feats Hbiome Hfeats
               (biomes_of nv) _ b (biomes_distinct nv) Hb0) in Hfold.
    rewrite (find_distinct (biomes_of nv) b b' (biomes_distinct nv) Hin) in Hfold
      by (now apply Qeq_bool_iff).
    rewrite Hxs in Hfold.
    change (getRFModel sensor (EeNumber b') xs) with (train_rf sensor None xs) in Hfold.
    congruence.
Qed.

(** ** C10: land-cover codes outside the remap table *)

Lemma remap_value_unmapped (from to : list Q) (c : Q) :
  (forall f, In f from -> ~ (c == f)%Q) -> EE.remap_value from to c = None.
Proof.
  revert to. induction from as [|f from IH]; intros [|t to] H; simpl; try reflexivity.
  destruct (Qeq_bool c f) eqn:E.
  - apply Qeq_bool_iff in E. exfalso. apply (H f); [now left | exact E].
  - apply IH. intros f' Hin. apply H. now right.
Qed.

(** A scene that is masked at the pixel changes nothing in the reduction
    of the month. *)
Lemma reduceMonthly_masked_scene (coll : list EE.band) :
  reduceMonthly (None :: coll) = reduceMonthly coll.
Proof.
  rewrite !reduceMonthly_closed_form. cbv zeta.
  destruct coll as [|b coll]; [reflexivity|].
  unfold EE.mean_value, EE.median_value, EE.count_value.
  cbn [EE.valid_values]. reflexivity.
Qed.

(** C10.  A pixel whose land-cover code is none of the 20 codes of the
    remap table has no biome: its biome band is masked, no round of the
    overlay writes it, its LAI is masked in the per-scene image, and the
    scene does not count as an observation of the month. *)
Theorem C10_unmapped_landcover_fails_closed
    (image : EE.Image) (nonveg : option bool) (out : EE.Image) (y c : Q) :
  getLAIImage image nonveg = OK out ->
  nlcd_year image = OK y ->
  nlcd_landcover y = Some (Some c) ->
  (forall f, In f [11; 12; 21; 22; 23; 24; 31; 41; 42; 43; 51; 52; 71; 72; 73; 74;
                   81; 82; 90; 95]%Q -> ~ (c == f)%Q) ->
  exists train_img sensor mask,
    getTrainImg image = OK train_img /\
    EE.select1 train_img "biome2" = OK None /\
    EE.select1 train_img "mask" = OK mask /\
    lai_overlay train_img sensor
      (biomes_of (match nonveg with Some b => b | None => false end))
    = OK (sentinel_image mask) /\
    EE.select1 out "LAI" = OK None /\
    maskedLAI out = OK None /\
    pixel_retained out = false /\
    (forall rest restColl,
        mapM maskedLAI rest = OK restColl ->
        mapM maskedLAI (out :: rest) = OK (None :: restColl) /\
        reduceMonthly (None :: restColl) = reduceMonthly restColl).
Proof.
  intros H Hy Hc Hun.
  destruct (getLAIImage_overlay _ _ _ H)
    as (sensor & train_img & lai_img & mask & biome2 & feats & Hall).
  cbv zeta in Hall.
  destruct Hall as (Ht & Hmask & Hbiome & Hfeats & Ho & Hfold & HLAI & (qa & HQA)).
  destruct (getTrainImg_bands _ _ Ht)
    as (y' & landcover & green & red & nir & swir1 & pixel_qa & NDVI & NDWI & sz & sa
        & Hy' & Hlc & _ & Hb).
  assert (y' = y) by congruence. subst y'.
  assert (landcover = Some c) by congruence. subst landcover.
  assert (Hnone : biome2 = None).
  { assert (Hb2 : EE.select1 train_img "biome2"
                  = OK (EE.remap fromList toList (Some c))).
    { unfold EE.select1. rewrite Hb. reflexivity. }
    assert (Hr : EE.remap fromList toList (Some c) = None).
    { apply remap_value_unmapped. exact Hun. }
    rewrite Hr in Hb2. congruence. }
  subst biome2.
  rewrite (overlay_others train_img sensor None feats Hbiome Hfeats) in Hfold
    by (now left).
  assert (Hlai : lai_img = sentinel_image mask) by congruence.
  assert (HLAInone : EE.select1 out "LAI" = OK None).
  { rewrite HLAI, Hlai, final_lai_sentinel. reflexivity. }
  assert (Hm : maskedLAI out = OK None).
  { unfold maskedLAI. rewrite HLAInone, HQA. reflexivity. }
  exists train_img, sensor, mask.
  split; [exact Ht|]. split; [exact Hbiome|]. split; [exact Hmask|].
  split; [now rewrite Ho, Hlai|]. split; [exact HLAInone|].
  split; [exact Hm|]. split.
  - rewrite <- (maskedLAI_valid _ _ Hm). reflexivity.
  - intros rest restColl Hrest. split.
    + simpl. rewrite Hm, Hrest. reflexivity.
    + apply reduceMonthly_masked_scene.
Qed.

(** ** A month without scenes *)

(** X23.  For a month in which no scene qualifies the compositor reduces
    one image that is masked everywhere, which it puts in the place of the
    empty collection: the reduction of the empty collection itself has no
    band, and [rename] fails on it.  The composite then has its two bands;
    its LAI is no data, not 0, and its count is what [count()] gives at a
    pixel where no image has data: 0 or no data, never a number of
    observations. *)
Theorem empty_month_composite (year month : Z) :
  getLandsat year month = [] ->
  (exists out,
      buildMonthlyLAI year month = OK out /\
      EE.bands out
      = [("LAI", None); ("obs_count", EE.unobserved_value count_unobserved)] /\
      EE.select1 out "LAI" = OK None /\
      (EE.select1 out "obs_count" = OK (Some 0%Q)
       \/ EE.select1 out "obs_count" = OK None))
  /\ reduceMonthly [] = reduceMonthly [None]
  /\ (exists msg,
        (laiMonthly <- EE.rename (if String.eqb REDUCER "mean"
                                  then EE.mean [] else EE.median []) "LAI" ;;
         OK (EE.toUint16 laiMonthly)) = Err msg)
  /\ (exists msg,
        (count <- EE.rename (EE.count count_unobserved []) "obs_count" ;;
         OK (EE.toUint16 count)) = Err msg).
Proof.
  intros Hempty. split; [|split; [|split]].
  - unfold buildMonthlyLAI. rewrite Hempty. cbn [mapM bind].
    rewrite reduceMonthly_closed_form. cbv zeta. cbn [bind].
    eexists. split; [reflexivity|].
    unfold EE.select1, EE.set, EE.addBand.
    cbn [EE.bands EE.has_band EE.lookup_band app].
    destruct (String.eqb REDUCER "mean"), count_unobserved; repeat split; auto.
  - rewrite !reduceMonthly_closed_form. reflexivity.
  - destruct (String.eqb REDUCER "mean"); eexists; reflexivity.
  - eexists. reflexivity.
Qed.

(** * Further properties of the scripts *)

(** ** The cloud, shadow and water mask *)

Lemma land_bit_testbit (z n : Z) :
  0 <= n -> (Z.land z (Z.shiftl 1 n) =? 0) = negb (Z.testbit z n).
Proof.
  intros Hn. rewrite Z.shiftl_1_l.
  assert (H : Z.land z (2 ^ n) = if Z.testbit z n then 2 ^ n else 0).
  { apply Z.bits_inj'. intros m Hm. rewrite Z.land_spec.
    destruct (Z.eq_dec m n) as [->|Hne].
    - rewrite Z.pow2_bits_true by lia. rewrite Bool.andb_true_r.
      destruct (Z.testbit z n) eqn:E; [now rewrite Z.pow2_bits_true by lia|].
      now rewrite Z.bits_0.
    - rewrite Z.pow2_bits_false by lia. rewrite Bool.andb_false_r.
      destruct (Z.testbit z n); [now rewrite Z.pow2_bits_false by lia|].
      now rewrite Z.bits_0. }
  rewrite H. pose proof (Z.pow_pos_nonneg 2 n ltac:(lia) Hn) as Hpos.
  destruct (Z.testbit z n); [|reflexivity].
  apply Z.eqb_neq. lia.
Qed.

Lemma clear_bit_mask (q : Q) (n : Z) :
  0 <= n ->
  EE.not (EE.neq (EE.bitwiseAnd (Some q) (EE.constant (inject_Z (Z.shiftl 1 n))))
                 (EE.constant 0))
  = Some (EE.b2q (negb (qa_bit q n))).
Proof.
  intros Hn. unfold EE.not, EE.neq, EE.bitwiseAnd, EE.constant, qa_bit.
  cbn [EE.lift1 EE.lift2]. rewrite nonzero_b2q, trunc_inject_Z.
  change 0%Q with (inject_Z 0). rewrite Qeq_bool_inject_Z, land_bit_testbit by exact Hn.
  now rewrite Bool.negb_involutive.
Qed.

Lemma updateMask_b2q (b : EE.band) (c : bool) :
  EE.updateMask b (Some (EE.b2q c)) = keep_if c b.
Proof. destruct b, c; reflexivity. Qed.

Lemma keep_if_and (c d : bool) (b : EE.band) :
  keep_if d (keep_if c b) = keep_if (c && d) b.
Proof. destruct c, d; reflexivity. Qed.

Lemma map_bands_ext (f g : EE.band -> EE.band) (img : EE.Image) :
  (forall b, f b = g b) -> EE.map_bands f img = EE.map_bands g img.
Proof.
  intros H. unfold EE.map_bands. f_equal. apply map_ext. intros [n b]. simpl.
  now rewrite H.
Qed.

Lemma map_bands_compose (f g : EE.band -> EE.band) (img : EE.Image) :
  EE.map_bands g (EE.map_bands f img) = EE.map_bands (fun b => g (f b)) img.
Proof.
  unfold EE.map_bands. cbn [EE.bands EE.properties]. f_equal.
  rewrite map_map. reflexivity.
Qed.

(** The three masks of [maskLandsat], one after the other, on one band. *)
Lemma chained_masks (qa b : EE.band) :
  let bit n := EE.constant (inject_Z (Z.shiftl 1 n)) in
  let clear n := EE.not (EE.neq (EE.bitwiseAnd qa (bit n)) (EE.constant 0)) in
  EE.updateMask (EE.updateMask (EE.updateMask b (clear 3)) (clear 4)) (clear 7)
  = keep_if (clear_land qa) b.
Proof.
  cbv zeta. destruct qa as [q|].
  - rewrite !clear_bit_mask by lia. rewrite !updateMask_b2q, !keep_if_and.
    unfold clear_land. rewrite !Bool.negb_orb, ?Bool.andb_assoc. reflexivity.
  - destruct b; reflexivity.
Qed.

(** The one mask of [maskLandsatQA], on one band. *)
Lemma combined_mask (qa b : EE.band) :
  let bit n := EE.constant (inject_Z (Z.shiftl 1 n)) in
  let clear n := EE.not (EE.neq (EE.bitwiseAnd qa (bit n)) (EE.constant 0)) in
  EE.updateMask b (EE.and (EE.and (clear 3) (clear 4)) (clear 7))
  = keep_if (clear_land qa) b.
Proof.
  cbv zeta. destruct qa as [q|].
  - rewrite !clear_bit_mask by lia. unfold EE.and. cbn [EE.lift2].
    rewrite !nonzero_b2q, updateMask_b2q.
    unfold clear_land. rewrite !Bool.negb_orb. reflexivity.
  - destruct b; reflexivity.
Qed.

Lemma maskLandsat_spec (image : EE.Image) (qa : EE.band) :
  EE.select1 image "pixel_qa" = OK qa ->
  maskLandsat image = OK (EE.map_bands (keep_if (clear_land qa)) image).
Proof.
  intros H. unfold maskLandsat. rewrite H. cbn [bind]. f_equal.
  unfold EE.updateMask_image. rewrite !map_bands_compose.
  apply map_bands_ext. intros b. apply chained_masks.
Qed.

Lemma maskLandsatQA_spec (image : EE.Image) (qa : EE.band) :
  EE.select1 image "QA_PIXEL" = OK qa ->
  ObsCount.maskLandsatQA image = OK (EE.map_bands (keep_if (clear_land qa)) image).
Proof.
  intros H. unfold ObsCount.maskLandsatQA. rewrite H. cbn [bind]. f_equal.
  unfold EE.updateMask_image.
  apply map_bands_ext. intros b. apply combined_mask.
Qed.

Lemma select1_map_bands (f : EE.band -> EE.band) (img : EE.Image) (n : string) :
  EE.select1 (EE.map_bands f img) n = (b <- EE.select1 img n ;; OK (f b)).
Proof.
  unfold EE.select1, EE.map_bands. cbn [EE.bands].
  rewrite (lookup_band_map f).
  destruct (EE.lookup_band n (EE.bands img)); reflexivity.
Qed.

Lemma select1_missing (img : EE.Image) (n : string) :
  EE.has_band n (EE.bands img) = false -> exists msg, EE.select1 img n = Err msg.
Proof.
  unfold EE.has_band, EE.select1.
  destruct (EE.lookup_band n (EE.bands img)); [discriminate|].
  intros _. eexists. reflexivity.
Qed.

(** X1.  [maskLandsat] keeps a pixel exactly where it is clear land: where
    the pixel has a QA value and the cloud, cloud-shadow and water bits (3,
    4 and 7) of it are clear every band keeps what it had, and everywhere
    else every band, the QA band among them, is no data.  The band names
    stay; masking a masked image again changes nothing; on an image
    without a [pixel_qa] band the function fails. *)
Theorem maskLandsat_keeps_clear_land_pixels (image : EE.Image) :
  (forall qa,
      EE.select1 image "pixel_qa" = OK qa ->
      exists masked,
        maskLandsat image = OK masked
        /\ EE.bandNames masked = EE.bandNames image
        /\ (forall n b,
              EE.select1 image n = OK b ->
              EE.select1 masked n = OK (if clear_land qa then b else None))
        /\ (forall q, qa = Some q ->
              clear_land qa = negb (qa_bit q 3) && negb (qa_bit q 4) && negb (qa_bit q 7))
        /\ maskLandsat masked = OK masked)
  /\ (EE.has_band "pixel_qa" (EE.bands image) = false ->
      exists msg, maskLandsat image = Err msg).
Proof.
  split.
  - intros qa H. exists (EE.map_bands (keep_if (clear_land qa)) image).
    split; [apply maskLandsat_spec; exact H|].
    split; [|split; [|split]].
    + unfold EE.bandNames, EE.map_bands. cbn [EE.bands].
      rewrite map_map. reflexivity.
    + intros n b Hb. rewrite select1_map_bands, Hb. reflexivity.
    + intros q ->. unfold clear_land. now rewrite !Bool.negb_orb.
    + rewrite (maskLandsat_spec _ (keep_if (clear_land qa) qa))
        by (rewrite select1_map_bands, H; reflexivity).
      f_equal. rewrite map_bands_compose.
      destruct image as [bs props]. unfold EE.map_bands. cbn [EE.bands EE.properties].
      f_equal. apply map_ext. intros [n b]. cbn [fst snd].
      destruct (clear_land qa) eqn:Ec; cbn [keep_if]; [now rewrite Ec | reflexivity].
  - intros Hno. destruct (select1_missing _ _ Hno) as [msg Hm].
    exists msg. unfold maskLandsat. now rewrite Hm.
Qed.

(** ** The processed scene, from the bands of the archive *)

Lemma renameLandsat_raw (image renamed : EE.Image) :
  renameLandsat image = OK renamed ->
  exists id no blue green red nir swir1 swir2 qa,
    EE.get image "SPACECRAFT_ID" = Some (EE.PStr id) /\
    EE.Number_parse (EE.slice id 8 9) = OK no /\
    EE.select1 image (if Qle_bool 8 no then "SR_B2" else "SR_B1") = OK blue /\
    EE.select1 image (if Qle_bool 8 no then "SR_B3" else "SR_B2") = OK green /\
    EE.select1 image (if Qle_bool 8 no then "SR_B4" else "SR_B3") = OK red /\
    EE.select1 image (if Qle_bool 8 no then "SR_B5" else "SR_B4") = OK nir /\
    EE.select1 image (if Qle_bool 8 no then "SR_B6" else "SR_B5") = OK swir1 /\
    EE.select1 image "SR_B7" = OK swir2 /\
    EE.select1 image "QA_PIXEL" = OK qa /\
    renamed
    = EE.mkImage
        [("blue", blue); ("green", green); ("red", red); ("nir", nir);
         ("swir1", swir1); ("swir2", swir2); ("pixel_qa", qa)]
        (<["SPACECRAFT_NO" := EE.PNum no]> (EE.properties image)).
Proof.
  unfold renameLandsat, EE.String.
  destruct (EE.get image "SPACECRAFT_ID") as [[id| |]|] eqn:Hid; try discriminate.
  cbn [bind].
  destruct (EE.Number_parse (EE.slice id 8 9)) as [no|] eqn:Hno; [|discriminate].
  cbn [bind]. unfold EE.select, EE.select1, EE.set.
  destruct (Qle_bool 8 no) eqn:E8; cbn [EE.select_bands];
    repeat match goal with
      | |- context [EE.lookup_band ?n (EE.bands image)] =>
          destruct (EE.lookup_band n (EE.bands image)) eqn:?; [|discriminate]
      end;
    cbn [bind EE.bands EE.properties]; intros [= <-];
    exists id, no; do 7 eexists; rewrite E8;
    repeat match goal with
      | H : EE.lookup_band _ _ = _ |- _ => rewrite H; clear H
      end;
    repeat split; try eassumption; reflexivity.
Qed.

Lemma processLandsat_raw (image out : EE.Image) :
  processLandsat image = OK out ->
  exists id no green red nir swir1 qa,
    EE.get image "SPACECRAFT_ID" = Some (EE.PStr id) /\
    EE.Number_parse (EE.slice id 8 9) = OK no /\
    EE.select1 image (if Qle_bool 8 no then "SR_B3" else "SR_B2") = OK green /\
    EE.select1 image (if Qle_bool 8 no then "SR_B4" else "SR_B3") = OK red /\
    EE.select1 image (if Qle_bool 8 no then "SR_B5" else "SR_B4") = OK nir /\
    EE.select1 image (if Qle_bool 8 no then "SR_B6" else "SR_B5") = OK swir1 /\
    EE.select1 image "QA_PIXEL" = OK qa /\
    EE.bands out
    = [("green", keep_if (clear_land qa) (scale_value green));
       ("red", keep_if (clear_land qa) (scale_value red));
       ("nir", keep_if (clear_land qa) (scale_value nir));
       ("swir1", keep_if (clear_land qa) (scale_value swir1));
       ("pixel_qa", keep_if (clear_land qa) qa);
       ("NDVI", normalized_difference (keep_if (clear_land qa) (scale_value nir))
                                      (keep_if (clear_land qa) (scale_value red)));
       ("NDWI", normalized_difference (keep_if (clear_land qa) (scale_value nir))
                                      (keep_if (clear_land qa) (scale_value swir1)))].
Proof.
  unfold processLandsat. unfold bind at 1.
  destruct (renameLandsat image) as [renamed|] eqn:Hr; [|discriminate].
  destruct (renameLandsat_raw _ _ Hr)
    as (id & no & blue & green & red & nir & swir1 & swir2 & qa
        & Hid & Hno & _ & Hg & Hred & Hn & Hs & _ & Hqa & ->).
  unfold scaleLandsat at 1. cbn [EE.select EE.select_bands EE.select1 EE.bands
    EE.lookup_band String.eqb Ascii.eqb Bool.eqb bind EE.properties].
  unfold EE.map_bands, EE.addBand, EE.has_band.
  cbn [EE.bands EE.properties map fst snd EE.lookup_band String.eqb Ascii.eqb Bool.eqb app].
  fold (scale_value green) (scale_value red) (scale_value nir) (scale_value swir1).
  rewrite (maskLandsat_spec _ qa) by reflexivity.
  cbn [bind]. unfold getVIs, EE.select1, EE.map_bands.
  cbn [EE.bands EE.properties map fst snd EE.lookup_band String.eqb Ascii.eqb Bool.eqb bind].
  unfold EE.addBand, EE.has_band.
  cbn [EE.bands EE.properties EE.lookup_band String.eqb Ascii.eqb Bool.eqb app].
  unfold bind.
  destruct (solarZenith image) as [z|]; [|discriminate].
  destruct (solarAzimuth image) as [a|]; [|discriminate].
  intros [= <-]. exists id, no, green, red, nir, swir1, qa.
  repeat (split; [assumption|]). reflexivity.
Qed.

Lemma select1_ok_has_band (img : EE.Image) (n : string) (b : EE.band) :
  EE.select1 img n = OK b -> EE.has_band n (EE.bands img) = true.
Proof.
  unfold EE.select1, EE.has_band.
  destruct (EE.lookup_band n (EE.bands img)); [reflexivity | discriminate].
Qed.

Lemma renameLandsat_ok_iff (image : EE.Image) :
  (exists renamed, renameLandsat image = OK renamed) <-> renamable image.
Proof.
  split.
  - intros [renamed H].
    destruct (renameLandsat_raw _ _ H)
      as (id & no & blue & green & red & nir & swir1 & swir2 & qa
          & Hid & Hno & H1 & H2 & H3 & H4 & H5 & H6 & H7 & _).
    exists id, no. split; [exact Hid|]. split; [exact Hno|].
    apply select1_ok_has_band in H1, H2, H3, H4, H5, H6, H7.
    unfold has_bands, bands_L89, bands_L57.
    destruct (Qle_bool 8 no); cbn [forallb];
      rewrite H1, H2, H3, H4, H5, H6, H7; reflexivity.
  - intros (id & no & Hid & Hno & Hhas).
    unfold renameLandsat, EE.String. rewrite Hid. cbn [bind]. rewrite Hno. cbn [bind].
    unfold EE.select.
    destruct (select_bands_ok (if Qle_bool 8 no then bands_L89 else bands_L57)
                canonical_bands (EE.bands image)) as [out Ho].
    + destruct (Qle_bool 8 no); reflexivity.
    + exact Hhas.
    + unfold bands_L89, bands_L57, canonical_bands in Ho.
      destruct (Qle_bool 8 no); rewrite Ho; eexists; reflexivity.
Qed.

Lemma solarZenith_ok_iff (image : EE.Image) :
  (exists z, solarZenith image = OK z)
  <-> solar_ok image "SUN_ELEVATION" "SOLAR_ZENITH_ANGLE" = true.
Proof.
  unfold solarZenith, solar_ok, EE.contains, EE.get, EE.Number.
  destruct (EE.properties image !! "SUN_ELEVATION") as [[s|q|b]|];
    [| | |destruct (EE.properties image !! "SOLAR_ZENITH_ANGLE") as [[s|q|b]|]];
    cbn [bind is_number]; split;
    try (intros [z Hz]; discriminate Hz); try discriminate;
    try reflexivity; intros _; eexists; reflexivity.
Qed.

Lemma solarAzimuth_ok_iff (image : EE.Image) :
  (exists a, solarAzimuth image = OK a)
  <-> solar_ok image "SUN_AZIMUTH" "SOLAR_AZIMUTH_ANGLE" = true.
Proof.
  unfold solarAzimuth, solar_ok, EE.contains, EE.get, EE.Number.
  destruct (EE.properties image !! "SUN_AZIMUTH") as [[s|q|b]|];
    [| | |destruct (EE.properties image !! "SOLAR_AZIMUTH_ANGLE") as [[s|q|b]|]];
    cbn [bind is_number]; split;
    try (intros [z Hz]; discriminate Hz); try discriminate;
    try reflexivity; intros _; eexists; reflexivity.
Qed.

(** Once a scene is renamed, the rescaling, the mask and the indices go
    through. *)
Lemma processLandsat_after_rename (image renamed : EE.Image) (z a : Q) :
  renameLandsat image = OK renamed ->
  solarZenith image = OK z -> solarAzimuth image = OK a ->
  exists out, processLandsat image = OK out.
Proof.
  intros Hr Hz Ha. unfold processLandsat. rewrite Hr. cbn [bind].
  destruct (scaleLandsat_renamed renamed (renameLandsat_names _ _ Hr))
    as (blue & green & red & nir & swir1 & swir2 & pixel_qa & _ & Hs).
  rewrite Hs. cbn [bind].
  rewrite (maskLandsat_spec _ pixel_qa) by reflexivity. cbn [bind].
  unfold getVIs, EE.select1, EE.map_bands.
  cbn [EE.bands EE.properties map fst snd EE.lookup_band String.eqb Ascii.eqb Bool.eqb bind].
  rewrite Hz, Ha. cbn [bind]. eexists. reflexivity.
Qed.

(** X2.  [processLandsat] fails on a scene only in its renaming or in
    reading the solar metadata.  It gives a result exactly when the
    spacecraft id of the scene is a string with a digit as its ninth
    character, the scene has the seven bands of the band set the digit
    selects (that of Landsat 8 and 9 for a digit of at least 8, that of
    Landsat 5 and 7 otherwise), and the solar properties it prefers, or
    falls back to, are numbers where they are present.  The rescaling, the
    mask and the indices never fail on a renamed scene. *)
Theorem processLandsat_succeeds_iff (image : EE.Image) :
  (exists out, processLandsat image = OK out)
  <-> (renamable image
       /\ solar_ok image "SUN_ELEVATION" "SOLAR_ZENITH_ANGLE" = true
       /\ solar_ok image "SUN_AZIMUTH" "SOLAR_AZIMUTH_ANGLE" = true).
Proof.
  split.
  - intros [out H].
    destruct (processLandsat_solar _ _ H) as (z & a & Hz & Ha & _).
    unfold processLandsat in H. unfold bind at 1 in H.
    destruct (renameLandsat image) as [renamed|] eqn:Hr; [|discriminate].
    split; [|split].
    + apply renameLandsat_ok_iff. now exists renamed.
    + apply solarZenith_ok_iff. now exists z.
    + apply solarAzimuth_ok_iff. now exists a.
  - intros (Hr & Hz & Ha).
    apply renameLandsat_ok_iff in Hr. destruct Hr as [renamed Hr].
    apply solarZenith_ok_iff in Hz. destruct Hz as [z Hz].
    apply solarAzimuth_ok_iff in Ha. destruct Ha as [a Ha].
    exact (processLandsat_after_rename image renamed z a Hr Hz Ha).
Qed.

(** ** The values of the processed scene *)

Lemma scale_value_Some (dn : Q) :
  exists v, scale_value (Some dn) = Some v /\ (v == 0.275 * dn - 2000)%Q.
Proof.
  eexists. split; [reflexivity|]. field.
Qed.

Lemma in_range_scaled (z : Z) (v max : Q) (top : Z) :
  (v == 0.275 * inject_Z z - 2000)%Q ->
  (inject_Z top * 0.275 < 2000 + max)%Q ->
  (2000 + max <= inject_Z (top + 1) * 0.275)%Q ->
  in_range v max = true <-> 7273 <= z <= top.
Proof.
  intros Hv Htop Htop'. rewrite in_range_iff, Hv. split.
  - intros [H0 H1]. split.
    + destruct (Z_le_gt_dec 7273 z) as [|Hlt]; [assumption|].
      assert (Hz : z <= 7272) by lia. rewrite Zle_Qle in Hz.
      change (inject_Z 7272) with 7272%Q in Hz. lra.
    + destruct (Z_le_gt_dec z top) as [|Hgt]; [assumption|].
      assert (Hz : top + 1 <= z) by lia. rewrite Zle_Qle in Hz. lra.
  - intros [Hlo Hhi]. rewrite Zle_Qle in Hlo, Hhi.
    change (inject_Z 7273) with 7273%Q in Hlo. split; lra.
Qed.

(** X3.  On clear land the reflectance bands of the processed scene are
    the digital numbers of the archive, rescaled to 0.275 DN - 2000: green,
    red, nir and swir1 are read from SR_B3 to SR_B6 for Landsat 8 and 9
    and from SR_B2 to SR_B5 for the earlier sensors.  A digital number is
    inside the training range of the QA band, [0, 5100) for green and red
    and [0, 7100) for nir and swir1, exactly when it is between 7273 and
    25818, and between 7273 and 33090. *)
Theorem processLandsat_rescales_clear_land
    (image out : EE.Image) (qa : EE.band) :
  processLandsat image = OK out ->
  EE.select1 image "QA_PIXEL" = OK qa ->
  clear_land qa = true ->
  exists id no,
    EE.get image "SPACECRAFT_ID" = Some (EE.PStr id) /\
    EE.Number_parse (EE.slice id 8 9) = OK no /\
    (forall name raw dn,
        In (name, raw)
           [("green", if Qle_bool 8 no then "SR_B3" else "SR_B2");
            ("red", if Qle_bool 8 no then "SR_B4" else "SR_B3");
            ("nir", if Qle_bool 8 no then "SR_B5" else "SR_B4");
            ("swir1", if Qle_bool 8 no then "SR_B6" else "SR_B5")] ->
        EE.select1 image raw = OK (Some dn) ->
        exists v, EE.select1 out name = OK (Some v)
                  /\ (v == 0.275 * dn - 2000)%Q) /\
    EE.select1 out "pixel_qa" = OK qa /\
    (forall z v,
        (v == 0.275 * inject_Z z - 2000)%Q ->
        (in_range v red_max = true <-> 7273 <= z <= 25818) /\
        (in_range v green_max = true <-> 7273 <= z <= 25818) /\
        (in_range v nir_max = true <-> 7273 <= z <= 33090) /\
        (in_range v swir1_max = true <-> 7273 <= z <= 33090)).
Proof.
  intros H Hqa Hclear.
  destruct (processLandsat_raw _ _ H)
    as (id & no & green & red & nir & swir1 & qa' & Hid & Hno & Hg & Hr & Hn & Hs
        & Hqa' & Hb).
  assert (qa' = qa) by congruence. subst qa'. rewrite Hclear in Hb.
  cbn [keep_if] in Hb.
  exists id, no. split; [exact Hid|]. split; [exact Hno|]. split; [|split].
  - intros name raw dn Hin Hraw. unfold EE.select1. rewrite Hb.
    destruct (scale_value_Some dn) as (v & Hv & Hval). exists v.
    simpl in Hin.
    destruct Hin as [E|[E|[E|[E|[]]]]]; injection E as <- <-;
      cbn [EE.lookup_band String.eqb Ascii.eqb Bool.eqb];
      (split; [|exact Hval]); rewrite <- Hv; do 2 f_equal; congruence.
  - unfold EE.select1. rewrite Hb. reflexivity.
  - intros z v Hv. unfold red_max, green_max, nir_max, swir1_max.
    split; [|split; [|split]]; apply (in_range_scaled z v _ _ Hv);
      vm_compute; first [reflexivity | discriminate].
Qed.

Lemma normalized_difference_Some (a b : Q) :
  normalized_difference (Some a) (Some b) = Some ((a - b) / (a + b))%Q.
Proof. reflexivity. Qed.

Lemma normalized_difference_bounded (a b : Q) :
  (0 <= a)%Q -> (0 <= b)%Q -> (0 < a + b)%Q ->
  (-1 <= (a - b) / (a + b) /\ (a - b) / (a + b) <= 1)%Q.
Proof.
  intros Ha Hb Hab. split.
  - apply Qle_shift_div_l; [exact Hab | lra].
  - apply Qle_shift_div_r; [exact Hab | lra].
Qed.

Lemma normalized_difference_above_1 (a b : Q) :
  (b < 0)%Q -> (0 < a + b)%Q -> (1 < (a - b) / (a + b))%Q.
Proof.
  intros Hb Hab. apply Qlt_shift_div_l; [exact Hab | lra].
Qed.

(** X4.  Where the processed scene has its nir, red and swir1
    reflectances it has the two indices, NDVI = (nir - red) / (nir + red)
    and NDWI = (nir - swir1) / (nir + swir1).  The index of two
    reflectances that are not negative, and not both 0, lies between -1 and
    1; NDVI is above 1 when red is negative, as the rescaling makes it for
    a digital number below 7273, and the sum is still positive. *)
Theorem processLandsat_indices (image out : EE.Image) (nir red swir1 : Q) :
  processLandsat image = OK out ->
  EE.select1 out "nir" = OK (Some nir) ->
  EE.select1 out "red" = OK (Some red) ->
  EE.select1 out "swir1" = OK (Some swir1) ->
  exists ndvi ndwi,
    EE.select1 out "NDVI" = OK (Some ndvi)
    /\ EE.select1 out "NDWI" = OK (Some ndwi)
    /\ ndvi = ((nir - red) / (nir + red))%Q
    /\ ndwi = ((nir - swir1) / (nir + swir1))%Q
    /\ ((0 <= nir)%Q -> (0 <= red)%Q -> (0 < nir + red)%Q ->
        (-1 <= ndvi /\ ndvi <= 1)%Q)
    /\ ((0 <= nir)%Q -> (0 <= swir1)%Q -> (0 < nir + swir1)%Q ->
        (-1 <= ndwi /\ ndwi <= 1)%Q)
    /\ ((red < 0)%Q -> (0 < nir + red)%Q -> (1 < ndvi)%Q).
Proof.
  intros H Hn Hr Hs.
  destruct (processLandsat_raw _ _ H)
    as (id & no & green & red' & nir' & swir1' & qa & _ & _ & _ & _ & _ & _ & _ & Hb).
  unfold EE.select1 in *. rewrite Hb in *.
  cbn [EE.lookup_band String.eqb Ascii.eqb Bool.eqb] in *.
  injection Hn as Hn. injection Hr as Hr. injection Hs as Hs.
  rewrite Hn, Hr, Hs, !normalized_difference_Some.
  do 2 eexists. split; [reflexivity|]. split; [reflexivity|].
  split; [reflexivity|]. split; [reflexivity|]. split; [|split].
  - apply normalized_difference_bounded.
  - apply normalized_difference_bounded.
  - apply normalized_difference_above_1.
Qed.

(** X5.  The observation-density script and the retrieval mask the same
    pixels.  [maskLandsatQA] of the first, with one combined mask, and
    [maskLandsat] of the second, with three masks in a row, keep a pixel
    exactly where it is clear land; the QA band of a scene has data after
    the one exactly where it has after the other, and a band of the
    processed scene has data only on clear land. *)
Theorem density_mask_agrees_with_retrieval_mask (image out masked : EE.Image) :
  processLandsat image = OK out ->
  ObsCount.maskLandsatQA image = OK masked ->
  exists qa,
    EE.select1 image "QA_PIXEL" = OK qa /\
    masked = EE.map_bands (keep_if (clear_land qa)) image /\
    EE.select1 masked "QA_PIXEL" = OK (if clear_land qa then qa else None) /\
    EE.select1 out "pixel_qa" = OK (if clear_land qa then qa else None) /\
    (forall name b,
        EE.select1 out name = OK b -> is_valid b = true -> clear_land qa = true).
Proof.
  intros H Hm.
  destruct (processLandsat_raw _ _ H)
    as (id & no & green & red & nir & swir1 & qa & _ & _ & _ & _ & _ & _ & Hqa & Hb).
  exists qa. rewrite (maskLandsatQA_spec _ _ Hqa) in Hm. injection Hm as <-.
  split; [exact Hqa|]. split; [reflexivity|]. split; [|split].
  - rewrite select1_map_bands, Hqa. reflexivity.
  - unfold EE.select1. rewrite Hb. reflexivity.
  - intros name b. unfold EE.select1. rewrite Hb.
    destruct (clear_land qa); [reflexivity|]. cbn [keep_if].
    cbn [EE.lookup_band].
    repeat match goal with
      | |- context [String.eqb ?a name] => destruct (String.eqb a name)
      end;
      try discriminate; intros [= <-]; discriminate.
Qed.

(** ** The NLCD epoch of a scene *)

Lemma nlcd_years_range (y : Z) : In y nlcd_years <-> 1984 <= y <= 2024.
Proof.
  unfold nlcd_years. rewrite in_map_iff. split.
  - intros (k & <- & Hk). apply in_seq in Hk. lia.
  - intros H. exists (Z.to_nat y). split; [lia|]. apply in_seq. lia.
Qed.

(** A year outside 1984-2024 has no entry in [nlcd_dict]. *)
Lemma nlcd_dict_outside (y : Z) :
  ~ (1984 <= y <= 2024) -> nlcd_dict !! pretty y = None.
Proof.
  intros H. unfold nlcd_dict. apply not_elem_of_list_to_map_1.
  intros Hin. apply H, nlcd_years_range.
  match type of Hin with
  | _ ∈ ?l =>
      assert (E : l = map pretty nlcd_years) by (vm_compute; reflexivity);
      rewrite E in Hin
  end.
  apply list_elem_of_In, in_map_iff in Hin. destruct Hin as (x & Hx & Hin).
  apply (inj pretty) in Hx. now subst x.
Qed.

Lemma nlcd_year_epoch_of (image : EE.Image) (t : Q) :
  EE.get image "system:time_start" = Some (EE.PNum t) ->
  nlcd_year image = nlcd_epoch_of (date_year t).
Proof. intros H. unfold nlcd_year. rewrite H. reflexivity. Qed.

Lemma nlcd_epoch_of_inside (y : Z) :
  1984 <= y <= 2024 -> nlcd_epoch_of y = OK (inject_Z (nearest_epoch y)).
Proof.
  intros H.
  assert (Hk : exists k, (k < 41)%nat /\ y = 1984 + Z.of_nat k).
  { exists (Z.to_nat (y - 1984)). lia. }
  destruct Hk as (k & Hk & ->).
  do 41 (destruct k as [|k]; [vm_compute; reflexivity|]).
  lia.
Qed.

Lemma nlcd_epoch_of_outside (y : Z) :
  ~ (1984 <= y <= 2024) -> exists msg, nlcd_epoch_of y = Err msg.
Proof.
  intros H. unfold nlcd_epoch_of, EE.Dictionary_get.
  rewrite (nlcd_dict_outside y H). eexists. reflexivity.
Qed.

Lemma nearest_epoch_cases (y : Z) :
  nearest_epoch y
  = if y <=? 2002 then 2001 else if y <=? 2005 then 2004
    else if y <=? 2007 then 2006 else if y <=? 2009 then 2008
    else if y <=? 2012 then 2011 else if y <=? 2014 then 2013
    else if y <=? 2017 then 2016 else if y <=? 2020 then 2019 else 2021.
Proof.
  unfold nearest_epoch, nlcd_epochs. cbn [fold_left]. unfold nearer.
  repeat match goal with
    | |- context [Z.leb ?a ?b] => destruct (Z.leb_spec a b)
    end;
    repeat match goal with
      | |- context [Z.ltb ?a ?b] =>
          lazymatch a with context [Z.ltb _ _] => fail | _ => idtac end;
          lazymatch b with context [Z.ltb _ _] => fail | _ => idtac end;
          destruct (Z.ltb_spec a b); try lia
      end;
    reflexivity.
Qed.

Lemma nearest_epoch_spec (y : Z) :
  In (nearest_epoch y) nlcd_epochs
  /\ (forall e, In e nlcd_epochs -> Z.abs (y - nearest_epoch y) <= Z.abs (y - e))
  /\ (forall e, In e nlcd_epochs ->
                Z.abs (y - e) = Z.abs (y - nearest_epoch y) -> nearest_epoch y <= e).
Proof.
  rewrite nearest_epoch_cases. unfold nlcd_epochs.
  repeat match goal with
    | |- context [Z.leb ?a ?b] => destruct (Z.leb_spec a b)
    end;
    (split; [simpl; auto 10|]);
    (split; [intros e Hin | intros e Hin Heq]; simpl in Hin;
     repeat (destruct Hin as [<-|Hin]; [lia|]); contradiction).
Qed.

(** X6.  The NLCD epoch of a scene acquired in a year from 1984 to 2024 is
    the year of the NLCD images that is nearest to the year of the scene,
    and the earlier one of two that are equally near. *)
Theorem nlcd_year_is_nearest_epoch (image : EE.Image) (t : Q) :
  EE.get image "system:time_start" = Some (EE.PNum t) ->
  1984 <= date_year t <= 2024 ->
  exists e,
    nlcd_year image = OK (inject_Z e)
    /\ In e [2001; 2004; 2006; 2008; 2011; 2013; 2016; 2019; 2021]
    /\ (forall e', In e' nlcd_epochs ->
                   Z.abs (date_year t - e) <= Z.abs (date_year t - e'))
    /\ (forall e', In e' nlcd_epochs ->
                   Z.abs (date_year t - e') = Z.abs (date_year t - e) -> e <= e').
Proof.
  intros Ht Hy. exists (nearest_epoch (date_year t)). split.
  - rewrite (nlcd_year_epoch_of image t Ht). now apply nlcd_epoch_of_inside.
  - apply nearest_epoch_spec.
Qed.

(** ** Failures *)

Lemma mapM_err {A B : Type} (f : A -> result B) (l : list A) (a : A) :
  In a l -> (exists msg, f a = Err msg) -> exists msg, mapM f l = Err msg.
Proof.
  intros Hin [msg Hf]. induction l as [|x l IH]; simpl in *; [contradiction|].
  destruct Hin as [->|Hin].
  - rewrite Hf. eexists. reflexivity.
  - destruct (f x); [|eexists; reflexivity]. cbn [bind].
    destruct (IH Hin) as [msg' ->]. eexists. reflexivity.
Qed.

Lemma mapM_ok_iff {A B : Type} (f : A -> result B) (l : list A) :
  (exists bs, mapM f l = OK bs) <-> Forall (fun a => exists b, f a = OK b) l.
Proof.
  induction l as [|x l IH]; simpl.
  - split; [constructor | eexists; reflexivity].
  - split.
    + intros [bs H]. unfold bind in H.
      destruct (f x) as [b|] eqn:Ef; [|discriminate].
      destruct (mapM f l) as [bs'|] eqn:El; [|discriminate].
      constructor; [now exists b | apply IH; now exists bs'].
    + intros H. inversion H as [|? ? [b Hb] Hl]; subst.
      apply IH in Hl. destruct Hl as [bs Hbs].
      rewrite Hb, Hbs. eexists. reflexivity.
Qed.

Lemma getLAIImage_needs_nlcd_year (image : EE.Image) (nonveg : option bool) :
  (exists msg, nlcd_year image = Err msg) ->
  exists msg, getLAIImage image nonveg = Err msg.
Proof.
  intros [msg H]. unfold getLAIImage.
  destruct (EE.String _ _) as [id|]; [|eexists; reflexivity]. cbn [bind].
  destruct (EE.Dictionary_get _ _) as [sensor|]; [|eexists; reflexivity]. cbn [bind].
  unfold getTrainImg. rewrite H. eexists. reflexivity.
Qed.

(** X7.  The retrieval fails on every scene acquired in a year before 1984
    or after 2024: the table of NLCD epochs has no entry for the year.  The
    composite of a month that holds such a scene fails with it. *)
Theorem retrieval_fails_outside_1984_2024
    (image : EE.Image) (nonveg : option bool) (t : Q) :
  EE.get image "system:time_start" = Some (EE.PNum t) ->
  date_year t < 1984 \/ 2024 < date_year t ->
  (exists msg, nlcd_year image = Err msg)
  /\ (exists msg, getTrainImg image = Err msg)
  /\ (exists msg, getLAIImage image nonveg = Err msg)
  /\ (forall year month,
        In image (getLandsat year month) ->
        exists msg, buildMonthlyLAI year month = Err msg).
Proof.
  intros Ht Hy.
  assert (Hn : exists msg, nlcd_year image = Err msg).
  { rewrite (nlcd_year_epoch_of image t Ht). apply nlcd_epoch_of_outside. lia. }
  split; [exact Hn|]. split; [|split].
  - destruct Hn as [msg Hn]. unfold getTrainImg. rewrite Hn. eexists. reflexivity.
  - now apply getLAIImage_needs_nlcd_year.
  - intros year month Hin. unfold buildMonthlyLAI.
    destruct (mapM_err
                (fun img => laiImg <- getLAIImage img (Some NONVEG) ;; maskedLAI laiImg)
                (getLandsat year month) image Hin) as [msg Hm].
    + destruct (getLAIImage_needs_nlcd_year image (Some NONVEG) Hn) as [msg Hg].
      rewrite Hg. eexists. reflexivity.
    + rewrite Hm. eexists. reflexivity.
Qed.

(** ** When the retrieval of a scene goes through *)

Lemma foldM_overlay_ok (t : EE.Image) (sensor : string) (biome2 : EE.band)
    (feats : list EE.band) (bs : list Q) (lai : EE.band) :
  EE.select1 t "biome2" = OK biome2 ->
  mapM (EE.select1 t) features = OK feats ->
  exists lai_img, foldM (overlay_biome t sensor) bs lai = OK lai_img.
Proof.
  intros Hb Hf. revert lai. induction bs as [|b bs IH]; intros lai; simpl.
  - eexists. reflexivity.
  - rewrite (overlay_biome_eq t sensor biome2 feats lai b Hb Hf). cbn [bind].
    apply IH.
Qed.

Lemma sensor_dict_keys (d : string) :
  (exists sensor, sensor_dict !! d = Some sensor) <-> In d ["5"; "7"; "8"; "9"].
Proof.
  split.
  - intros [sensor E]. unfold sensor_dict in E.
    apply elem_of_list_to_map_2, list_elem_of_In in E. simpl in E. simpl.
    destruct E as [E|[E|[E|[E|[]]]]]; injection E as <- _; auto.
  - simpl. intros [<-|[<-|[<-|[<-|[]]]]]; eexists; vm_compute; reflexivity.
Qed.

Lemma getTrainImg_ok (image p : EE.Image) (y : Q) (landcover : EE.band) :
  nlcd_year image = OK y -> nlcd_landcover y = Some landcover ->
  processLandsat image = OK p ->
  exists train_img, getTrainImg image = OK train_img.
Proof.
  intros Hy Hlc Hp. unfold getTrainImg. rewrite Hy. cbn [bind].
  rewrite Hlc. cbn [bind]. rewrite Hp. cbn [bind].
  destruct (processLandsat_bands _ _ Hp)
    as (green & red & nir & swir1 & pixel_qa & NDVI & NDWI & Hb).
  destruct (processLandsat_solar _ _ Hp) as (z & a & _ & _ & Gz & Ga).
  unfold EE.select1. rewrite Hb.
  cbn [EE.lookup_band String.eqb Ascii.eqb Bool.eqb bind].
  rewrite Gz, Ga. cbn [EE.Number bind]. eexists. reflexivity.
Qed.

Lemma getTrainImg_processed (image train_img : EE.Image) :
  getTrainImg image = OK train_img -> exists p, processLandsat image = OK p.
Proof.
  unfold getTrainImg, bind.
  destruct (nlcd_year image); [|discriminate].
  destruct (nlcd_landcover _); [|discriminate].
  destruct (processLandsat image) as [p|]; [|discriminate].
  intros _. now exists p.
Qed.

Lemma getLAIQA_ok (train_img : EE.Image) (sensor : string) (lai : EE.band)
    (red green nir swir1 biome2 : EE.band) :
  EE.select1 train_img "red" = OK red -> EE.select1 train_img "green" = OK green ->
  EE.select1 train_img "nir" = OK nir -> EE.select1 train_img "swir1" = OK swir1 ->
  EE.select1 train_img "biome2" = OK biome2 ->
  getLAIQA train_img sensor lai
  = OK (qa_band_spec sensor red green nir swir1 biome2 lai).
Proof.
  intros Hr Hg Hn Hs Hb.
  destruct (getLAIQA train_img sensor lai) as [qa|msg] eqn:E.
  - destruct (getLAIQA_spec _ _ _ _ E)
      as (red' & green' & nir' & swir1' & biome2' & Hr' & Hg' & Hn' & Hs' & Hb' & ->).
    congruence.
  - unfold getLAIQA in E. rewrite Hr, Hg, Hn, Hs, Hb in E. discriminate E.
Qed.

Lemma getLAIImage_ok (image train_img : EE.Image) (nonveg : option bool)
    (d sensor : string) :
  satDigit_of image = Some d -> sensor_dict !! d = Some sensor ->
  getTrainImg image = OK train_img ->
  exists out, getLAIImage image nonveg = OK out.
Proof.
  intros Hd Hs Ht. unfold satDigit_of in Hd. unfold getLAIImage, EE.String.
  destruct (EE.get image "SPACECRAFT_ID") as [[id| |]|]; try discriminate.
  injection Hd as Hd. cbn [bind]. rewrite Hd. unfold EE.Dictionary_get.
  rewrite Hs. cbn [bind]. rewrite Ht. cbn [bind].
  destruct (getTrainImg_bands _ _ Ht)
    as (y & landcover & green & red & nir & swir1 & pixel_qa & NDVI & NDWI & sz & sa
        & _ & _ & _ & Hb).
  assert (Hfeats : exists feats, mapM (EE.select1 train_img) features = OK feats).
  { unfold features, EE.select1. rewrite Hb. cbn. eexists. reflexivity. }
  destruct Hfeats as [feats Hfeats].
  assert (Hbiome : EE.select1 train_img "biome2" = OK (EE.remap fromList toList landcover)).
  { unfold EE.select1. rewrite Hb. reflexivity. }
  unfold lai_overlay at 1.
  assert (Hmask : EE.select1 train_img "mask"
                  = OK (EE.add (EE.multiply pixel_qa (EE.constant 0)) (EE.constant 1))).
  { unfold EE.select1. rewrite Hb. reflexivity. }
  rewrite Hmask. cbn [bind].
  destruct (foldM_overlay_ok train_img sensor _ feats
              (biomes_of match nonveg with Some b => b | None => false end)
              (EE.toDouble (EE.add (EE.multiply
                 (EE.add (EE.multiply pixel_qa (EE.constant 0)) (EE.constant 1))
                 (EE.constant 0)) (EE.constant sentinel)))
              Hbiome Hfeats) as [lai_img Hl].
  rewrite Hl. cbn [bind].
  rewrite (getLAIQA_ok train_img sensor _ red green nir swir1
             (EE.remap fromList toList landcover));
    try (unfold EE.select1; rewrite Hb; reflexivity).
  cbn [bind]. eexists. reflexivity.
Qed.

Lemma Number_parse_digit (d : string) :
  In d ["5"; "7"; "8"; "9"] ->
  exists no, EE.Number_parse d = OK no
             /\ Qle_bool 8 no = (if in_dec string_dec d ["8"; "9"] then true else false).
Proof.
  simpl. intros [<-|[<-|[<-|[<-|[]]]]]; eexists; split; vm_compute; reflexivity.
Qed.

Lemma nlcd_year_ok_iff (image : EE.Image) (y : Q) :
  nlcd_year image = OK y
  <-> exists t,
        EE.get image "system:time_start" = Some (EE.PNum t)
        /\ 1984 <= date_year t <= 2024
        /\ y = inject_Z (nearest_epoch (date_year t)).
Proof.
  split.
  - intros H.
    destruct (EE.get image "system:time_start") as [[s|t|b]|] eqn:Ht;
      try (unfold nlcd_year in H; rewrite Ht in H; discriminate H).
    exists t. split; [reflexivity|].
    rewrite (nlcd_year_epoch_of image t Ht) in H.
    destruct (Z_le_dec 1984 (date_year t)) as [Hlo|Hlo];
      [destruct (Z_le_dec (date_year t) 2024) as [Hhi|Hhi]|].
    + rewrite nlcd_epoch_of_inside in H by lia. split; [lia | congruence].
    + destruct (nlcd_epoch_of_outside (date_year t)) as [msg Hm]; [lia | congruence].
    + destruct (nlcd_epoch_of_outside (date_year t)) as [msg Hm]; [lia | congruence].
  - intros (t & Ht & Hy & ->).
    rewrite (nlcd_year_epoch_of image t Ht). now apply nlcd_epoch_of_inside.
Qed.

(** The retrieval of a scene gives a result exactly when the scene has
    what the retrieval needs of it. *)
Lemma getLAIImage_ok_iff (image : EE.Image) (nonveg : option bool) :
  (exists out, getLAIImage image nonveg = OK out) <-> retrievable image.
Proof.
  split.
  - intros [out H].
    destruct (getLAIImage_spec _ _ _ H) as (sensor & train_img & lai_img & qa & Ht & _).
    destruct (getTrainImg_bands _ _ Ht)
      as (y & landcover & green & red & nir & swir1 & pixel_qa & NDVI & NDWI & sz & sa
          & Hy & Hlc & _ & _).
    destruct (getTrainImg_processed _ _ Ht) as [p Hp].
    destruct (processLandsat_solar _ _ Hp) as (z & a & Hz & Ha & _).
    unfold processLandsat in Hp. unfold bind at 1 in Hp.
    destruct (renameLandsat image) as [renamed|] eqn:Hr; [|discriminate].
    destruct (renameLandsat_raw _ _ Hr)
      as (id & no & b1 & b2 & b3 & b4 & b5 & b6 & b7
          & Hid & Hno & H1 & H2 & H3 & H4 & H5 & H6 & H7 & _).
    assert (Hd : In (EE.slice id 8 9) ["5"; "7"; "8"; "9"]).
    { unfold getLAIImage, EE.String in H. rewrite Hid in H. cbn [bind] in H.
      unfold EE.Dictionary_get in H.
      destruct (sensor_dict !! EE.slice id 8 9) as [s|] eqn:Es; [|discriminate].
      apply sensor_dict_keys. now exists s. }
    apply select1_ok_has_band in H1, H2, H3, H4, H5, H6, H7.
    split; [|split; [|split]].
    + exists (EE.slice id 8 9). split; [unfold satDigit_of; now rewrite Hid|].
      destruct (Number_parse_digit _ Hd) as (no' & Hno' & Hle).
      assert (no' = no) by congruence. subst no'.
      rewrite Hle in H1, H2, H3, H4, H5.
      unfold has_bands, bands_L57, bands_L89.
      destruct (in_dec string_dec (EE.slice id 8 9) ["8"; "9"]) as [Hin|Hout].
      * right. split; [exact Hin|]. cbn [forallb].
        rewrite H1, H2, H3, H4, H5, H6, H7. reflexivity.
      * left. split.
        { simpl in Hd, Hout. simpl.
          destruct Hd as [E|[E|[E|[E|[]]]]]; auto; exfalso; apply Hout; auto. }
        cbn [forallb]. rewrite H1, H2, H3, H4, H5, H6, H7. reflexivity.
    + apply solarZenith_ok_iff. now exists z.
    + apply solarAzimuth_ok_iff. now exists a.
    + apply nlcd_year_ok_iff in Hy. destruct Hy as (t & Ht' & Hrange & ->).
      exists t. split; [exact Ht'|]. split; [exact Hrange|]. congruence.
  - intros ((d & Hd & Hcase) & Hz & Ha & (t & Ht & Hrange & Hlc)).
    destruct (renameLandsat_ok image d Hd Hcase) as [renamed Hr].
    apply solarZenith_ok_iff in Hz. destruct Hz as [z Hz].
    apply solarAzimuth_ok_iff in Ha. destruct Ha as [a Ha].
    destruct (processLandsat_after_rename image renamed z a Hr Hz Ha) as [p Hp].
    assert (Hy : nlcd_year image = OK (inject_Z (nearest_epoch (date_year t)))).
    { apply nlcd_year_ok_iff. exists t. repeat split; assumption || lia. }
    destruct (nlcd_landcover (inject_Z (nearest_epoch (date_year t))))
      as [landcover|] eqn:El; [|congruence].
    destruct (getTrainImg_ok image p _ landcover Hy El Hp) as [train_img Htr].
    assert (Hin : In d ["5"; "7"; "8"; "9"]).
    { simpl in Hcase. simpl.
      destruct Hcase as [[[E|[E|[]]] _]|[[E|[E|[]]] _]]; auto 6. }
    apply sensor_dict_keys in Hin. destruct Hin as [sensor Hs].
    exact (getLAIImage_ok image train_img nonveg d sensor Hd Hs Htr).
Qed.

Lemma maskedLAI_ok (image : EE.Image) (nonveg : option bool) (out : EE.Image) :
  getLAIImage image nonveg = OK out -> exists b, maskedLAI out = OK b.
Proof.
  intros H.
  destruct (getLAIImage_spec _ _ _ H) as (sensor & train_img & lai_img & qa & _ & _ & _ & Hb).
  unfold maskedLAI, EE.select1. rewrite Hb.
  cbn [EE.lookup_band String.eqb Ascii.eqb Bool.eqb bind]. eexists. reflexivity.
Qed.

(** X8.  The retrieval of a scene gives a result exactly when the scene is
    of Landsat 5, 7, 8 or 9 and has the seven bands of its band set, its
    solar metadata can be read, its acquisition time is a number in a year
    from 1984 to 2024, and the NLCD collection has an image of the epoch
    nearest to that year; no value of a pixel makes it fail.  The composite
    of a month gives a result exactly when this holds of every scene of the
    month. *)
Theorem retrieval_succeeds_iff (year month : Z) :
  (forall image nonveg,
      (exists out, getLAIImage image nonveg = OK out) <-> retrievable image)
  /\ ((exists out, buildMonthlyLAI year month = OK out)
      <-> Forall retrievable (getLandsat year month)).
Proof.
  split; [exact getLAIImage_ok_iff|].
  assert (Hmap : (exists coll,
                     mapM (fun img => laiImg <- getLAIImage img (Some NONVEG) ;;
                                      maskedLAI laiImg)
                          (getLandsat year month) = OK coll)
                 <-> Forall retrievable (getLandsat year month)).
  { rewrite mapM_ok_iff. split; intros HF; eapply Forall_impl; try exact HF;
      cbv beta; intros img Himg.
    - apply (getLAIImage_ok_iff img (Some NONVEG)).
      destruct Himg as [b Hb]. unfold bind in Hb.
      destruct (getLAIImage img (Some NONVEG)) as [laiImg|]; [|discriminate].
      now exists laiImg.
    - apply (getLAIImage_ok_iff img (Some NONVEG)) in Himg.
      destruct Himg as [laiImg Hg]. rewrite Hg. cbn [bind].
      exact (maskedLAI_ok _ _ _ Hg). }
  rewrite <- Hmap. unfold buildMonthlyLAI. split.
  - intros [out H]. unfold bind in H.
    destruct (mapM _ (getLandsat year month)) as [coll|]; [|discriminate].
    now exists coll.
  - intros [coll ->]. cbn [bind].
    rewrite reduceMonthly_closed_form. cbv zeta. cbn [bind]. eexists. reflexivity.
Qed.

(** ** The per-scene image *)

Lemma qa_code_range (b0 b1 b2 : bool) : 0 <= qa_code b0 b1 b2 <= 7.
Proof. destruct b0, b1, b2; vm_compute; split; discriminate. Qed.

Lemma toByte_qa_band_spec (sensor : string) (red green nir swir1 biome2 lai : EE.band) :
  EE.toByte (qa_band_spec sensor red green nir swir1 biome2 lai)
  = qa_band_spec sensor red green nir swir1 biome2 lai.
Proof.
  unfold qa_band_spec. destruct lai as [l|]; [|reflexivity].
  destruct biome2 as [b|]; [|reflexivity].
  unfold EE.toByte, EE.lift1. rewrite saturate_inject_Z.
  pose proof (qa_code_range (negb (in_training_hull sensor red green nir swir1))
                (lai_out_of_range l) (Qeq_bool b 0)) as H.
  do 2 f_equal. lia.
Qed.

Lemma scale_LAI_valid (lai : EE.band) : is_valid (scale_LAI lai) = is_valid lai.
Proof. destruct lai; reflexivity. Qed.

Lemma stored_code_range (v : Q) : 0 <= stored_code v <= 65535.
Proof. unfold stored_code. lia. Qed.

(** The per-scene image in closed form: its LAI band is the code of the
    overlaid LAI and its QA band the three flags, where the overlaid LAI
    and the biome have data. *)
Lemma getLAIImage_closed_form (image : EE.Image) (nonveg : option bool) (out : EE.Image) :
  getLAIImage image nonveg = OK out ->
  exists sensor train_img lai_img mask red green nir swir1 biome2,
    getTrainImg image = OK train_img /\
    EE.select1 train_img "mask" = OK mask /\
    EE.select1 train_img "red" = OK red /\ EE.select1 train_img "green" = OK green /\
    EE.select1 train_img "nir" = OK nir /\ EE.select1 train_img "swir1" = OK swir1 /\
    EE.select1 train_img "biome2" = OK biome2 /\
    foldM (overlay_biome train_img sensor)
      (biomes_of (match nonveg with Some b => b | None => false end))
      (sentinel_image mask) = OK lai_img /\
    ((biome2 = None \/
      exists b, biome2 = Some b /\
                existsb (Qeq_bool b)
                  (biomes_of (match nonveg with Some b => b | None => false end))
                = false) ->
     final_lai lai_img = None) /\
    EE.bands out
    = [("LAI", scale_LAI (final_lai lai_img));
       ("QA", qa_band_spec sensor red green nir swir1 biome2 (final_lai lai_img))].
Proof.
  intros H.
  destruct (getLAIImage_spec _ _ _ H)
    as (sensor & train_img & lai_img & qa & Ht & Ho & Hq & Hout).
  destruct (getLAIQA_spec _ _ _ _ Hq)
    as (red & green & nir & swir1 & biome2 & Hr & Hg & Hn & Hs & Hb & ->).
  destruct (getLAIImage_overlay _ _ _ H)
    as (sensor' & train_img' & lai_img' & mask & biome2' & feats & Hall).
  cbv zeta in Hall.
  destruct Hall as (Ht' & Hmask & Hbiome & Hfeats & _ & _ & _ & _).
  assert (train_img' = train_img) by congruence. subst train_img'.
  assert (biome2' = biome2) by congruence. subst biome2'.
  assert (Hfold : foldM (overlay_biome train_img sensor)
                    (biomes_of (match nonveg with Some b => b | None => false end))
                    (sentinel_image mask) = OK lai_img).
  { unfold lai_overlay in Ho. rewrite Hmask in Ho. exact Ho. }
  exists sensor, train_img, lai_img, mask, red, green, nir, swir1, biome2.
  repeat (split; [assumption|]). split.
  - intros Hun.
    rewrite (overlay_others train_img sensor biome2 feats Hbiome Hfeats) in Hfold
      by exact Hun.
    injection Hfold as <-. apply final_lai_sentinel.
  - rewrite Hout, toByte_qa_band_spec. reflexivity.
Qed.

(** X9.  The per-scene image has exactly the bands LAI and QA, and the two
    have data at the same pixels.  The LAI is an integer code from 0 to
    65535 and the QA an integer from 0 to 7.  The image carries the
    properties of the scene, and besides them the scale factor 0.01, the
    NLCD epoch, the non-vegetation switch and the version. *)
Theorem getLAIImage_output
    (image : EE.Image) (nonveg : option bool) (out : EE.Image) :
  getLAIImage image nonveg = OK out ->
  exists lai qa y,
    EE.bands out = [("LAI", lai); ("QA", qa)]
    /\ is_valid lai = is_valid qa
    /\ (forall v, lai = Some v -> exists c, v = inject_Z c /\ 0 <= c <= 65535)
    /\ (forall q, qa = Some q -> exists c, q = inject_Z c /\ 0 <= c <= 7)
    /\ nlcd_year image = OK y
    /\ EE.get out "LAI_NLCD_year" = Some (EE.PNum y)
    /\ EE.get out "LAI_scale_factor" = Some (EE.PNum 0.01%Q)
    /\ EE.get out "LAI_nonveg"
       = Some (EE.PBool (match nonveg with Some b => b | None => false end))
    /\ EE.get out "LAI_version" = Some (EE.PStr "0.2.0")
    /\ EE.get out "system:time_start" = EE.get image "system:time_start"
    /\ (forall key,
          String.prefix "system:" key = false ->
          ~ In key ["LAI_NLCD_year"; "LAI_scale_factor"; "LAI_nonveg"; "LAI_version"] ->
          EE.get out key = EE.get image key).
Proof.
  intros H.
  destruct (getLAIImage_closed_form _ _ _ H)
    as (sensor & train_img & lai_img & mask & red & green & nir & swir1 & biome2
        & Ht & _ & _ & _ & _ & _ & _ & _ & Hnone & Hout).
  destruct (getTrainImg_bands _ _ Ht)
    as (y & landcover & g' & r' & n' & s' & pixel_qa & NDVI & NDWI & sz & sa
        & Hy & _ & Hny & _).
  exists (scale_LAI (final_lai lai_img)),
    (qa_band_spec sensor red green nir swir1 biome2 (final_lai lai_img)), y.
  split; [exact Hout|]. split; [|split; [|split]].
  - rewrite scale_LAI_valid. unfold qa_band_spec.
    destruct (final_lai lai_img) as [l|] eqn:El; [|reflexivity].
    destruct biome2 as [b|]; [reflexivity|].
    specialize (Hnone (or_introl Logic.eq_refl)). discriminate Hnone.
  - intros v Hv. destruct (final_lai lai_img) as [l|]; [|discriminate].
    rewrite scale_LAI_Some in Hv. injection Hv as <-.
    exists (stored_code l). split; [reflexivity | apply stored_code_range].
  - intros q Hq. unfold qa_band_spec in Hq.
    destruct (final_lai lai_img) as [l|]; [|discriminate].
    destruct biome2 as [b|]; [|discriminate].
    injection Hq as <-. eexists. split; [reflexivity | apply qa_code_range].
  - split; [exact Hy|].
    clear Hout Hnone.
    unfold getLAIImage, bind in H.
    destruct (EE.String _ _) as [id|]; [|discriminate].
    destruct (EE.Dictionary_get _ _) as [sensor'|]; [|discriminate].
    rewrite Ht in H.
    destruct (lai_overlay train_img sensor' _) as [lai_img'|]; [|discriminate].
    destruct (getLAIQA train_img sensor' _) as [qa'|]; [|discriminate].
    rewrite Hny in H. injection H as <-.
    unfold EE.get, EE.set, EE.copyProperties, EE.addBand. cbn [EE.properties].
    split.
    { do 2 (rewrite lookup_insert_ne by discriminate). apply lookup_insert_eq. }
    split.
    { do 3 (rewrite lookup_insert_ne by discriminate). apply lookup_insert_eq. }
    split.
    { rewrite lookup_insert_ne by discriminate. apply lookup_insert_eq. }
    split; [apply lookup_insert_eq|].
    match goal with
    | |- ?props !! "system:time_start" = _ /\ _ =>
        assert (Hcopy : forall key,
                   ~ In key ["LAI_NLCD_year"; "LAI_scale_factor"; "LAI_nonveg";
                             "LAI_version"] ->
                   props !! key = EE.properties image !! key)
    end;
      [|split; [apply Hcopy; simpl; intros [E|[E|[E|[E|[]]]]]; discriminate E
               | intros key _; apply Hcopy]].
    intros key Hkey. simpl in Hkey.
    rewrite !lookup_insert_ne by (intros <-; apply Hkey; auto 6).
    destruct (EE.properties image !! "system:time_start") as [ts|] eqn:Ets;
      cbn [EE.properties].
    + destruct (String.eqb_spec "system:time_start" key) as [<-|Hne].
      * rewrite lookup_insert_eq. now rewrite Ets.
      * rewrite lookup_insert_ne by exact Hne.
        rewrite lookup_union_l; [reflexivity | apply lookup_empty].
    + rewrite lookup_union_l; [reflexivity | apply lookup_empty].
Qed.

Lemma foldM_overlay_None (t : EE.Image) (sensor : string) (bs : list Q) (r : EE.band) :
  foldM (overlay_biome t sensor) bs None = OK r -> r = None.
Proof.
  induction bs as [|b bs IH]; simpl; [congruence|].
  unfold overlay_biome at 1. unfold bind at 1.
  destruct (EE.select1 t "biome2") as [biome2|]; [|discriminate].
  unfold bind at 1.
  destruct (getLAIforBiome t _ _) as [value|]; [|discriminate].
  cbn [bind EE.where_]. exact IH.
Qed.

(** The retrieval of a scene by its steps, the sensor being the entry of
    the sensor dictionary for the ninth character of the spacecraft id. *)
Lemma getLAIImage_steps (image : EE.Image) (nonveg : option bool) (out : EE.Image) :
  getLAIImage image nonveg = OK out ->
  exists id sensor train_img lai_img qa,
    EE.get image "SPACECRAFT_ID" = Some (EE.PStr id) /\
    EE.Dictionary_get sensor_dict (EE.slice id 8 9) = OK sensor /\
    getTrainImg image = OK train_img /\
    lai_overlay train_img sensor
      (biomes_of (match nonveg with Some b => b | None => false end)) = OK lai_img /\
    getLAIQA train_img sensor (final_lai lai_img) = OK qa /\
    EE.bands out = [("LAI", scale_LAI (final_lai lai_img)); ("QA", EE.toByte qa)].
Proof.
  unfold getLAIImage. unfold bind at 1.
  destruct (EE.get image "SPACECRAFT_ID") as [[id| |]|] eqn:Hid; try discriminate.
  cbn [EE.String]. unfold bind.
  destruct (EE.Dictionary_get _ _) as [sensor|] eqn:Hs; [|discriminate].
  destruct (getTrainImg image) as [train_img|]; [|discriminate].
  destruct (lai_overlay train_img sensor _) as [lai_img|] eqn:Ho; [|discriminate].
  fold (final_lai lai_img).
  destruct (getLAIQA train_img sensor (final_lai lai_img)) as [qa|] eqn:Hq; [|discriminate].
  intros [= <-]. exists id, sensor, train_img, lai_img, qa.
  repeat split; try assumption.
  destruct (EE.get image "system:time_start"), (EE.get train_img "nlcd_year"); reflexivity.
Qed.

(** What a scene brings into the monthly stack: the code of the LAI that
    the model of its sensor predicts from the ten feature bands of the
    pixel. *)
Lemma retained_value_spec
    (image : EE.Image) (nonveg : option bool) (out : EE.Image) (v : Q) :
  getLAIImage image nonveg = OK out ->
  maskedLAI out = OK (Some v) ->
  exists id sensor train_img red green nir swir1 b feats xs l,
    EE.get image "SPACECRAFT_ID" = Some (EE.PStr id)
    /\ EE.Dictionary_get sensor_dict (EE.slice id 8 9) = OK sensor
    /\ getTrainImg image = OK train_img
    /\ EE.select1 train_img "red" = OK red /\ EE.select1 train_img "green" = OK green
    /\ EE.select1 train_img "nir" = OK nir /\ EE.select1 train_img "swir1" = OK swir1
    /\ EE.select1 train_img "biome2" = OK (Some b)
    /\ existsb (Qeq_bool b) (biomes_of (match nonveg with Some b => b | None => false end))
       = true
    /\ in_training_hull sensor red green nir swir1 = true
    /\ mapM (EE.select1 train_img) features = OK feats
    /\ EE.all_valid feats = Some xs
    /\ l = train_rf sensor None xs
    /\ (0 <= l)%Q /\ (l <= 8)%Q
    /\ v = inject_Z (EE.round_Z (EE.binary64 (l * 100)))
    /\ 0 <= EE.round_Z (EE.binary64 (l * 100)) <= 800
    /\ EE.select1 out "QA" = OK (Some (inject_Z (qa_code false false (Qeq_bool b 0)))).
Proof.
  intros H Hm.
  destruct (getLAIImage_steps _ _ _ H)
    as (id & sensor & train_img & lai_img & qa0 & Hid & Hsensor & Ht & Ho & Hqa & Hout).
  destruct (getLAIQA_spec _ _ _ _ Hqa)
    as (red & green & nir & swir1 & biome2 & Hr & Hg & Hn & Hs & Hb & ->).
  rewrite toByte_qa_band_spec in Hout.
  destruct (getLAIImage_overlay _ _ _ H)
    as (sensor' & train_img' & lai_img' & mask & biome2' & feats & Hall).
  cbv zeta in Hall.
  destruct Hall as (Ht' & Hmask & Hbiome & Hfeats & _ & _ & _ & _).
  assert (train_img' = train_img) by congruence. subst train_img'.
  assert (biome2' = biome2) by congruence. subst biome2'.
  clear sensor' lai_img' Ht'.
  set (biomes := biomes_of (match nonveg with Some b => b | None => false end)) in *.
  assert (Hfold : foldM (overlay_biome train_img sensor) biomes (sentinel_image mask)
                  = OK lai_img).
  { unfold lai_overlay in Ho. rewrite Hmask in Ho. exact Ho. }
  destruct (maskedLAI_spec _ _ Hm) as (lai & qa & Hl & Hq & Hv).
  unfold EE.select1 in Hl, Hq. rewrite Hout in Hl, Hq.
  cbn [EE.lookup_band String.eqb Ascii.eqb Bool.eqb] in Hl, Hq.
  injection Hl as <-. injection Hq as <-.
  destruct (final_lai lai_img) as [l|] eqn:Efinal; [|discriminate].
  rewrite scale_LAI_Some in Hv. unfold qa_band_spec in Hv.
  destruct biome2 as [b|]; [|discriminate].
  (* the round that wrote the pixel *)
  destruct mask as [i|].
  2: { cbn in Hfold. apply foldM_overlay_None in Hfold. subst lai_img.
       discriminate Efinal. }
  assert (Hs0 : sentinel_image (Some i) = Some (i * 0 + sentinel)%Q) by reflexivity.
  rewrite Hs0 in Hfold.
  rewrite (overlay_closed_form train_img sensor (Some b) feats Hbiome Hfeats
             biomes _ b (biomes_distinct _) Logic.eq_refl) in Hfold.
  assert (Hsent : final_lai (Some (i * 0 + sentinel)%Q) = None).
  { rewrite <- Hs0. apply final_lai_sentinel. }
  destruct (find (Qeq_bool b) biomes) as [b'|] eqn:Efind.
  2: { injection Hfold as <-. rewrite Hsent in Efinal. discriminate Efinal. }
  destruct (EE.all_valid feats) as [xs|] eqn:Exs.
  2: { injection Hfold as <-. rewrite Hsent in Efinal. discriminate Efinal. }
  injection Hfold as <-.
  change (getRFModel sensor (EeNumber b') xs) with (train_rf sensor None xs) in Efinal.
  assert (El : l = train_rf sensor None xs).
  { unfold final_lai, EE.updateMask, EE.neq, EE.constant, EE.lift2 in Efinal.
    destruct (EE.nonzero _) in Efinal; congruence. }
  assert (Hmatch : existsb (Qeq_bool b) biomes = true).
  { apply existsb_exists. exists b'. apply find_some in Efind. exact Efind. }
  unfold qa_bit in Hv. rewrite trunc_inject_Z in Hv.
  destruct (qa_code_bits (negb (in_training_hull sensor red green nir swir1))
              (lai_out_of_range l) (Qeq_bool b 0)) as (B0 & B1 & _).
  rewrite B0, B1 in Hv.
  destruct (in_training_hull sensor red green nir swir1) eqn:Ehull; [|discriminate].
  destruct (lai_out_of_range l) eqn:Erange; [discriminate|].
  cbn [negb orb] in Hv. injection Hv as ->.
  pose proof Erange as Erange'.
  unfold lai_out_of_range in Erange. apply Bool.negb_false_iff in Erange.
  apply Bool.andb_true_iff in Erange. destruct Erange as [H0 H8].
  apply Qle_bool_iff in H0, H8. unfold lai_max in H8.
  pose proof (code_0_800 l H0 H8) as Hc.
  assert (Ec : stored_code l = EE.round_Z (EE.binary64 (l * 100))).
  { unfold stored_code. lia. }
  exists id, sensor, train_img, red, green, nir, swir1, b, feats, xs, l.
  repeat (split; [assumption|]).
  split; [now rewrite Ec|]. split; [exact Hc|].
  unfold EE.select1. rewrite Hout. cbn [EE.lookup_band String.eqb Ascii.eqb Bool.eqb].
  unfold qa_band_spec. rewrite Ehull, Erange'. reflexivity.
Qed.

(** X10.  A value that a scene brings into the monthly stack is the code
    of the LAI that the model of the sensor of the scene predicts at the
    pixel: an LAI between 0 and 8, of a pixel inside the training data of
    that sensor, times 100 in double precision and rounded.  The code is an
    integer from 0 to 800, which decodes with the scale factor 0.01 to
    within 0.005 + 10^-15 of the LAI.  The QA of such a pixel is 0, or 4
    when its biome is 0, which it is only with the non-vegetated retrieval
    on. *)
Theorem composited_value_is_a_valid_code
    (image : EE.Image) (nonveg : option bool) (out : EE.Image) (v : Q) :
  getLAIImage image nonveg = OK out ->
  maskedLAI out = OK (Some v) ->
  exists id sensor train_img red green nir swir1 feats xs l c q,
    EE.get image "SPACECRAFT_ID" = Some (EE.PStr id)
    /\ EE.Dictionary_get sensor_dict (EE.slice id 8 9) = OK sensor
    /\ getTrainImg image = OK train_img
    /\ EE.select1 train_img "red" = OK red /\ EE.select1 train_img "green" = OK green
    /\ EE.select1 train_img "nir" = OK nir /\ EE.select1 train_img "swir1" = OK swir1
    /\ in_training_hull sensor red green nir swir1 = true
    /\ mapM (EE.select1 train_img) features = OK feats
    /\ EE.all_valid feats = Some xs
    /\ l = train_rf sensor None xs
    /\ (0 <= l)%Q /\ (l <= 8)%Q
    /\ c = EE.round_Z (EE.binary64 (l * 100))
    /\ v = inject_Z c
    /\ 0 <= c <= 800
    /\ (Qabs (inject_Z c * 0.01 - l) <= 0.005 + (1 # 1000000000000000))%Q
    /\ EE.select1 out "LAI" = OK (Some v)
    /\ EE.select1 out "QA" = OK (Some q)
    /\ (q = 0%Q \/ q = 4%Q)
    /\ (nonveg = None \/ nonveg = Some false -> q = 0%Q).
Proof.
  intros H Hm.
  destruct (retained_value_spec _ _ _ _ H Hm)
    as (id & sensor & train_img & red & green & nir & swir1 & b & feats & xs & l
        & Hid & Hsensor & Ht & Hr & Hg & Hn & Hs & _ & Hmatch & Hhull & Hfeats & Hxs
        & Hl & H0 & H8 & Hv & Hc & Hq).
  exists id, sensor, train_img, red, green, nir, swir1, feats, xs, l,
    (EE.round_Z (EE.binary64 (l * 100))),
    (inject_Z (qa_code false false (Qeq_bool b 0))).
  repeat (split; [assumption|]).
  split; [reflexivity|]. split; [exact Hv|]. split; [exact Hc|].
  split; [|split; [|split; [|split]]].
  - destruct (product_error l H0 H8) as [P1 P2].
    pose proof (round_Z_le (EE.binary64 (l * 100))) as R1.
    pose proof (round_Z_gt (EE.binary64 (l * 100))) as R2.
    set (c := inject_Z (EE.round_Z (EE.binary64 (l * 100)))) in *.
    set (p := EE.binary64 (l * 100)) in *. clearbody c p.
    apply Qabs_Qle_condition. split; lra.
  - destruct (maskedLAI_spec _ _ Hm) as (lai & qa & Hlai & Hqa & Hkeep).
    rewrite Hlai. destruct lai as [x|], qa as [y|]; try discriminate.
    match type of Hkeep with
    | context [if ?c then _ else _] =>
        destruct c; [injection Hkeep as Ex; now rewrite Ex | discriminate Hkeep]
    end.
  - exact Hq.
  - destruct (Qeq_bool b 0); [right | left]; reflexivity.
  - intros Hoff.
    assert (Enz : Qeq_bool b 0 = false).
    { destruct (Qeq_bool b 0) eqn:E0; [|reflexivity]. exfalso.
      apply Qeq_bool_iff in E0.
      assert (Ebiomes : biomes_of (match nonveg with Some b => b | None => false end)
                        = biomes_of false)
        by (destruct Hoff as [-> | ->]; reflexivity).
      rewrite Ebiomes in Hmatch. apply existsb_exists in Hmatch.
      destruct Hmatch as (k & Hin & Hk). apply Qeq_bool_iff in Hk.
      rewrite E0 in Hk. simpl in Hin.
      repeat (destruct Hin as [<-|Hin]; [discriminate Hk|]). exact Hin. }
    rewrite Enz. reflexivity.
Qed.

(** ** The monthly composite *)

Lemma valid_values_In (coll : list EE.band) (x : Q) :
  In x (EE.valid_values coll) <-> In (Some x) coll.
Proof.
  induction coll as [|[y|] coll IH]; simpl.
  - reflexivity.
  - rewrite IH. split; intros [H|H]; auto; left; congruence.
  - rewrite IH. split; [auto | intros [H|H]; [discriminate | exact H]].
Qed.

Lemma insert_sorted_In (x y : Q) (l : list Q) :
  In y (EE.insert_sorted x l) <-> y = x \/ In y l.
Proof.
  induction l as [|z l IH]; simpl.
  - split; intros [H|H]; auto.
  - destruct (Qle_bool x z); simpl.
    + split; intros [H|H]; auto.
    + rewrite IH. split; intros [H|[H|H]]; auto.
Qed.

Lemma sort_values_In (y : Q) (l : list Q) : In y (EE.sort_values l) <-> In y l.
Proof.
  unfold EE.sort_values. induction l as [|x l IH]; simpl; [reflexivity|].
  rewrite insert_sorted_In, IH. split; intros [H|H]; auto.
Qed.

Lemma insert_sorted_length (x : Q) (l : list Q) :
  length (EE.insert_sorted x l) = S (length l).
Proof.
  induction l as [|z l IH]; simpl; [reflexivity|].
  destruct (Qle_bool x z); simpl; [reflexivity | now rewrite IH].
Qed.

Lemma sort_values_length (l : list Q) : length (EE.sort_values l) = length l.
Proof.
  unfold EE.sort_values. induction l as [|x l IH]; simpl; [reflexivity|].
  now rewrite insert_sorted_length, IH.
Qed.

Lemma median_valid (coll : list EE.band) :
  is_valid (EE.median_value coll) = negb (Nat.eqb (length (EE.valid_values coll)) 0).
Proof.
  unfold EE.median_value. rewrite <- (sort_values_length (EE.valid_values coll)).
  destruct (EE.sort_values (EE.valid_values coll)) as [|x xs]; [reflexivity|].
  destruct (Nat.even (length (x :: xs))); reflexivity.
Qed.

Lemma mean_valid (coll : list EE.band) :
  is_valid (EE.mean_value coll) = negb (Nat.eqb (length (EE.valid_values coll)) 0).
Proof.
  unfold EE.mean_value. destruct (EE.valid_values coll); reflexivity.
Qed.

Lemma median_bounds (coll : list EE.band) (lo hi v : Q) :
  (forall x, In x (EE.valid_values coll) -> (lo <= x /\ x <= hi)%Q) ->
  EE.median_value coll = Some v -> (lo <= v /\ v <= hi)%Q.
Proof.
  intros Hall. unfold EE.median_value.
  assert (Hs : forall x, In x (EE.sort_values (EE.valid_values coll)) ->
                         (lo <= x /\ x <= hi)%Q).
  { intros x Hx. apply Hall. now apply sort_values_In. }
  destruct (EE.sort_values (EE.valid_values coll)) as [|x xs] eqn:E; [discriminate|].
  cbv zeta. remember (x :: xs) as l eqn:El. remember (length l) as n eqn:En.
  assert (Hn : (0 < n)%nat) by (subst n l; simpl; lia).
  assert (Hhalf : (n / 2 < n)%nat) by (apply Nat.div_lt; lia).
  destruct (Nat.even n) eqn:Ev; intros [= <-];
    change (fst (Nat.divmod n 1 0 1)) with (Nat.div n 2).
  - assert (H1 : (n / 2 - 1 < n)%nat) by lia.
    destruct (Hs (nth (n / 2 - 1) l 0%Q)) as [A1 A2]; [apply nth_In; lia|].
    destruct (Hs (nth (n / 2) l 0%Q)) as [B1 B2]; [apply nth_In; lia|].
    set (a := nth (n / 2 - 1) l 0%Q) in *. set (b := nth (n / 2) l 0%Q) in *.
    clearbody a b. split.
    + apply Qle_shift_div_l; lra.
    + apply Qle_shift_div_r; lra.
  - apply Hs. apply nth_In. lia.
Qed.

Lemma sum_bounds (xs : list Q) (lo hi : Q) :
  (forall x, In x xs -> (lo <= x /\ x <= hi)%Q) ->
  (inject_Z (Z.of_nat (length xs)) * lo <= fold_right Qplus 0 xs
   /\ fold_right Qplus 0 xs <= inject_Z (Z.of_nat (length xs)) * hi)%Q.
Proof.
  induction xs as [|x xs IH]; intros H.
  - cbn [length fold_right]. change (inject_Z (Z.of_nat 0)) with 0%Q. split; lra.
  - destruct IH as [I1 I2]; [intros y Hy; apply H; now right|].
    destruct (H x) as [X1 X2]; [now left|].
    cbn [length fold_right]. rewrite Nat2Z.inj_succ. unfold Z.succ.
    rewrite inject_Z_plus. change (inject_Z 1) with 1%Q. split; lra.
Qed.

Lemma mean_bounds (coll : list EE.band) (lo hi v : Q) :
  (forall x, In x (EE.valid_values coll) -> (lo <= x /\ x <= hi)%Q) ->
  EE.mean_value coll = Some v -> (lo <= v /\ v <= hi)%Q.
Proof.
  intros Hall. unfold EE.mean_value.
  destruct (EE.valid_values coll) as [|x xs] eqn:E; [discriminate|].
  destruct (sum_bounds (x :: xs) lo hi Hall) as [S1 S2].
  assert (Hpos : (0 < inject_Z (Z.of_nat (length (x :: xs))))%Q).
  { change 0%Q with (inject_Z 0). rewrite <- Zlt_Qlt. simpl. lia. }
  set (s := fold_right Qplus 0%Q (x :: xs)) in *.
  set (k := inject_Z (Z.of_nat (length (x :: xs)))) in *.
  clearbody s k. intros [= <-].
  split.
  - apply Qle_shift_div_l; [exact Hpos | lra].
  - apply Qle_shift_div_r; [exact Hpos | lra].
Qed.

Lemma toUint16_bounds (v : Q) (lo hi : Z) :
  0 <= lo -> hi <= 65535 ->
  (inject_Z lo <= v /\ v <= inject_Z hi)%Q ->
  exists c, EE.toUint16 (Some v) = Some (inject_Z c) /\ lo <= c <= hi.
Proof.
  intros Hlo Hhi [H1 H2]. unfold EE.toUint16, EE.lift1, EE.saturate.
  eexists. split; [reflexivity|].
  assert (Hpos : (0 <= v)%Q).
  { assert (H0 : (inject_Z 0 <= inject_Z lo)%Q) by (rewrite <- Zle_Qle; exact Hlo).
    change (inject_Z 0) with 0%Q in H0. lra. }
  unfold EE.trunc. apply Qle_bool_iff in Hpos. rewrite Hpos.
  assert (F1 : lo <= Qfloor v).
  { rewrite <- (Qfloor_Z lo). now apply Qfloor_resp_le. }
  assert (F2 : Qfloor v <= hi).
  { rewrite <- (Qfloor_Z hi). now apply Qfloor_resp_le. }
  lia.
Qed.

Lemma mapM_Forall2 {A B : Type} (f : A -> result B) (l : list A) (bs : list B) :
  mapM f l = OK bs -> Forall2 (fun a b => f a = OK b) l bs.
Proof.
  revert bs. induction l as [|a l IH]; simpl; intros bs H.
  - injection H as <-. constructor.
  - unfold bind in H. destruct (f a) as [b|] eqn:Ef; [|discriminate].
    destruct (mapM f l) as [bs'|]; [|discriminate].
    injection H as <-. constructor; [exact Ef | now apply IH].
Qed.

Lemma Forall2_In_r {A B : Type} (R : A -> B -> Prop) (l : list A) (bs : list B) (b : B) :
  Forall2 R l bs -> In b bs -> exists a, In a l /\ R a b.
Proof.
  induction 1 as [|a' b' l' bs' HR HF IH]; simpl; [contradiction|].
  intros [<-|Hin].
  - exists a'. auto.
  - destruct (IH Hin) as (a & Ha & HRa). exists a. auto.
Qed.

(** The values of the stack a month is reduced over are codes from 0 to
    800. *)
Lemma stack_values (year month : Z) (laiImgs : list EE.Image) (coll : list EE.band) :
  mapM (fun img => getLAIImage img (Some NONVEG)) (getLandsat year month) = OK laiImgs ->
  mapM maskedLAI laiImgs = OK coll ->
  forall x, In x (EE.valid_values coll) ->
            exists c, x = inject_Z c /\ 0 <= c <= 800.
Proof.
  intros Himgs Hcoll x Hx. apply valid_values_In in Hx.
  destruct (Forall2_In_r _ _ _ _ (mapM_Forall2 _ _ _ Hcoll) Hx) as (laiImg & Hin & Hm).
  destruct (Forall2_In_r _ _ _ _ (mapM_Forall2 _ _ _ Himgs) Hin) as (img & _ & Hg).
  destruct (retained_value_spec _ _ _ _ Hg Hm)
    as (id & sensor & train_img & red & green & nir & swir1 & b & feats & xs & l
        & _ & _ & _ & _ & _ & _ & _ & _ & _ & _ & _ & _ & _ & _ & _ & Hv & Hc & _).
  eexists. split; [exact Hv | exact Hc].
Qed.

Lemma reduceMonthly_safe (coll : list EE.band) :
  exists safeColl,
    EE.valid_values safeColl = EE.valid_values coll
    /\ reduceMonthly coll
       = OK (EE.toUint16 (if String.eqb REDUCER "mean"
                          then EE.mean_value safeColl else EE.median_value safeColl),
             EE.toUint16 (EE.count_value count_unobserved safeColl)).
Proof.
  rewrite reduceMonthly_closed_form. cbv zeta. destruct coll as [|b coll].
  - exists [None]. split; reflexivity.
  - exists (b :: coll). split; reflexivity.
Qed.

Lemma mapM_length {A B : Type} (f : A -> result B) (l : list A) (bs : list B) :
  mapM f l = OK bs -> length bs = length l.
Proof.
  intros H. apply mapM_Forall2 in H. symmetry. eapply Forall2_length. exact H.
Qed.

(** X11.  The monthly composite has exactly the bands LAI and obs_count.
    With n the number of scenes of the month that are retained at the
    pixel, the LAI has data exactly where n is at least 1, and the count is
    n there; where n is 0 the LAI is no data, never 0, and the count is
    what [count()] gives at a pixel without observation, 0 or no data.
    Wherever the count has data, the LAI has data exactly when the count is
    at least 1. *)
Theorem composite_has_data_iff_observed (year month : Z) (out : EE.Image) :
  buildMonthlyLAI year month = OK out ->
  exists laiImgs lai count n,
    mapM (fun img => getLAIImage img (Some NONVEG)) (getLandsat year month) = OK laiImgs
    /\ n = Z.of_nat (length (List.filter pixel_retained laiImgs))
    /\ EE.bands out = [("LAI", lai); ("obs_count", count)]
    /\ 0 <= n <= Z.of_nat (length (getLandsat year month))
    /\ (is_valid lai = true <-> 1 <= n)
    /\ (lai = None <-> n = 0)
    /\ (1 <= n -> count = Some (inject_Z (Z.min 65535 n)))
    /\ (n = 0 -> count = EE.unobserved_value count_unobserved
                 /\ (count = Some 0%Q \/ count = None))
    /\ (forall c, count = Some c -> (is_valid lai = true <-> (1 <= c)%Q)).
Proof.
  intros H.
  destruct (buildMonthlyLAI_stack _ _ _ H)
    as (laiImgs & coll & lai & count & Himgs & Hcoll & Hred & Hb & _ & _).
  destruct (reduceMonthly_safe coll) as (safeColl & Hsafe & Hred').
  rewrite Hred in Hred'. injection Hred' as El Ec.
  rewrite toUint16_count_value in Ec.
  assert (Ek : length (List.filter is_valid safeColl)
               = length (List.filter pixel_retained laiImgs)).
  { rewrite <- (mapM_maskedLAI_count _ _ Hcoll), <- !valid_values_length.
    now rewrite Hsafe. }
  rewrite Ek in Ec.
  set (k := length (List.filter pixel_retained laiImgs)) in *.
  assert (Hk : (k <= length (getLandsat year month))%nat).
  { unfold k. rewrite <- (mapM_length _ _ _ Himgs). apply filter_length_le. }
  assert (Hvalid : is_valid lai = negb (Nat.eqb k 0)).
  { rewrite El. unfold k.
    rewrite <- (mapM_maskedLAI_count _ _ Hcoll), <- valid_values_length, <- Hsafe.
    destruct (String.eqb REDUCER "mean").
    - rewrite <- mean_valid. destruct (EE.mean_value safeColl); reflexivity.
    - rewrite <- median_valid. destruct (EE.median_value safeColl); reflexivity. }
  exists laiImgs, lai, count, (Z.of_nat k).
  split; [exact Himgs|]. split; [reflexivity|]. split; [exact Hb|].
  split; [lia|]. split; [|split; [|split; [|split]]].
  - rewrite Hvalid. destruct k; simpl; split; try discriminate; lia.
  - destruct lai; simpl in Hvalid; destruct k; simpl in *;
      split; try discriminate; try reflexivity; lia.
  - intros Hn. rewrite Ec. unfold count_band.
    assert (E : (Z.min 65535 (Z.of_nat k) =? 0) = false) by (apply Z.eqb_neq; lia).
    now rewrite E.
  - intros Hn. assert (k = 0%nat) by lia. subst count. rewrite H0.
    split; [reflexivity|]. unfold count_band. cbn [Z.of_nat Z.min Z.compare Z.eqb].
    destruct count_unobserved; [left | right]; reflexivity.
  - intros c Hc. rewrite Hvalid. rewrite Ec in Hc. unfold count_band in Hc.
    destruct k as [|k'].
    + cbn in Hc. destruct count_unobserved; [|discriminate].
      injection Hc as <-. cbn. split; [discriminate|]. intros Hle.
      exfalso. revert Hle. apply Qlt_not_le. reflexivity.
    + assert (E : (Z.min 65535 (Z.of_nat (S k')) =? 0) = false)
        by (apply Z.eqb_neq; lia).
      rewrite E in Hc. injection Hc as <-. cbn [Nat.eqb negb].
      split; [|reflexivity]. intros _.
      change 1%Q with (inject_Z 1). rewrite <- Zle_Qle. lia.
Qed.

(** X12.  The LAI of the monthly composite, under the median as under the
    mean, lies between the smallest and the largest code of the stack; it
    is an integer from 0 to 800, and the code itself where all the valid
    observations of the month agree. *)
Theorem composite_within_range_of_observations (year month : Z) (out : EE.Image) :
  buildMonthlyLAI year month = OK out ->
  exists laiImgs coll,
    mapM (fun img => getLAIImage img (Some NONVEG)) (getLandsat year month) = OK laiImgs
    /\ mapM maskedLAI laiImgs = OK coll
    /\ (forall lo hi v,
          0 <= lo -> hi <= 65535 ->
          (forall x, In (Some x) coll -> (inject_Z lo <= x /\ x <= inject_Z hi)%Q) ->
          EE.select1 out "LAI" = OK (Some v) ->
          exists c, v = inject_Z c /\ lo <= c <= hi)
    /\ (forall v, EE.select1 out "LAI" = OK (Some v) ->
                  exists c, v = inject_Z c /\ 0 <= c <= 800).
Proof.
  intros H.
  destruct (buildMonthlyLAI_stack _ _ _ H)
    as (laiImgs & coll & lai & count & Himgs & Hcoll & Hred & _ & HLAI & _).
  exists laiImgs, coll. split; [exact Himgs|]. split; [exact Hcoll|].
  assert (Hrange : forall lo hi v,
             0 <= lo -> hi <= 65535 ->
             (forall x, In (Some x) coll -> (inject_Z lo <= x /\ x <= inject_Z hi)%Q) ->
             EE.select1 out "LAI" = OK (Some v) ->
             exists c, v = inject_Z c /\ lo <= c <= hi).
  { intros lo hi v Hlo Hhi Hall Hv0.
    assert (Hv0' : lai = Some v) by congruence.
    destruct (reduceMonthly_safe coll) as (safeColl & Hsafe & E).
    rewrite Hred in E. injection E as E _.
    assert (Hv : EE.toUint16 (if String.eqb REDUCER "mean"
                              then EE.mean_value safeColl
                              else EE.median_value safeColl) = Some v) by congruence.
    clear E Hv0'.
    assert (Hall' : forall x, In x (EE.valid_values safeColl) ->
                              (inject_Z lo <= x /\ x <= inject_Z hi)%Q).
    { intros x Hx. rewrite Hsafe in Hx. apply Hall. now apply valid_values_In. }
    destruct (String.eqb REDUCER "mean").
    - destruct (EE.mean_value safeColl) as [m|] eqn:Em; [|discriminate].
      destruct (toUint16_bounds m lo hi Hlo Hhi (mean_bounds _ _ _ _ Hall' Em))
        as (c & Hc & Hr).
      exists c. split; [congruence | exact Hr].
    - destruct (EE.median_value safeColl) as [m|] eqn:Em; [|discriminate].
      destruct (toUint16_bounds m lo hi Hlo Hhi (median_bounds _ _ _ _ Hall' Em))
        as (c & Hc & Hr).
      exists c. split; [congruence | exact Hr]. }
  split; [exact Hrange|].
  intros v Hv. apply (Hrange 0 800 v); [lia | lia | | exact Hv].
  intros x Hx. apply valid_values_In in Hx.
  destruct (stack_values _ _ _ _ Himgs Hcoll x Hx) as (c & -> & Hc).
  rewrite <- !Zle_Qle. exact Hc.
Qed.

(** ** Land-cover classes *)

(** X13.  The remap of the NLCD classes gives a biome from 0 to 8 for each
    of its 20 classes.  Every such biome is one the overlay processes when
    the non-vegetated retrieval is on, and every one but 0 when it is off;
    the classes of a biome other than 0 are exactly the classes the
    observation-density script takes for vegetated. *)
Theorem vegetation_classes_agree (c : Q) :
  (EE.remap fromList toList (Some c) = None <-> ObsCount.vegMask (Some c) = None)
  /\ (forall b,
        EE.remap fromList toList (Some c) = Some b ->
        (exists z, b = inject_Z z /\ 0 <= z <= 8)
        /\ existsb (Qeq_bool b) (biomes_of true) = true
        /\ existsb (Qeq_bool b) (biomes_of false) = negb (Qeq_bool b 0)
        /\ ObsCount.vegMask (Some c) = Some (EE.b2q (negb (Qeq_bool b 0)))).
Proof.
  unfold ObsCount.vegMask, fromList, toList, EE.remap, EE.eq, EE.constant.
  cbn [EE.remap_value].
  repeat match goal with
    | |- context [Qeq_bool c ?k] => destruct (Qeq_bool c k)
    end;
    (split; [split; intros; first [discriminate | reflexivity] |]);
    intros b Hb; try discriminate Hb; injection Hb as <-;
    (split;
     [match goal with
      | |- exists z, ?q = inject_Z z /\ _ =>
          exists (Qnum q); split; [reflexivity | vm_compute; split; discriminate]
      end|]);
    repeat split; reflexivity.
Qed.

(** ** The state of a run *)

(** X14.  An override that is not empty is the state of the run.  Without
    one the state is an entry of the list of state codes whatever the
    index is: the entry at the index when the index is inside the list,
    the first one for a negative index and the last one for an index past
    the end.  Only an empty list gives no state. *)
Theorem STATE_CODE_index_is_clamped
    (STATE_CODE_OVERRIDE : string) (STATE_INDEX : Z) (stateCodes : list string) :
  (STATE_CODE_OVERRIDE <> "" ->
   STATE_CODE STATE_CODE_OVERRIDE STATE_INDEX stateCodes = Some STATE_CODE_OVERRIDE)
  /\ (stateCodes <> [] ->
      exists code,
        STATE_CODE "" STATE_INDEX stateCodes = Some code
        /\ In code stateCodes
        /\ (0 <= STATE_INDEX < Z.of_nat (length stateCodes) ->
            nth_error stateCodes (Z.to_nat STATE_INDEX) = Some code)
        /\ (STATE_INDEX < 0 -> nth_error stateCodes 0 = Some code)
        /\ (Z.of_nat (length stateCodes) <= STATE_INDEX ->
            nth_error stateCodes (length stateCodes - 1) = Some code))
  /\ STATE_CODE "" STATE_INDEX [] = None.
Proof.
  split; [|split].
  - intros Hne. unfold STATE_CODE.
    destruct (String.eqb_spec STATE_CODE_OVERRIDE ""); [contradiction | reflexivity].
  - intros Hne. unfold STATE_CODE. cbn [String.eqb negb].
    set (i := Z.min (Z.max STATE_INDEX 0) (Z.of_nat (length stateCodes) - 1)).
    assert (Hlen : (0 < length stateCodes)%nat).
    { destruct stateCodes; [contradiction | simpl; lia]. }
    assert (Hi : 0 <= i < Z.of_nat (length stateCodes)) by (unfold i; lia).
    destruct (Z.ltb_spec i 0) as [|_]; [lia|].
    destruct (nth_error stateCodes (Z.to_nat i)) as [code|] eqn:E.
    + exists code. split; [reflexivity|]. split; [now apply nth_error_In in E|].
      split; [|split]; intros H; rewrite <- E; f_equal; unfold i; lia.
    + apply nth_error_None in E. lia.
  - unfold STATE_CODE. cbn [String.eqb negb length].
    destruct (Z.min (Z.max STATE_INDEX 0) (Z.of_nat 0 - 1) <? 0); [reflexivity|].
    now destruct (Z.to_nat _).
Qed.

(** ** Export names *)

Lemma string_app_inj_length (s1 s2 t1 t2 : string) :
  String.length s1 = String.length s2 ->
  (s1 ++ t1)%string = (s2 ++ t2)%string -> s1 = s2 /\ t1 = t2.
Proof.
  revert s2. induction s1 as [|c s1 IH]; intros [|c' s2]; simpl; try discriminate.
  - intros _ H. now split.
  - intros [= Hlen] [= -> H]. destruct (IH s2 Hlen H) as [-> ->]. now split.
Qed.

Lemma string_length_app (s t : string) :
  String.length (s ++ t)%string = (String.length s + String.length t)%nat.
Proof. induction s as [|c s IH]; simpl; [reflexivity | now rewrite IH]. Qed.

Lemma string_app_inj_tail (s1 s2 t1 t2 : string) :
  String.length t1 = String.length t2 ->
  (s1 ++ t1)%string = (s2 ++ t2)%string -> s1 = s2 /\ t1 = t2.
Proof.
  intros Hlen H. apply string_app_inj_length; [|exact H].
  apply (f_equal String.length) in H. rewrite !string_length_app in H. lia.
Qed.

Lemma month_cases (month : Z) :
  1 <= month <= 12 ->
  In month [1; 2; 3; 4; 5; 6; 7; 8; 9; 10; 11; 12].
Proof. intros H. simpl. lia. Qed.

Lemma month_mm_length (month : Z) :
  1 <= month <= 12 -> String.length (month_mm month) = 2%nat.
Proof.
  intros H. apply month_cases in H. simpl in H.
  repeat (destruct H as [<-|H]; [vm_compute; reflexivity|]). contradiction.
Qed.

Lemma month_mm_inj (m m' : Z) :
  1 <= m <= 12 -> 1 <= m' <= 12 -> month_mm m = month_mm m' -> m = m'.
Proof.
  intros H H'. unfold month_mm.
  destruct (Z.ltb_spec m 10), (Z.ltb_spec m' 10); intros E.
  - apply (String.app_inj "0") in E. exact (pretty_Z_inj _ _ E).
  - exfalso. assert (Hm' : m' = 10 \/ m' = 11 \/ m' = 12) by lia.
    destruct Hm' as [->|[->| ->]]; vm_compute in E; discriminate E.
  - exfalso. assert (Hm : m = 10 \/ m = 11 \/ m = 12) by lia.
    destruct Hm as [->|[->| ->]]; vm_compute in E; discriminate E.
  - exact (pretty_Z_inj _ _ E).
Qed.

Lemma export_description
    (EXPORT_TO ASSET_ROOT DRIVE_FOLDER : string) (img : result EE.Image)
    (year month : Z) (stateCode : string) :
  task_description
    (exportMonthlyImageForState EXPORT_TO ASSET_ROOT DRIVE_FOLDER img year month stateCode)
  = ("LAI_" ++ stateCode ++ "_" ++ pretty year ++ "_" ++ month_mm month)%string.
Proof.
  unfold exportMonthlyImageForState, month_mm.
  destruct (String.eqb EXPORT_TO "Asset"); reflexivity.
Qed.

Lemma export_description_inj
    (year year' month month' : Z) (stateCode stateCode' : string) :
  1 <= month <= 12 -> 1 <= month' <= 12 ->
  String.length stateCode = String.length stateCode' ->
  ("LAI_" ++ stateCode ++ "_" ++ pretty year ++ "_" ++ month_mm month)%string
  = ("LAI_" ++ stateCode' ++ "_" ++ pretty year' ++ "_" ++ month_mm month')%string ->
  stateCode = stateCode' /\ year = year' /\ month = month'.
Proof.
  intros Hm Hm' Hlen E. apply (String.app_inj "LAI_") in E.
  apply string_app_inj_length in E; [|exact Hlen]. destruct E as [-> E].
  apply (String.app_inj "_") in E.
  apply string_app_inj_tail in E.
  - destruct E as [Ey E]. apply pretty_Z_inj in Ey.
    apply (String.app_inj "_") in E.
    apply month_mm_inj in E; auto.
  - rewrite !string_length_app, !month_mm_length by assumption. reflexivity.
Qed.

Lemma NoDup_map_inj_on {A B : Type} (f : A -> B) (l : list A) :
  (forall x y, In x l -> In y l -> f x = f y -> x = y) ->
  NoDup l -> NoDup (map f l).
Proof.
  intros Hinj Hnd. induction Hnd as [|x l Hx Hnd IH]; simpl; constructor.
  - intros Hin. apply list_elem_of_In, in_map_iff in Hin.
    destruct Hin as (y & Hy & Hin).
    assert (y = x) by (apply Hinj; [now right | now left | exact Hy]).
    subst y. apply Hx. now apply list_elem_of_In.
  - apply IH. intros a b Ha Hb. apply Hinj; now right.
Qed.

(** X15.  The export of a month is named LAI_<state>_<year>_<mm>, the
    month with two digits, and goes to the asset of that name under the
    asset root, or to the file of that name in the Drive folder.  Two
    exports of different months or years, or of different states with
    codes of the same length, never share a name; the twelve exports of a
    run have twelve names. *)
Theorem export_names_are_distinct (EXPORT_TO ASSET_ROOT DRIVE_FOLDER : string) :
  (forall img year month stateCode,
      1 <= month <= 12 ->
      exists mm,
        String.length mm = 2%nat
        /\ (mm = pretty month \/ mm = ("0" ++ pretty month)%string)
        /\ let name := ("LAI_" ++ stateCode ++ "_" ++ pretty year ++ "_" ++ mm)%string in
           exportMonthlyImageForState EXPORT_TO ASSET_ROOT DRIVE_FOLDER
             img year month stateCode
           = if String.eqb EXPORT_TO "Asset"
             then toAsset img name (ASSET_ROOT ++ "/" ++ name)%string
             else toDrive img name name DRIVE_FOLDER)
  /\ (forall img img' year year' month month' stateCode stateCode',
        1 <= month <= 12 -> 1 <= month' <= 12 ->
        String.length stateCode = String.length stateCode' ->
        task_description
          (exportMonthlyImageForState EXPORT_TO ASSET_ROOT DRIVE_FOLDER
             img year month stateCode)
        = task_description
            (exportMonthlyImageForState EXPORT_TO ASSET_ROOT DRIVE_FOLDER
               img' year' month' stateCode') ->
        stateCode = stateCode' /\ year = year' /\ month = month')
  /\ (forall YEAR_TO_EXPORT STATE_CODE,
        length (enqueue EXPORT_TO ASSET_ROOT DRIVE_FOLDER YEAR_TO_EXPORT STATE_CODE)
        = 12%nat
        /\ NoDup (map task_description
                   (enqueue EXPORT_TO ASSET_ROOT DRIVE_FOLDER YEAR_TO_EXPORT STATE_CODE))
        /\ NoDup (map task_target
                   (enqueue EXPORT_TO ASSET_ROOT DRIVE_FOLDER YEAR_TO_EXPORT STATE_CODE))).
Proof.
  split; [|split].
  - intros img year month stateCode Hm. exists (month_mm month).
    split; [now apply month_mm_length|]. split.
    + unfold month_mm. destruct (month <? 10); auto.
    + reflexivity.
  - intros img img' year year' month month' stateCode stateCode' Hm Hm' Hlen E.
    rewrite !export_description in E.
    exact (export_description_inj _ _ _ _ _ _ Hm Hm' Hlen E).
  - intros YEAR_TO_EXPORT STATE_CODE. unfold enqueue.
    split; [reflexivity|].
    assert (Hmonths : NoDup [1; 2; 3; 4; 5; 6; 7; 8; 9; 10; 11; 12]).
    { repeat (constructor; [rewrite list_elem_of_In; simpl; lia|]). constructor. }
    rewrite !map_map. split.
    + apply NoDup_map_inj_on; [|exact Hmonths].
      intros m m' Hin Hin' E. rewrite !export_description in E.
      apply (export_description_inj _ _ _ _ _ _) in E; [tauto | simpl in Hin; lia
        | simpl in Hin'; lia | reflexivity].
    + apply NoDup_map_inj_on; [|exact Hmonths].
      intros m m' Hin Hin' E.
      assert (Ed : ("LAI_" ++ STATE_CODE ++ "_" ++ pretty YEAR_TO_EXPORT ++ "_"
                    ++ month_mm m)%string
                   = ("LAI_" ++ STATE_CODE ++ "_" ++ pretty YEAR_TO_EXPORT ++ "_"
                      ++ month_mm m')%string).
      { unfold exportMonthlyImageForState in E. fold (month_mm m) (month_mm m') in E.
        destruct (String.eqb EXPORT_TO "Asset"); cbn [task_target] in E.
        - apply (f_equal snd) in E. cbn [snd] in E.
          apply (String.app_inj ASSET_ROOT), (String.app_inj "/") in E. exact E.
        - apply (f_equal snd) in E. exact E. }
      apply (export_description_inj _ _ _ _ _ _) in Ed; [tauto | simpl in Hin; lia
        | simpl in Hin'; lia | reflexivity].
Qed.

(** ** The observation count of the retrieval and of the density script *)

Lemma makeValid_spec (image : EE.Image) (v : EE.band) :
  ObsCount.makeValid image = OK v -> is_valid v = counted_scene image.
Proof.
  unfold ObsCount.makeValid, counted_scene.
  destruct (EE.select1 image "QA_PIXEL") as [qa|] eqn:Hqa; [|
    unfold ObsCount.maskLandsatQA; rewrite Hqa; discriminate].
  rewrite (maskLandsatQA_spec _ _ Hqa). cbn [bind].
  unfold EE.select, EE.select1, EE.map_bands. cbn [EE.bands EE.select_bands].
  rewrite (lookup_band_map (keep_if (clear_land qa))).
  unfold EE.select1 in Hqa.
  destruct (EE.lookup_band "QA_PIXEL" (EE.bands image)) as [qa'|]; [|discriminate].
  injection Hqa as ->.
  destruct (EE.lookup_band "SR_B1" (EE.bands image)) as [b|]; [|discriminate].
  cbn [bind EE.bands EE.lookup_band String.eqb Ascii.eqb Bool.eqb].
  intros [= <-]. destruct (clear_land qa), b; reflexivity.
Qed.

Lemma mapM_makeValid_count (imgs : list EE.Image) (coll : list EE.band) :
  mapM ObsCount.makeValid imgs = OK coll ->
  length (EE.valid_values coll) = length (List.filter counted_scene imgs).
Proof.
  revert coll. induction imgs as [|img imgs IH]; simpl; intros coll H.
  - injection H as <-. reflexivity.
  - unfold bind in H.
    destruct (ObsCount.makeValid img) as [v|] eqn:Hv; [|discriminate].
    destruct (mapM ObsCount.makeValid imgs) as [vs|]; [|discriminate].
    injection H as <-. rewrite <- (makeValid_spec _ _ Hv).
    destruct v; simpl; rewrite (IH vs); reflexivity.
Qed.

Lemma getTrainImg_mask (image p train_img : EE.Image) :
  getTrainImg image = OK train_img -> processLandsat image = OK p ->
  exists pixel_qa,
    EE.select1 p "pixel_qa" = OK pixel_qa
    /\ EE.select1 train_img "mask"
       = OK (EE.add (EE.multiply pixel_qa (EE.constant 0)) (EE.constant 1)).
Proof.
  intros Ht Hp. unfold getTrainImg in Ht. unfold bind at 1 in Ht.
  destruct (nlcd_year image) as [y|]; [|discriminate].
  unfold bind at 1 in Ht.
  destruct (nlcd_landcover y) as [landcover|]; [|discriminate].
  rewrite Hp in Ht. cbn [bind] in Ht.
  destruct (processLandsat_bands _ _ Hp)
    as (green & red & nir & swir1 & pixel_qa & NDVI & NDWI & Hb).
  exists pixel_qa. unfold EE.select1 in *. rewrite Hb in *.
  cbn [EE.lookup_band String.eqb Ascii.eqb Bool.eqb bind] in *.
  split; [reflexivity|]. unfold bind in Ht.
  destruct (EE.Number "SOLAR_ZENITH_ANGLE" _) as [sz|]; [|discriminate].
  destruct (EE.Number "SOLAR_AZIMUTH_ANGLE" _) as [sa|]; [|discriminate].
  injection Ht as <-.
  unfold EE.addBand, EE.has_band, EE.set. cbn [EE.bands]. rewrite Hb.
  reflexivity.
Qed.

(** A scene brings a value into the monthly stack only where it is
    clear. *)
Lemma retained_is_clear (image : EE.Image) (nonveg : option bool) (out : EE.Image) :
  getLAIImage image nonveg = OK out ->
  pixel_retained out = true -> clear_scene image = true.
Proof.
  intros H Hret.
  destruct (getLAIImage_closed_form _ _ _ H)
    as (sensor & train_img & lai_img & mask & red & green & nir & swir1 & biome2
        & Ht & Hmask & _ & _ & _ & _ & _ & Hfold & _ & Hout).
  destruct (getTrainImg_processed _ _ Ht) as [p Hp].
  destruct (getTrainImg_mask _ _ _ Ht Hp) as (pixel_qa & Hpq & Hmask').
  destruct (processLandsat_raw _ _ Hp)
    as (id & no & g & r & n & s & qa & _ & _ & _ & _ & _ & _ & Hqa & Hb).
  unfold clear_scene. unfold EE.select1 in Hqa.
  destruct (EE.lookup_band "QA_PIXEL" (EE.bands image)) as [qa'|]; [|discriminate].
  injection Hqa as ->.
  destruct (clear_land qa) eqn:Ec; [reflexivity|]. exfalso.
  assert (pixel_qa = None).
  { unfold EE.select1 in Hpq. rewrite Hb in Hpq. cbn in Hpq. congruence. }
  subst pixel_qa.
  assert (mask = None) by (rewrite Hmask in Hmask'; now injection Hmask').
  subst mask. cbn in Hfold. apply foldM_overlay_None in Hfold. subst lai_img.
  unfold pixel_retained in Hret. rewrite Hout in Hret. cbn in Hret. discriminate Hret.
Qed.

Lemma filter_length_Forall2 {A B : Type} (P : A -> bool) (Q : B -> bool)
    (l : list A) (k : list B) :
  Forall2 (fun a b => P a = true -> Q b = true) l k ->
  (length (List.filter P l) <= length (List.filter Q k))%nat.
Proof.
  induction 1 as [|a b l k HR HF IH]; simpl; [lia|].
  destruct (P a) eqn:Ea.
  - rewrite (HR Logic.eq_refl). simpl. lia.
  - destruct (Q b); simpl; lia.
Qed.

Lemma filter_length_impl {A : Type} (P Q : A -> bool) (l : list A) :
  (forall a, In a l -> P a = true -> Q a = true) ->
  (length (List.filter P l) <= length (List.filter Q l))%nat.
Proof.
  intros H. apply filter_length_Forall2.
  induction l as [|a l IH]; constructor.
  - apply H. now left.
  - apply IH. intros b Hb. apply H. now right.
Qed.

(** X16.  The observation-density script counts the scenes of a month
    that are clear at the pixel and have data in their band SR_B1.  The
    observation count of the retrieval, the number of scenes it retains at
    the pixel, is at most the number of clear scenes, and at most the count
    of the density script where every clear scene has data in SR_B1. *)
Theorem retrieval_count_at_most_density_count (year month : Z) (out obs : EE.Image) :
  buildMonthlyLAI year month = OK out ->
  ObsCount.getObsCount getLandsat count_unobserved year month = OK obs ->
  exists laiImgs n k,
    mapM (fun img => getLAIImage img (Some NONVEG)) (getLandsat year month) = OK laiImgs
    /\ n = Z.min 65535 (Z.of_nat (length (List.filter pixel_retained laiImgs)))
    /\ EE.select1 out "obs_count" = OK (count_band count_unobserved n)
    /\ EE.select1 obs "obs_count" = OK (count_band count_unobserved k)
    /\ (forall m, 1 <= m -> count_band count_unobserved m = Some (inject_Z m))
    /\ k = Z.of_nat (length (List.filter counted_scene (getLandsat year month)))
    /\ n <= Z.of_nat (length (List.filter clear_scene (getLandsat year month)))
    /\ ((forall img, In img (getLandsat year month) ->
                     clear_scene img = true -> counted_scene img = true) ->
        n <= k).
Proof.
  intros H Ho.
  destruct (buildMonthlyLAI_stack _ _ _ H)
    as (laiImgs & coll & lai & count & Himgs & Hcoll & Hred & _ & _ & Hcount).
  destruct (reduceMonthly_count coll) as [lai' Hred'].
  rewrite (mapM_maskedLAI_count _ _ Hcoll) in Hred'.
  assert (Ec : count = count_band count_unobserved
                         (Z.min 65535
                            (Z.of_nat (length (List.filter pixel_retained laiImgs)))))
    by congruence.
  rewrite Ec in Hcount.
  unfold ObsCount.getObsCount, ObsCount.getLandsatValid in Ho.
  destruct (mapM ObsCount.makeValid (getLandsat year month)) as [valid|] eqn:Hv;
    [|discriminate]. cbn [bind] in Ho.
  assert (Hobs : EE.select1 obs "obs_count"
                 = OK (EE.count_value count_unobserved valid)).
  { destruct valid; [discriminate|]. injection Ho as <-. reflexivity. }
  rewrite count_value_band, <- valid_values_length,
    (mapM_makeValid_count _ _ Hv) in Hobs.
  assert (Hle : (length (List.filter pixel_retained laiImgs)
                 <= length (List.filter clear_scene (getLandsat year month)))%nat).
  { apply filter_length_Forall2.
    pose proof (mapM_Forall2 _ _ _ Himgs) as HF.
    clear - HF. induction HF as [|img laiImg l k Hg HF IH]; constructor.
    - intros Hret. exact (retained_is_clear _ _ _ Hg Hret).
    - exact IH. }
  exists laiImgs. do 2 eexists. split; [exact Himgs|]. split; [reflexivity|].
  split; [exact Hcount|]. split; [exact Hobs|]. split; [|split; [reflexivity|]].
  - intros m Hm. unfold count_band.
    assert (E : (m =? 0) = false) by (apply Z.eqb_neq; lia). now rewrite E.
  - split; [lia|].
    intros Hall.
    pose proof (filter_length_impl clear_scene counted_scene _ Hall). lia.
Qed.
(** ** The gaps of the observation-density script *)

Lemma getObsCount_band (scenes : Z -> Z -> list EE.Image) (u : EE.unobserved)
    (year month : Z) (b : EE.band) :
  (obs <- ObsCount.getObsCount scenes u year month ;; EE.select1 obs "obs_count") = OK b ->
  scenes year month <> []
  /\ b = count_band u
           (Z.of_nat (length (List.filter counted_scene (scenes year month)))).
Proof.
  unfold ObsCount.getObsCount, ObsCount.getLandsatValid.
  destruct (mapM ObsCount.makeValid (scenes year month)) as [valid|] eqn:Hv;
    [|discriminate]. cbn [bind].
  pose proof (mapM_length _ _ _ Hv) as Hlen.
  destruct valid as [|v valid]; [discriminate|]. cbn [bind].
  unfold EE.select1, EE.set. cbn [EE.bands EE.lookup_band String.eqb Ascii.eqb Bool.eqb].
  intros [= <-]. split.
  - intros E. rewrite E in Hlen. discriminate Hlen.
  - rewrite count_value_band, <- valid_values_length. do 2 f_equal.
    exact (mapM_makeValid_count _ _ Hv).
Qed.

Lemma mapM_getObsCount (scenes : Z -> Z -> list EE.Image) (YEARS : list Z)
    (u : EE.unobserved) (month : Z) (stack : list EE.band) :
  mapM (fun y => obs <- ObsCount.getObsCount scenes u y month ;;
                 EE.select1 obs "obs_count")
       YEARS = OK stack ->
  (forall y, In y YEARS -> scenes y month <> [])
  /\ stack = map (fun k => count_band u (Z.of_nat k)) (yearly_counts scenes YEARS month).
Proof.
  revert stack. induction YEARS as [|y YEARS IH]; simpl; intros stack H.
  - injection H as <-. split; [intros y []|reflexivity].
  - unfold bind at 1 in H.
    destruct (obs <- ObsCount.getObsCount scenes u y month ;; EE.select1 obs "obs_count")
      as [b|] eqn:Hb; [|discriminate].
    apply getObsCount_band in Hb. destruct Hb as [Hne ->]. unfold bind in H.
    destruct (mapM _ YEARS) as [rest|]; [|discriminate].
    injection H as <-. destruct (IH rest Logic.eq_refl) as [Hall ->]. split.
    + intros y' [<-|Hin]; [exact Hne | now apply Hall].
    + reflexivity.
Qed.

Lemma sum_counts (counts : list nat) :
  (fold_right Qplus 0 (map (fun k => inject_Z (Z.of_nat k)) counts)
   == inject_Z (Z.of_nat (total counts)))%Q.
Proof.
  induction counts as [|k counts IH]; simpl; [reflexivity|].
  rewrite IH, Nat2Z.inj_add, inject_Z_plus. reflexivity.
Qed.

Lemma mean_Some (coll : list EE.band) :
  EE.valid_values coll <> [] ->
  EE.mean_value coll
  = Some (fold_right Qplus 0 (EE.valid_values coll)
          / inject_Z (Z.of_nat (length (EE.valid_values coll))))%Q.
Proof.
  unfold EE.mean_value. destruct (EE.valid_values coll); [contradiction | reflexivity].
Qed.

(** The values of the yearly counts: every year where [count()] gives 0
    at a pixel without observation, the years with an observation where it
    gives no data. *)
Lemma valid_counts_zero (counts : list nat) :
  EE.valid_values (map (fun k => count_band EE.CountsZero (Z.of_nat k)) counts)
  = map (fun k => inject_Z (Z.of_nat k)) counts.
Proof.
  induction counts as [|k counts IH]; [reflexivity|].
  cbn [map]. destruct k as [|k]; cbn [EE.valid_values]; now rewrite IH.
Qed.

Lemma valid_counts_nodata (counts : list nat) :
  EE.valid_values (map (fun k => count_band EE.CountsNoData (Z.of_nat k)) counts)
  = map (fun k => inject_Z (Z.of_nat k)) (List.filter observed counts).
Proof.
  induction counts as [|k counts IH]; [reflexivity|].
  cbn [map List.filter]. destruct k as [|k]; cbn [EE.valid_values observed Nat.eqb negb];
    [exact IH | cbn [map]; now rewrite IH].
Qed.

Lemma total_observed (counts : list nat) :
  total (List.filter observed counts) = total counts
  /\ (length (List.filter observed counts) <= total counts)%nat.
Proof.
  induction counts as [|k counts [IH1 IH2]]; [split; reflexivity|].
  cbn [List.filter]. destruct k as [|k]; cbn [observed Nat.eqb negb total fold_right length].
  - split; [exact IH1 | exact IH2].
  - fold (total (List.filter observed counts)). fold (total counts). split; lia.
Qed.

(** The gap image in closed form. *)
Lemma gapImg_closed_form (scenes : Z -> Z -> list EE.Image) (YEARS : list Z)
    (u : EE.unobserved) (month : Z) (landcover g : EE.band) :
  ObsCount.gapImg scenes YEARS u month landcover = OK g ->
  YEARS <> []
  /\ (forall y, In y YEARS -> scenes y month <> [])
  /\ g = EE.lt
           (EE.updateMask
              (EE.mean_value
                 (map (fun k => count_band u (Z.of_nat k))
                      (yearly_counts scenes YEARS month)))
              (ObsCount.vegMask landcover))
           (EE.constant 1).
Proof.
  unfold ObsCount.gapImg, ObsCount.getMeanObsCount. unfold bind at 1. unfold bind at 1.
  destruct (mapM _ YEARS) as [stack|] eqn:Hs; [|discriminate].
  destruct (mapM_getObsCount _ _ _ _ _ Hs) as [Hall Hstack].
  pose proof (mapM_length _ _ _ Hs) as Hlen.
  destruct stack as [|b0 stack0] eqn:Est; [discriminate|]. rewrite <- Est in *.
  assert (Hne : YEARS <> []).
  { intros ->. subst stack. discriminate Hlen. }
  assert (Er : EE.rename (EE.mean stack) "obs_count" = OK (EE.mean_value stack)).
  { rewrite Est. reflexivity. }
  rewrite Er. cbn [bind]. intros [= <-].
  split; [exact Hne|]. split; [exact Hall|]. now rewrite Hstack.
Qed.

Lemma vegMask_cases (landcover : EE.band) :
  ObsCount.vegMask landcover = None
  \/ ObsCount.vegMask landcover = Some 0%Q
  \/ ObsCount.vegMask landcover = Some 1%Q.
Proof.
  unfold ObsCount.vegMask, EE.eq, EE.constant, EE.lift2.
  destruct (EE.remap _ _ landcover) as [r|]; [|now left].
  destruct (Qeq_bool r 1); auto.
Qed.

Lemma lt_1_of_quotient (s n : Q) :
  (0 < n)%Q ->
  EE.lt (Some (s / n)%Q) (EE.constant 1) = Some (EE.b2q (negb (Qle_bool n s))).
Proof.
  intros Hn. unfold EE.lt, EE.constant, EE.lift2. do 3 f_equal.
  destruct (Qle_bool 1 (s / n)) eqn:E, (Qle_bool n s) eqn:E'; try reflexivity.
  - apply Qle_bool_iff in E. exfalso.
    assert (Hq : (n <= s)%Q).
    { apply Qmult_le_r with (z := (/ n)%Q); [now apply Qinv_lt_0_compat|].
      rewrite Qmult_inv_r by lra. exact E. }
    apply Qle_bool_iff in Hq. congruence.
  - apply Qle_bool_iff in E'. exfalso.
    assert (Hq : (1 <= s / n)%Q).
    { apply Qle_shift_div_l; [exact Hn|]. now rewrite Qmult_1_l. }
    apply Qle_bool_iff in Hq. congruence.
Qed.

(** X17.  The gap image of a month is made only where every year has a
    scene in the month; it has data on vegetated pixels only, and is 0 or 1
    there.  What it shows depends on what [count()] gives at a pixel
    without observation.  Where that is 0, the gap image has data on every
    vegetated pixel and is 1 exactly where the scenes counted in the month
    over all the years are fewer than the years, which a pixel with
    observations in some of the years can be.  Where that is no data, the
    years without observation drop out of the mean: the gap image has data
    only on the vegetated pixels with an observation, and is 0 on all of
    them. *)
Theorem gap_is_fewer_observations_than_years
    (scenes : Z -> Z -> list EE.Image) (YEARS : list Z) (u : EE.unobserved)
    (month : Z) (landcover g : EE.band) :
  ObsCount.gapImg scenes YEARS u month landcover = OK g ->
  YEARS <> []
  /\ (forall y, In y YEARS -> scenes y month <> [])
  /\ (is_valid g = true -> ObsCount.vegMask landcover = Some 1%Q)
  /\ (forall x, g = Some x -> x = 0%Q \/ x = 1%Q)
  /\ (u = EE.CountsZero ->
      (is_valid g = true <-> ObsCount.vegMask landcover = Some 1%Q)
      /\ (forall x,
            g = Some x ->
            (x = 1%Q <->
             (total (yearly_counts scenes YEARS month) < length YEARS)%nat)))
  /\ (u = EE.CountsNoData ->
      (is_valid g = true <->
       ObsCount.vegMask landcover = Some 1%Q
       /\ (1 <= total (yearly_counts scenes YEARS month))%nat)
      /\ (forall x, g = Some x -> x = 0%Q)).
Proof.
  intros H. destruct (gapImg_closed_form _ _ _ _ _ _ H) as (Hne & Hall & ->).
  split; [exact Hne|]. split; [exact Hall|].
  set (counts := yearly_counts scenes YEARS month).
  assert (Hclen : length counts = length YEARS).
  { unfold counts, yearly_counts. apply length_map. }
  assert (Hpos : (0 < length YEARS)%nat).
  { destruct YEARS; [contradiction | simpl; lia]. }
  set (m := EE.mean_value (map (fun k => count_band u (Z.of_nat k)) counts)).
  split; [|split].
  - destruct (vegMask_cases landcover) as [-> | [-> | ->]]; [| |reflexivity];
      destruct m; discriminate.
  - intros x. destruct (vegMask_cases landcover) as [-> | [-> | ->]];
      destruct m as [v|]; try discriminate.
    cbn. intros [= <-]. destruct (Qle_bool 1 v); auto.
  - split.
    + (* count() gives 0 *)
      intros ->. subst m.
      assert (Hvals : EE.valid_values
                        (map (fun k => count_band EE.CountsZero (Z.of_nat k)) counts)
                      = map (fun k => inject_Z (Z.of_nat k)) counts)
        by apply valid_counts_zero.
      rewrite mean_Some, Hvals.
      2: { rewrite Hvals. intros Eq. apply (f_equal (@length Q)) in Eq.
           rewrite length_map in Eq. simpl in Eq. lia. }
      rewrite length_map, Hclen.
      set (s := fold_right Qplus 0%Q (map (fun k => inject_Z (Z.of_nat k)) counts)).
      assert (Hsum : (s == inject_Z (Z.of_nat (total counts)))%Q) by apply sum_counts.
      set (n := inject_Z (Z.of_nat (length YEARS))).
      assert (Hn : (0 < n)%Q).
      { unfold n. change 0%Q with (inject_Z 0). rewrite <- Zlt_Qlt. lia. }
      destruct (vegMask_cases landcover) as [-> | [-> | ->]].
      * split; [split; discriminate|]. intros x Hx. discriminate Hx.
      * split; [split; discriminate|]. intros x Hx. discriminate Hx.
      * change (EE.updateMask (Some (s / n)%Q) (Some 1%Q)) with (Some (s / n)%Q).
        rewrite (lt_1_of_quotient s n Hn).
        split; [split; reflexivity|].
        intros x [= <-].
        destruct (Qle_bool n s) eqn:E; cbn [negb EE.b2q].
        -- split; [discriminate|]. intros Hlt. exfalso.
           apply Qle_bool_iff in E. rewrite Hsum in E. unfold n in E.
           rewrite <- Zle_Qle in E. lia.
        -- split; [|reflexivity]. intros _.
           destruct (Nat.lt_ge_cases (total counts) (length YEARS)) as [|Hge];
             [assumption|].
           exfalso.
           assert (Hq : (n <= s)%Q).
           { rewrite Hsum. unfold n. rewrite <- Zle_Qle. lia. }
           apply Qle_bool_iff in Hq. congruence.
    + (* count() gives no data *)
      intros ->. subst m.
      assert (Hvals : EE.valid_values
                        (map (fun k => count_band EE.CountsNoData (Z.of_nat k)) counts)
                      = map (fun k => inject_Z (Z.of_nat k))
                            (List.filter observed counts))
        by apply valid_counts_nodata.
      destruct (total_observed counts) as [Htot Hlen].
      destruct (List.filter observed counts) as [|k0 obs] eqn:Eobs.
      * (* no year has an observation *)
        assert (Em : EE.mean_value
                       (map (fun k => count_band EE.CountsNoData (Z.of_nat k)) counts)
                     = None).
        { unfold EE.mean_value. now rewrite Hvals. }
        rewrite Em. cbn in Htot.
        assert (Eg : EE.lt (EE.updateMask None (ObsCount.vegMask landcover))
                       (EE.constant 1) = None) by reflexivity.
        rewrite Eg. split.
        -- split; [discriminate|]. intros [_ Hone]. lia.
        -- intros x Hx. discriminate Hx.
      * rewrite mean_Some, Hvals.
        2: { rewrite Hvals. discriminate. }
        rewrite length_map.
        set (s := fold_right Qplus 0%Q
                    (map (fun k => inject_Z (Z.of_nat k)) (k0 :: obs))).
        assert (Hsum : (s == inject_Z (Z.of_nat (total (k0 :: obs))))%Q)
          by apply sum_counts.
        set (n := inject_Z (Z.of_nat (length (k0 :: obs)))).
        assert (Hn : (0 < n)%Q).
        { unfold n. change 0%Q with (inject_Z 0). rewrite <- Zlt_Qlt. simpl. lia. }
        assert (Hns : Qle_bool n s = true).
        { apply Qle_bool_iff. rewrite Hsum. unfold n. rewrite <- Zle_Qle. lia. }
        assert (Hone : (1 <= total counts)%nat) by (simpl in Hlen; lia).
        destruct (vegMask_cases landcover) as [-> | [-> | ->]].
        -- split; [split; [discriminate | intros [Hv _]; discriminate Hv]|].
           intros x Hx. discriminate Hx.
        -- split; [split; [discriminate | intros [Hv _]; discriminate Hv]|].
           intros x Hx. discriminate Hx.
        -- change (EE.updateMask (Some (s / n)%Q) (Some 1%Q)) with (Some (s / n)%Q).
           rewrite (lt_1_of_quotient s n Hn), Hns. cbn [negb EE.b2q].
           split; [split; [intros _; split; [reflexivity | exact Hone] | reflexivity]|].
           intros x [= <-]. reflexivity.
Qed.

(** ** Landsat 9 *)

Lemma getTrainImg_closed_form (image train_img : EE.Image) :
  getTrainImg image = OK train_img ->
  exists y landcover p pixel_qa sz sa,
    nlcd_year image = OK y /\ nlcd_landcover y = Some landcover /\
    processLandsat image = OK p /\
    EE.select1 p "pixel_qa" = OK pixel_qa /\
    EE.get p "SOLAR_ZENITH_ANGLE" = Some (EE.PNum sz) /\
    EE.get p "SOLAR_AZIMUTH_ANGLE" = Some (EE.PNum sa) /\
    EE.bands train_img
    = EE.bands p
      ++ [("biome2", EE.remap fromList toList landcover);
          ("lon", EE.add (EE.multiply pixel_qa (EE.constant 0)) (EE.constant pixel_lon));
          ("lat", EE.add (EE.multiply pixel_qa (EE.constant 0)) (EE.constant pixel_lat));
          ("sun_zenith", Some sz); ("sun_azimuth", Some sa);
          ("mask", EE.add (EE.multiply pixel_qa (EE.constant 0)) (EE.constant 1))].
Proof.
  intros Ht. unfold getTrainImg in Ht. unfold bind at 1 in Ht.
  destruct (nlcd_year image) as [y|] eqn:Hy; [|discriminate].
  unfold bind at 1 in Ht.
  destruct (nlcd_landcover y) as [landcover|] eqn:Hlc; [|discriminate].
  unfold bind at 1 in Ht.
  destruct (processLandsat image) as [p|] eqn:Hp; [|discriminate].
  destruct (processLandsat_bands _ _ Hp)
    as (green & red & nir & swir1 & pixel_qa & NDVI & NDWI & Hb).
  destruct (processLandsat_solar _ _ Hp) as (z & a & _ & _ & Gz & Ga).
  assert (Hpq : EE.select1 p "pixel_qa" = OK pixel_qa).
  { unfold EE.select1. rewrite Hb. reflexivity. }
  rewrite Hpq, Gz, Ga in Ht. cbn [bind EE.Number] in Ht. injection Ht as <-.
  exists y, landcover, p, pixel_qa, z, a.
  repeat (split; [first [assumption | reflexivity]|]).
  unfold EE.addBand, EE.has_band, EE.set. cbn [EE.bands]. rewrite Hb. reflexivity.
Qed.

(** What follows the training image reads its bands only. *)
Lemma retrieval_reads_bands (t t' : EE.Image) (sensor : string) (biomes : list Q) :
  EE.bands t = EE.bands t' ->
  lai_overlay t sensor biomes = lai_overlay t' sensor biomes
  /\ (forall lai, getLAIQA t sensor lai = getLAIQA t' sensor lai).
Proof.
  intros Hb.
  assert (Hsel : forall n, EE.select1 t n = EE.select1 t' n).
  { intros n. unfold EE.select1. now rewrite Hb. }
  assert (Hmap : forall m, EE.bands (EE.updateMask_image t m)
                           = EE.bands (EE.updateMask_image t' m)).
  { intros m. unfold EE.updateMask_image, EE.map_bands. cbn [EE.bands]. now rewrite Hb. }
  split.
  - unfold lai_overlay. rewrite Hsel.
    destruct (EE.select1 t' "mask") as [mask|]; [|reflexivity]. cbn [bind].
    generalize (EE.toDouble (EE.add (EE.multiply mask (EE.constant 0))
                                    (EE.constant sentinel))).
    induction biomes as [|b biomes IH]; intros lai; simpl; [reflexivity|].
    assert (E : overlay_biome t sensor lai b = overlay_biome t' sensor lai b).
    { unfold overlay_biome, getLAIforBiome, classify. rewrite Hsel.
      destruct (EE.select1 t' "biome2") as [biome2|]; [|reflexivity]. cbn [bind].
      unfold EE.select1. now rewrite Hmap. }
    rewrite E. destruct (overlay_biome t' sensor lai b); [apply IH | reflexivity].
  - intros lai. unfold getLAIQA. now rewrite !Hsel.
Qed.

Lemma solar_geometry_reads (a b : EE.Image) :
  (forall k, k <> "SPACECRAFT_ID" -> EE.get a k = EE.get b k) ->
  solarZenith a = solarZenith b /\ solarAzimuth a = solarAzimuth b.
Proof.
  intros H. unfold solarZenith, solarAzimuth, EE.contains.
  fold (EE.get a "SUN_ELEVATION") (EE.get a "SOLAR_ZENITH_ANGLE")
       (EE.get a "SUN_AZIMUTH") (EE.get a "SOLAR_AZIMUTH_ANGLE")
       (EE.get b "SUN_ELEVATION") (EE.get b "SOLAR_ZENITH_ANGLE")
       (EE.get b "SUN_AZIMUTH") (EE.get b "SOLAR_AZIMUTH_ANGLE").
  rewrite !H by discriminate. split; reflexivity.
Qed.

Lemma nlcd_year_reads (a b : EE.Image) :
  (forall k, k <> "SPACECRAFT_ID" -> EE.get a k = EE.get b k) ->
  nlcd_year a = nlcd_year b.
Proof. intros H. unfold nlcd_year. now rewrite H by discriminate. Qed.

Lemma processLandsat_L9 (image p : EE.Image) :
  EE.get image "SPACECRAFT_ID" = Some (EE.PStr "LANDSAT_8") ->
  processLandsat image = OK p ->
  exists p9,
    processLandsat (EE.set image "SPACECRAFT_ID" (EE.PStr "LANDSAT_9")) = OK p9
    /\ EE.bands p9 = EE.bands p
    /\ EE.get p9 "SOLAR_ZENITH_ANGLE" = EE.get p "SOLAR_ZENITH_ANGLE"
    /\ EE.get p9 "SOLAR_AZIMUTH_ANGLE" = EE.get p "SOLAR_AZIMUTH_ANGLE".
Proof.
  intros Hid Hp. set (a := EE.set image "SPACECRAFT_ID" (EE.PStr "LANDSAT_9")).
  assert (Hprops : forall k, k <> "SPACECRAFT_ID" -> EE.get a k = EE.get image k).
  { intros k Hk. unfold a, EE.get, EE.set. cbn [EE.properties].
    now rewrite lookup_insert_ne by congruence. }
  assert (Hida : EE.get a "SPACECRAFT_ID" = Some (EE.PStr "LANDSAT_9")).
  { unfold a, EE.get, EE.set. cbn [EE.properties]. apply lookup_insert_eq. }
  destruct (solar_geometry_reads a image Hprops) as (Ez & Ea).
  destruct (processLandsat_solar _ _ Hp) as (z & az & Hz & Ha & Gz & Ga).
  destruct (processLandsat_raw _ _ Hp)
    as (id & no & g & r & n & s & qa & Hid' & Hno & Hg & Hr & Hn & Hs & Hqa & Hb).
  assert (id = "LANDSAT_8") by congruence. subst id.
  assert (no = 8%Q) by (vm_compute in Hno; congruence). subst no.
  change (Qle_bool 8 8) with true in *. cbv iota in *.
  assert (Hren : exists r9, renameLandsat a = OK r9).
  { unfold processLandsat in Hp. unfold bind at 1 in Hp.
    destruct (renameLandsat image) as [r8|] eqn:Hr8; [|discriminate].
    apply renameLandsat_ok_iff. 
    assert (Hr8' : renamable image) by (apply renameLandsat_ok_iff; now exists r8).
    destruct Hr8' as (id8 & no8 & Hid8 & Hno8 & Hhas).
    assert (id8 = "LANDSAT_8") by congruence. subst id8.
    assert (no8 = 8%Q) by (vm_compute in Hno8; congruence). subst no8.
    exists "LANDSAT_9", 9%Q. split; [exact Hida|]. split; [vm_compute; reflexivity|].
    exact Hhas. }
  destruct Hren as [r9 Hr9].
  rewrite <- Ez in Hz. rewrite <- Ea in Ha.
  destruct (processLandsat_after_rename a r9 z az Hr9 Hz Ha) as [p9 Hp9].
  exists p9. split; [exact Hp9|].
  destruct (processLandsat_solar _ _ Hp9) as (z' & az' & Hz' & Ha' & Gz' & Ga').
  assert (z' = z) by congruence. assert (az' = az) by congruence. subst z' az'.
  destruct (processLandsat_raw _ _ Hp9)
    as (id9 & no9 & g' & r' & n' & s' & qa' & Hid9 & Hno9 & Hg' & Hr' & Hn' & Hs'
        & Hqa' & Hb').
  assert (id9 = "LANDSAT_9") by congruence. subst id9.
  assert (no9 = 9%Q) by (vm_compute in Hno9; congruence). subst no9.
  change (Qle_bool 8 9) with true in *. cbv iota in *.
  change (EE.select1 a) with (EE.select1 image) in *.
  assert (g' = g) by congruence. assert (r' = r) by congruence.
  assert (n' = n) by congruence. assert (s' = s) by congruence.
  assert (qa' = qa) by congruence. subst g' r' n' s' qa'.
  split; [congruence|]. split; congruence.
Qed.

Lemma getTrainImg_L9 (image train_img : EE.Image) :
  EE.get image "SPACECRAFT_ID" = Some (EE.PStr "LANDSAT_8") ->
  getTrainImg image = OK train_img ->
  exists t9,
    getTrainImg (EE.set image "SPACECRAFT_ID" (EE.PStr "LANDSAT_9")) = OK t9
    /\ EE.bands t9 = EE.bands train_img
    /\ EE.get t9 "nlcd_year" = EE.get train_img "nlcd_year".
Proof.
  intros Hid Ht. set (a := EE.set image "SPACECRAFT_ID" (EE.PStr "LANDSAT_9")).
  assert (Hprops : forall k, k <> "SPACECRAFT_ID" -> EE.get a k = EE.get image k).
  { intros k Hk. unfold a, EE.get, EE.set. cbn [EE.properties].
    now rewrite lookup_insert_ne by congruence. }
  pose proof (nlcd_year_reads a image Hprops) as Ey.
  destruct (getTrainImg_closed_form _ _ Ht)
    as (y & landcover & p & pixel_qa & sz & sa & Hy & Hlc & Hp & Hpq & Gz & Ga & Hb).
  destruct (processLandsat_L9 image p Hid Hp) as (p9 & Hp9 & Hb9 & Gz9 & Ga9).
  fold a in Hp9. rewrite <- Ey in Hy.
  destruct (getTrainImg_ok a p9 y landcover Hy Hlc Hp9) as [t9 Ht9].
  exists t9. split; [exact Ht9|].
  destruct (getTrainImg_closed_form _ _ Ht9)
    as (y' & landcover' & p' & pixel_qa' & sz' & sa' & Hy' & Hlc' & Hp' & Hpq' & Gz'
        & Ga' & Hb').
  assert (y' = y) by congruence. subst y'.
  assert (landcover' = landcover) by congruence. subst landcover'.
  assert (p' = p9) by congruence. subst p'.
  assert (pixel_qa' = pixel_qa).
  { unfold EE.select1 in Hpq, Hpq'. rewrite Hb9 in Hpq'. congruence. }
  subst pixel_qa'.
  assert (sz' = sz) by congruence. assert (sa' = sa) by congruence. subst sz' sa'.
  split; [rewrite Hb', Hb, Hb9; reflexivity|].
  destruct (getTrainImg_bands _ _ Ht)
    as (y1 & l1 & _ & _ & _ & _ & _ & _ & _ & _ & _ & Hy1 & _ & Hn1 & _).
  destruct (getTrainImg_bands _ _ Ht9)
    as (y2 & l2 & _ & _ & _ & _ & _ & _ & _ & _ & _ & Hy2 & _ & Hn2 & _).
  rewrite Hn1, Hn2. rewrite <- Ey in Hy1. congruence.
Qed.

(** X18.  Landsat 9 is treated as Landsat 8: a scene of Landsat 9 is
    retrieved with the bands, the model and the hull table of Landsat 8,
    so that the LAI and QA of its pixels are those of the Landsat 8 scene
    with the same values. *)
Theorem landsat_9_is_retrieved_as_landsat_8
    (image : EE.Image) (nonveg : option bool) (out : EE.Image) :
  EE.get image "SPACECRAFT_ID" = Some (EE.PStr "LANDSAT_8") ->
  getLAIImage image nonveg = OK out ->
  sensor_dict !! "9" = sensor_dict !! "8"
  /\ exists out9,
       getLAIImage (EE.set image "SPACECRAFT_ID" (EE.PStr "LANDSAT_9")) nonveg = OK out9
       /\ EE.bands out9 = EE.bands out.
Proof.
  intros Hid H. split; [vm_compute; reflexivity|].
  set (a := EE.set image "SPACECRAFT_ID" (EE.PStr "LANDSAT_9")).
  assert (Hida : EE.get a "SPACECRAFT_ID" = Some (EE.PStr "LANDSAT_9")).
  { unfold a, EE.get, EE.set. cbn [EE.properties]. apply lookup_insert_eq. }
  assert (D8 : EE.Dictionary_get sensor_dict (EE.slice "LANDSAT_8" 8 9) = OK "LC08")
    by (vm_compute; reflexivity).
  assert (D9 : EE.Dictionary_get sensor_dict (EE.slice "LANDSAT_9" 8 9) = OK "LC08")
    by (vm_compute; reflexivity).
  unfold getLAIImage, EE.String in H |- *. rewrite Hid in H. rewrite Hida.
  cbn [bind] in H |- *. rewrite D8 in H. rewrite D9. cbn [bind] in H |- *.
  destruct (getTrainImg image) as [t|] eqn:Ht; [|discriminate H]. cbn [bind] in H.
  destruct (getTrainImg_L9 image t Hid Ht) as (t9 & Ht9 & Hb9 & Hn9).
  fold a in Ht9. rewrite Ht9. cbn [bind].
  destruct (retrieval_reads_bands t9 t "LC08"
              (biomes_of match nonveg with Some b => b | None => false end) Hb9)
    as [Eo Eq].
  rewrite Eo.
  destruct (lai_overlay t "LC08" _) as [lai_img|]; [|discriminate H].
  cbn [bind] in H |- *. rewrite Eq.
  destruct (getLAIQA t "LC08" _) as [qa|]; [|discriminate H].
  cbn [bind] in H |- *. injection H as <-.
  eexists. split; [reflexivity|].
  destruct (EE.get a "system:time_start"), (EE.get t9 "nlcd_year"),
    (EE.get image "system:time_start"), (EE.get t "nlcd_year"); reflexivity.
Qed.

End Retrieval.

(** * Properties that compare two collaborators *)

Lemma mapM_ext {A B : Type} (f g : A -> result B) (l : list A) :
  (forall a, f a = g a) -> mapM f l = mapM g l.
Proof.
  intros H. induction l as [|a l IH]; simpl; [reflexivity|].
  now rewrite H, IH.
Qed.

Lemma foldM_ext {A B : Type} (f g : A -> B -> result A) (l : list B) (a : A) :
  (forall a b, f a b = g a b) -> foldM f l a = foldM g l a.
Proof.
  intros H. revert a. induction l as [|b l IH]; intros a; simpl; [reflexivity|].
  rewrite H. destruct (g a b); [apply IH | reflexivity].
Qed.

Lemma classify_ext (image : EE.Image) (f g : list Q -> Q) :
  (forall xs, f xs = g xs) -> classify image f = classify image g.
Proof.
  intros H. unfold classify.
  destruct (mapM (EE.select1 image) features) as [inputs|]; [|reflexivity].
  cbn [bind]. destruct (EE.all_valid inputs); [now rewrite H | reflexivity].
Qed.

Lemma overlay_biome_all_biomes (rf rf' : string -> option Q -> list Q -> Q)
    (train_img : EE.Image) (sensor : string) (lai : EE.band) (b : Q) :
  (forall sensor xs, rf sensor None xs = rf' sensor None xs) ->
  overlay_biome rf train_img sensor lai b = overlay_biome rf' train_img sensor lai b.
Proof.
  intros H. unfold overlay_biome, getLAIforBiome.
  destruct (EE.select1 train_img "biome2") as [biome2|]; [|reflexivity].
  cbn [bind].
  rewrite (classify_ext _ (getRFModel rf sensor (EeNumber b))
             (getRFModel rf' sensor (EeNumber b))); [reflexivity|].
  intros xs. unfold getRFModel. cbn [js_gt_0]. apply H.
Qed.

Lemma getLAIImage_all_biomes
    (date_year : Q -> Z) (nlcd_landcover : Q -> option EE.band) (pixel_lon pixel_lat : Q)
    (hull_array_reshape : string -> Z -> Z -> Z -> Z -> Q)
    (rf rf' : string -> option Q -> list Q -> Q)
    (image : EE.Image) (nonveg : option bool) :
  (forall sensor xs, rf sensor None xs = rf' sensor None xs) ->
  getLAIImage date_year nlcd_landcover pixel_lon pixel_lat rf hull_array_reshape
    image nonveg
  = getLAIImage date_year nlcd_landcover pixel_lon pixel_lat rf' hull_array_reshape
      image nonveg.
Proof.
  intros H. unfold getLAIImage.
  destruct (EE.String _ _) as [id|]; [|reflexivity]. cbn [bind].
  destruct (EE.Dictionary_get _ _) as [sensor|]; [|reflexivity]. cbn [bind].
  destruct (getTrainImg _ _ _ _ _) as [train_img|]; [|reflexivity]. cbn [bind].
  assert (E : forall biomes,
             lai_overlay rf train_img sensor biomes
             = lai_overlay rf' train_img sensor biomes).
  { intros biomes. unfold lai_overlay.
    destruct (EE.select1 train_img "mask"); [|reflexivity]. cbn [bind].
    apply foldM_ext. intros lai b. now apply overlay_biome_all_biomes. }
  now rewrite E.
Qed.

(** X19.  The retrieval never consults a model of one biome.  In every
    round of its overlay [getLAIImage] hands [getRFModel] the biome as an
    [ee.Number], on which the test [biome > 0] of the client is false, so
    that the model is the one trained on all the samples of the sensor.
    Two trainings that agree on that model give the same per-scene image
    and the same monthly composite, whatever their biome models are. *)
Theorem retrieval_never_uses_a_biome_model
    (NONVEG : bool) (CLOUD_LIMIT : Q) (REDUCER : string)
    (date_year : Q -> Z) (nlcd_landcover : Q -> option EE.band) (pixel_lon pixel_lat : Q)
    (hull_array_reshape : string -> Z -> Z -> Z -> Z -> Q)
    (getLandsat : Z -> Z -> list EE.Image) (count_unobserved : EE.unobserved)
    (rf rf' : string -> option Q -> list Q -> Q) :
  (forall sensor xs, rf sensor None xs = rf' sensor None xs) ->
  (forall sensor b, getRFModel rf sensor (EeNumber b) = rf sensor None)
  /\ (forall image nonveg,
        getLAIImage date_year nlcd_landcover pixel_lon pixel_lat rf hull_array_reshape
          image nonveg
        = getLAIImage date_year nlcd_landcover pixel_lon pixel_lat rf' hull_array_reshape
            image nonveg)
  /\ (forall year month,
        buildMonthlyLAI NONVEG CLOUD_LIMIT REDUCER date_year nlcd_landcover pixel_lon
          pixel_lat rf hull_array_reshape getLandsat count_unobserved year month
        = buildMonthlyLAI NONVEG CLOUD_LIMIT REDUCER date_year nlcd_landcover pixel_lon
            pixel_lat rf' hull_array_reshape getLandsat count_unobserved year month).
Proof.
  intros H. split; [reflexivity|]. split.
  - intros image nonveg. now apply getLAIImage_all_biomes.
  - intros year month. unfold buildMonthlyLAI.
    rewrite (mapM_ext _
               (fun img =>
                  laiImg <- getLAIImage date_year nlcd_landcover pixel_lon pixel_lat rf'
                              hull_array_reshape img (Some NONVEG) ;;
                  maskedLAI laiImg)); [reflexivity|].
    intros img. now rewrite (getLAIImage_all_biomes _ _ _ _ _ rf rf').
Qed.

Lemma in_training_hull_inside (h h' : string -> Z -> Z -> Z -> Z -> Q)
    (sensor : string) (red green nir swir1 : EE.band) :
  (forall i j k l,
      0 <= i <= 9 -> 0 <= j <= 9 -> 0 <= k <= 9 -> 0 <= l <= 9 ->
      h sensor i j k l = h' sensor i j k l) ->
  in_training_hull h sensor red green nir swir1
  = in_training_hull h' sensor red green nir swir1.
Proof.
  intros H. unfold in_training_hull.
  destruct red as [r|], green as [g|], nir as [n|], swir1 as [s|]; try reflexivity.
  destruct (in_range r red_max) eqn:Er; [|reflexivity].
  destruct (in_range g green_max) eqn:Eg; [|reflexivity].
  destruct (in_range n nir_max) eqn:En; [|reflexivity].
  destruct (in_range s swir1_max) eqn:Es; [|reflexivity].
  cbn [andb]. rewrite H; [reflexivity| | | |]; apply bin_in_range; trivial; reflexivity.
Qed.

(** X20.  The QA band reads the convex-hull table of a sensor only inside
    its 10 x 10 x 10 x 10 entries: the bin of a reflectance inside its
    range is a number from 0 to 9, and reflectances outside their ranges
    are flagged without a look at the table.  Two tables that agree on
    these entries give the same QA band. *)
Theorem hull_table_is_read_inside_its_bounds
    (h h' : string -> Z -> Z -> Z -> Z -> Q) :
  (forall sensor i j k l,
      0 <= i <= 9 -> 0 <= j <= 9 -> 0 <= k <= 9 -> 0 <= l <= 9 ->
      h sensor i j k l = h' sensor i j k l) ->
  (forall x max, (0 < max)%Q -> in_range x max = true -> 0 <= bin x max <= 9)
  /\ (forall sensor red green nir swir1,
        in_mask h sensor red green nir swir1 = in_mask h' sensor red green nir swir1)
  /\ (forall landsat sensor lai,
        getLAIQA h landsat sensor lai = getLAIQA h' landsat sensor lai).
Proof.
  intros H.
  assert (Hmask : forall sensor red green nir swir1,
             in_mask h sensor red green nir swir1
             = in_mask h' sensor red green nir swir1).
  { intros sensor red green nir swir1. rewrite !in_mask_spec.
    rewrite (in_training_hull_inside h h'); [reflexivity|]. apply H. }
  split; [exact bin_in_range|]. split; [exact Hmask|].
  intros landsat sensor lai. unfold getLAIQA.
  destruct (EE.select1 landsat "red") as [red|]; [|reflexivity].
  destruct (EE.select1 landsat "green") as [green|]; [|reflexivity].
  destruct (EE.select1 landsat "nir") as [nir|]; [|reflexivity].
  destruct (EE.select1 landsat "swir1") as [swir1|]; [|reflexivity].
  destruct (EE.select1 landsat "biome2") as [biome2|]; [|reflexivity].
  cbn [bind]. now rewrite Hmask.
Qed.

(** ** The two reducers *)

Lemma trunc_comp (x y : Q) : (x == y)%Q -> EE.trunc x = EE.trunc y.
Proof.
  intros H. unfold EE.trunc.
  assert (E : Qle_bool 0 x = Qle_bool 0 y).
  { destruct (Qle_bool 0 x) eqn:Ex, (Qle_bool 0 y) eqn:Ey; try reflexivity.
    - apply Qle_bool_iff in Ex. rewrite H in Ex. apply Qle_bool_iff in Ex. congruence.
    - apply Qle_bool_iff in Ey. rewrite <- H in Ey. apply Qle_bool_iff in Ey. congruence. }
  rewrite E. destruct (Qle_bool 0 y); [now apply Qfloor_comp | now apply Qceiling_comp].
Qed.

Lemma toUint16_comp (x y : Q) :
  (x == y)%Q -> EE.toUint16 (Some x) = EE.toUint16 (Some y).
Proof.
  intros H. unfold EE.toUint16, EE.lift1, EE.saturate. now rewrite (trunc_comp x y H).
Qed.

Lemma mean_median_up_to_two (coll : list EE.band) :
  (length (EE.valid_values coll) <= 2)%nat ->
  EE.toUint16 (EE.mean_value coll) = EE.toUint16 (EE.median_value coll).
Proof.
  unfold EE.mean_value, EE.median_value.
  destruct (EE.valid_values coll) as [|x [|y [|z l]]]; intros Hlen.
  - reflexivity.
  - cbn. apply toUint16_comp. field.
  - unfold EE.sort_values. cbn [fold_right EE.insert_sorted].
    destruct (Qle_bool x y); cbn; apply toUint16_comp; field.
  - simpl in Hlen. lia.
Qed.

(** X21.  With at most two valid observations of a pixel in the month the
    two reducers give the same composite: the mean and the median of one
    value, or of two, are the same number.  With three they can differ. *)
Theorem reducers_agree_up_to_two_observations :
  (forall u coll,
      (length (EE.valid_values coll) <= 2)%nat ->
      reduceMonthly "mean" u coll = reduceMonthly "median" u coll)
  /\ (forall u,
        reduceMonthly "mean" u [Some 100%Q; Some 100%Q; Some 400%Q]
        = OK (Some 200%Q, Some 3%Q))
  /\ (forall u,
        reduceMonthly "median" u [Some 100%Q; Some 100%Q; Some 400%Q]
        = OK (Some 100%Q, Some 3%Q)).
Proof.
  split; [|split; intros u; vm_compute; reflexivity].
  intros u coll Hlen. rewrite !reduceMonthly_closed_form. cbv zeta.
  change (String.eqb "mean" "mean") with true.
  change (String.eqb "median" "mean") with false. cbv iota.
  do 2 f_equal. apply mean_median_up_to_two.
  destruct coll; [cbn; lia | exact Hlen].
Qed.

(** * The properties on the sample scenes *)

(** ** C1 *)

Lemma C1_witness_two_scenes :
  exists out,
    buildMonthlyLAI false 50 "median" Sample.date_year (Sample.nlcd 41) Sample.lon
      Sample.lat (Sample.rf 2.34) Sample.hull_OLI Sample.two_scenes EE.CountsNoData
      2000 7 = OK out
    /\ EE.select1 out "LAI" = OK (Some 234%Q)
    /\ EE.select1 out "obs_count" = OK (Some 1%Q)
    /\ validMaskFromQA (Some 4%Q) = Some 1%Q.
Proof.
  destruct (buildMonthlyLAI false 50 "median" Sample.date_year (Sample.nlcd 41)
              Sample.lon Sample.lat (Sample.rf 2.34) Sample.hull_OLI Sample.two_scenes
              EE.CountsNoData 2000 7) as [out|msg] eqn:E.
  - exists out. split; [reflexivity|].
    destruct (C1_validity_mask_bits_0_and_1 _ _ _ _ _ _ _ _ _ _ _ _ _ _ E)
      as (laiImgs & coll & lai & Himgs & Hcoll & _ & Hred & HLAI & Hcount & _ & _ & Hbit2).
    vm_compute in Himgs. injection Himgs as <-.
    vm_compute in Hcoll. injection Hcoll as <-.
    vm_compute in Hred. injection Hred as <-.
    split; [exact HLAI|]. split; [exact Hcount|].
    apply Hbit2; reflexivity.
  - vm_compute in E. discriminate E.
Defined.

(** ** C2 *)

Lemma C2_counterexample_LAI_above_8_is_not_clamped :
  scale_LAI (Some 9.1%Q) = Some 910%Q
  /\ encode_spec 9.1%Q = 800
  /\ ~ (forall v, scale_LAI (Some v) = Some (inject_Z (encode_spec v)))
  /\ ~ (forall v code, scale_LAI (Some v) = Some (inject_Z code) -> code <= 800)
  /\ EE.binary64 Sample.lai_near_tie = Sample.lai_near_tie
  /\ (0 <= Sample.lai_near_tie /\ Sample.lai_near_tie <= 8)%Q
  /\ (EE.binary64 (Sample.lai_near_tie * 100) == 1.5)%Q
  /\ scale_LAI (Some Sample.lai_near_tie) = Some 2%Q
  /\ encode_spec Sample.lai_near_tie = 1
  /\ (0.005 < Qabs (2 * 0.01 - clamp_0_8 Sample.lai_near_tie))%Q.
Proof.
  assert (H : scale_LAI (Some 9.1%Q) = Some 910%Q) by (vm_compute; reflexivity).
  split; [exact H|]. split; [vm_compute; reflexivity|]. split; [|split].
  - intros Hall. specialize (Hall 9.1%Q). rewrite H in Hall. vm_compute in Hall.
    discriminate Hall.
  - intros Hall. specialize (Hall 9.1%Q 910 H). lia.
  - repeat split; vm_compute; first [reflexivity | discriminate].
Qed.

Lemma C2_witness_LAI_2_34 :
  (2.34 <= 8)%Q
  /\ scale_LAI (Some 2.34%Q) = Some 234%Q
  /\ encode_spec 2.34%Q = 234
  /\ exists c, scale_LAI (Some 2.34%Q) = Some (inject_Z c) /\ 0 <= c <= 800.
Proof.
  assert (H : (2.34 <= 8)%Q) by (vm_compute; discriminate).
  destruct (proj1 (proj2 (C2_stored_LAI_code 2.34%Q)) H) as (c & Hs & _ & Hc & _).
  split; [exact H|]. split; [vm_compute; reflexivity|].
  split; [vm_compute; reflexivity|]. exists c. split; [exact Hs | exact Hc].
Defined.

(** ** C3 *)

Lemma C3_counterexample_blue_and_swir2_are_dropped :
  (exists out,
      normalizeLandsat Sample.scene_L8 = OK out
      /\ EE.bandNames out = ["green"; "red"; "nir"; "swir1"; "pixel_qa"])
  /\ ~ (forall image out,
           normalizeLandsat image = OK out ->
           forall n, In n (EE.bandNames out)
                     <-> In n ["blue"; "green"; "red"; "nir"; "swir1"; "swir2"; "qa"]).
Proof.
  assert (H : exists out,
             normalizeLandsat Sample.scene_L8 = OK out
             /\ EE.bandNames out = ["green"; "red"; "nir"; "swir1"; "pixel_qa"]).
  { destruct (normalizeLandsat Sample.scene_L8) as [out|msg] eqn:E.
    - exists out. split; [reflexivity|].
      vm_compute in E. injection E as <-. reflexivity.
    - vm_compute in E. discriminate E. }
  split; [exact H|].
  intros Hall. destruct H as (out & Hout & Hnames).
  specialize (Hall _ _ Hout "blue"). rewrite Hnames in Hall.
  assert (Hin : In "blue" ["green"; "red"; "nir"; "swir1"; "pixel_qa"]).
  { apply Hall. simpl. auto. }
  simpl in Hin. intuition discriminate.
Qed.

Lemma C3_witness_four_sensors :
  (exists renamed, renameLandsat Sample.scene_L5 = OK renamed)
  /\ (exists renamed rescaled,
         renameLandsat Sample.scene_L8 = OK renamed
         /\ normalizeLandsat Sample.scene_L8 = OK rescaled
         /\ EE.bandNames rescaled = ["green"; "red"; "nir"; "swir1"; "pixel_qa"]).
Proof.
  split.
  - apply (proj2 (C3_normalizer_bands Sample.scene_L5) "5"); [reflexivity|].
    left. split; [simpl; auto | reflexivity].
  - destruct (proj2 (C3_normalizer_bands Sample.scene_L8) "8") as [renamed Hr];
      [reflexivity | right; split; [simpl; auto | reflexivity] |].
    destruct (proj1 (C3_normalizer_bands Sample.scene_L8) renamed Hr)
      as (_ & rescaled & _ & Hn & Hnames).
    exists renamed, rescaled. repeat split; assumption.
Defined.

(** ** C4, C7 *)

Lemma C4_witness_forest_pixel :
  getLAIQA Sample.hull_all Sample.train_px "LC08" (Some 2.34%Q) = OK (Some 0%Q)
  /\ exists b, EE.select1 Sample.train_px "biome2" = OK (Some b)
               /\ qa_bit 0 2 = Qeq_bool b 0
               /\ (qa_bit 0 2 = true <-> (b == 0)%Q).
Proof.
  assert (H : getLAIQA Sample.hull_all Sample.train_px "LC08" (Some 2.34%Q) = OK (Some 0%Q))
    by (vm_compute; reflexivity).
  destruct (C4_qa_bits_packed_bit2_is_biome_0 _ _ _ _ _ H)
    as (red & green & nir & swir1 & biome2 & _ & _ & _ & _ & Hb & _ & _ & _ & _ & Hbits & _).
  destruct (Hbits 0%Q Logic.eq_refl) as (l & b & _ & Hb0 & _ & _ & B2 & Hiff).
  split; [exact H|]. exists b. subst biome2.
  split; [exact Hb|]. split; [exact B2 | exact Hiff].
Defined.

Lemma C7_witness_out_of_hull_pixel :
  getLAIQA Sample.hull_none Sample.train_px "LC08" (Some 2.34%Q) = OK (Some 1%Q)
  /\ EE.select1 Sample.train_px "red" = OK (Some 3000%Q)
  /\ EE.select1 Sample.train_px "green" = OK (Some 2400%Q)
  /\ EE.select1 Sample.train_px "nir" = OK (Some 3500%Q)
  /\ EE.select1 Sample.train_px "swir1" = OK (Some 2125%Q)
  /\ (qa_bit 1 0 = true <->
      ~ (0 <= 3000 /\ 3000 < 5100)%Q \/ ~ (0 <= 2400 /\ 2400 < 5100)%Q \/
      ~ (0 <= 3500 /\ 3500 < 7100)%Q \/ ~ (0 <= 2125 /\ 2125 < 7100)%Q \/
      (Sample.hull_none "LC08" (bin 3000 5100) (bin 2400 5100) (bin 3500 7100)
                        (bin 2125 7100) == 0)%Q).
Proof.
  assert (H : getLAIQA Sample.hull_none Sample.train_px "LC08" (Some 2.34%Q) = OK (Some 1%Q))
    by (vm_compute; reflexivity).
  assert (Hr : EE.select1 Sample.train_px "red" = OK (Some 3000%Q)) by reflexivity.
  assert (Hg : EE.select1 Sample.train_px "green" = OK (Some 2400%Q)) by reflexivity.
  assert (Hn : EE.select1 Sample.train_px "nir" = OK (Some 3500%Q)) by reflexivity.
  assert (Hs : EE.select1 Sample.train_px "swir1" = OK (Some 2125%Q)) by reflexivity.
  destruct (C7_bit0_out_of_range_or_out_of_hull _ _ _ _ _ _ _ _ _ H Hr Hg Hn Hs)
    as (bit0 & _ & Hbit & Hiff & _).
  repeat (split; [assumption|]).
  rewrite (Hbit 1%Q Logic.eq_refl).
  exact (Hiff _ _ _ _ Logic.eq_refl Logic.eq_refl Logic.eq_refl Logic.eq_refl).
Defined.

(** ** C6 *)

Lemma C6_counterexample_landsat_4_is_renamed :
  satDigit_of Sample.scene_L4 = Some "4"
  /\ ~ In "4" ["5"; "7"; "8"; "9"]
  /\ (exists renamed,
         renameLandsat Sample.scene_L4 = OK renamed
         /\ EE.bandNames renamed
            = ["blue"; "green"; "red"; "nir"; "swir1"; "swir2"; "pixel_qa"]
         /\ EE.select1 renamed "blue" = EE.select1 Sample.scene_L4 "SR_B1")
  /\ (exists out, normalizeLandsat Sample.scene_L4 = OK out)
  /\ (exists out, processLandsat Sample.scene_L4 = OK out).
Proof.
  split; [reflexivity|]. split; [simpl; intuition discriminate|].
  split; [|split].
  - destruct (renameLandsat Sample.scene_L4) as [renamed|msg] eqn:E.
    + exists renamed. split; [reflexivity|].
      vm_compute in E. injection E as <-. split; reflexivity.
    + vm_compute in E. discriminate E.
  - destruct (normalizeLandsat Sample.scene_L4) as [out|msg] eqn:E.
    + exists out. reflexivity.
    + vm_compute in E. discriminate E.
  - destruct (processLandsat Sample.scene_L4) as [out|msg] eqn:E.
    + exists out. reflexivity.
    + vm_compute in E. discriminate E.
Qed.

Lemma C6_witness_landsat_4_fails_in_retrieval :
  (forall d, satDigit_of Sample.scene_L4 = Some d -> ~ In d ["5"; "7"; "8"; "9"])
  /\ exists msg,
       getLAIImage Sample.date_year (Sample.nlcd 41) Sample.lon Sample.lat
         (Sample.rf 2.34) Sample.hull_all Sample.scene_L4 None = Err msg.
Proof.
  assert (H : forall d, satDigit_of Sample.scene_L4 = Some d -> ~ In d ["5"; "7"; "8"; "9"]).
  { intros d Hd. vm_compute in Hd. injection Hd as <-. simpl. intuition discriminate. }
  split; [exact H|].
  exact (proj1 (C6_unknown_sensor_fails_at_sensor_lookup Sample.date_year (Sample.nlcd 41)
                  Sample.lon Sample.lat (Sample.rf 2.34) Sample.hull_all
                  Sample.scene_L4 None H)).
Defined.

(** ** C9 *)


(** ** C8, C10 *)

(** C8, at a pixel that shows what model writes a pixel: a deciduous
    forest pixel (NLCD class 41, biome 1) of a Landsat 8 scene, retrieved
    with a training whose answer tells the samples it has seen, 7 for all
    the samples of the sensor and 1 for those of biome 1.  The pixel is
    written with 7, stored as 700, and not with the 1 of the model of its
    biome, which would be stored as 100: [getLAIImage] hands [getRFModel]
    the biome as an [ee.Number], on which the client-side test [biome > 0]
    is false, so that the samples are not filtered by biome; handed the
    JavaScript number, the same function would train the model of the
    biome. *)
Theorem C8_forest_pixel_is_written_by_the_model_of_all_biomes :
  (exists train_img,
      getTrainImg Sample.date_year (Sample.nlcd 41) Sample.lon Sample.lat
        Sample.scene_L8 = OK train_img
      /\ EE.select1 train_img "biome2" = OK (Some 1%Q))
  /\ bands_of (getLAIImage Sample.date_year (Sample.nlcd 41) Sample.lon Sample.lat
                 Sample.rf_trained_on Sample.hull_all Sample.scene_L8 None)
     = OK [("LAI", Some 700%Q); ("QA", Some 0%Q)]
  /\ (forall xs, getRFModel Sample.rf_trained_on "LC08" (EeNumber 1) xs = 7%Q)
  /\ (forall xs, getRFModel Sample.rf_trained_on "LC08" (JsNumber 1) xs = 1%Q)
  /\ scale_LAI (Some 7%Q) = Some 700%Q
  /\ scale_LAI (Some 1%Q) = Some 100%Q.
Proof.
  split; [|split; [|split; [|split; [|split]]]].
  - destruct (getTrainImg Sample.date_year (Sample.nlcd 41) Sample.lon Sample.lat
                Sample.scene_L8) as [train_img|msg] eqn:E.
    + exists train_img. split; [reflexivity|].
      vm_compute in E. injection E as <-. reflexivity.
    + vm_compute in E. discriminate E.
  - vm_compute. reflexivity.
  - intros xs. reflexivity.
  - intros xs. reflexivity.
  - vm_compute. reflexivity.
  - vm_compute. reflexivity.
Qed.

Lemma C10_witness_unmapped_code_250 :
  nlcd_year Sample.date_year Sample.scene_L8 = OK 2001%Q
  /\ Sample.nlcd 250 2001%Q = Some (Some 250%Q)
  /\ exists out,
       getLAIImage Sample.date_year (Sample.nlcd 250) Sample.lon Sample.lat
         (Sample.rf 2.34) Sample.hull_all Sample.scene_L8 None = OK out
       /\ EE.select1 out "LAI" = OK None
       /\ maskedLAI out = OK None
       /\ pixel_retained out = false.
Proof.
  assert (Hy : nlcd_year Sample.date_year Sample.scene_L8 = OK 2001%Q)
    by (vm_compute; reflexivity).
  split; [exact Hy|]. split; [reflexivity|].
  destruct (getLAIImage Sample.date_year (Sample.nlcd 250) Sample.lon Sample.lat
              (Sample.rf 2.34) Sample.hull_all Sample.scene_L8 None)
    as [out|msg] eqn:E.
  - exists out. split; [reflexivity|].
    assert (Hun : forall f,
               In f [11; 12; 21; 22; 23; 24; 31; 41; 42; 43; 51; 52; 71; 72; 73; 74;
                     81; 82; 90; 95]%Q -> ~ (250 == f)%Q).
    { intros f Hin Heq. simpl in Hin.
      repeat (destruct Hin as [<-|Hin]; [discriminate Heq|]). exact Hin. }
    destruct (C10_unmapped_landcover_fails_closed "median" _ _ _ _ _ _
                EE.CountsNoData _ _ _ _ _ E Hy Logic.eq_refl Hun)
      as (train_img & sensor & mask & _ & _ & _ & _ & HLAI & Hm & Hr & _).
    repeat split; assumption.
  - vm_compute in E. discriminate E.
Defined.

(** ** The scenarios of the specification, run on the sample scene *)

(** One valid scene, forest, predicted LAI 2.34: LAI 234, QA 0, count 1. *)
Example scenario_one_valid_scene :
  bands_of (getLAIImage Sample.date_year (Sample.nlcd 41) Sample.lon Sample.lat
              (Sample.rf 2.34) Sample.hull_all Sample.scene_L8 None)
  = OK [("LAI", Some 234%Q); ("QA", Some 0%Q)]
  /\ forall u,
       bands_of (buildMonthlyLAI false 50 "median" Sample.date_year (Sample.nlcd 41)
                   Sample.lon Sample.lat (Sample.rf 2.34) Sample.hull_all
                   Sample.one_scene u 2000 7)
       = OK [("LAI", Some 234%Q); ("obs_count", Some 1%Q)].
Proof. split; [|intros u]; vm_compute; reflexivity. Qed.

(** The same pixel with a predicted LAI of 9.1: stored as 910 with QA bit 1,
    and left out of the composite, whose count is 0 or no data. *)
Example scenario_LAI_out_of_range :
  bands_of (getLAIImage Sample.date_year (Sample.nlcd 41) Sample.lon Sample.lat
              (Sample.rf 9.1) Sample.hull_all Sample.scene_L8 None)
  = OK [("LAI", Some 910%Q); ("QA", Some 2%Q)]
  /\ forall u,
       bands_of (buildMonthlyLAI false 50 "median" Sample.date_year (Sample.nlcd 41)
                   Sample.lon Sample.lat (Sample.rf 9.1) Sample.hull_all
                   Sample.one_scene u 2000 7)
       = OK [("LAI", None); ("obs_count", EE.unobserved_value u)].
Proof. split; [|intros []]; vm_compute; reflexivity. Qed.

(** A water pixel with the non-vegetated retrieval on: QA 4, and the pixel
    is composited and counted; with the retrieval off it has no LAI. *)
Example scenario_water_pixel :
  bands_of (getLAIImage Sample.date_year (Sample.nlcd 11) Sample.lon Sample.lat
              (Sample.rf 2.34) Sample.hull_all Sample.scene_L8 (Some true))
  = OK [("LAI", Some 234%Q); ("QA", Some 4%Q)]
  /\ (forall u,
        bands_of (buildMonthlyLAI true 50 "median" Sample.date_year (Sample.nlcd 11)
                    Sample.lon Sample.lat (Sample.rf 2.34) Sample.hull_all
                    Sample.one_scene u 2000 7)
        = OK [("LAI", Some 234%Q); ("obs_count", Some 1%Q)])
  /\ bands_of (getLAIImage Sample.date_year (Sample.nlcd 11) Sample.lon Sample.lat
                 (Sample.rf 2.34) Sample.hull_all Sample.scene_L8 (Some false))
     = OK [("LAI", None); ("QA", None)].
Proof. split; [|split; [intros u|]]; vm_compute; reflexivity. Qed.

(** A stack of three per-scene images, the second with bit 1 set and the
    third with bit 2 only: the first and the third stay. *)
Example scenario_stack_of_three :
  mapM maskedLAI Sample.lai_images = OK [Some 200%Q; None; Some 400%Q]
  /\ forall u,
       reduceMonthly "median" u [Some 200%Q; None; Some 400%Q]
       = OK (Some 300%Q, Some 2%Q).
Proof. split; [|intros u]; vm_compute; reflexivity. Qed.

(** Two valid scenes with LAI 2.0 and 4.0 under the median: 300, count 2. *)
Example scenario_median_of_two :
  forall u, reduceMonthly "median" u [Some 200%Q; Some 400%Q] = OK (Some 300%Q, Some 2%Q).
Proof. intros u. vm_compute. reflexivity. Qed.

(** A scene without solar metadata is processed with 45 and 180. *)
Example scenario_default_geometry :
  solarZenith Sample.scene_plain = OK 45%Q
  /\ solarAzimuth Sample.scene_plain = OK 180%Q.
Proof. split; vm_compute; reflexivity. Qed.

(** Every biome of a scene is predicted by the model trained without a
    biome filter: [getRFModel] is handed an [ee.Number]. *)
Example scenario_model_of_biome_3 :
  getRFModel Sample.rf_biome "LC08" (EeNumber 3) [] = 100%Q
  /\ getRFModel Sample.rf_biome "LC08" (JsNumber 3) [] = 3%Q.
Proof. split; reflexivity. Qed.

(** * The further properties on the sample scenes *)

(** ** X3 *)

Lemma rescaling_witness_clear_scene :
  exists out,
    processLandsat Sample.scene_L8 = OK out
    /\ clear_land (Some 21824%Q) = true
    /\ exists v, EE.select1 out "red" = OK (Some v) /\ (v == 2950)%Q.
Proof.
  destruct (processLandsat Sample.scene_L8) as [out|msg] eqn:E.
  - exists out. split; [reflexivity|].
    assert (Hc : clear_land (Some 21824%Q) = true) by (vm_compute; reflexivity).
    split; [exact Hc|].
    destruct (processLandsat_rescales_clear_land Sample.scene_L8 out (Some 21824%Q)
                E Logic.eq_refl Hc) as (id & no & Hid & Hno & Hbands & _).
    vm_compute in Hid. injection Hid as <-.
    vm_compute in Hno. injection Hno as <-.
    destruct (Hbands "red" "SR_B4" 18000%Q) as (v & Hv & Hval).
    + right. left. reflexivity.
    + reflexivity.
    + exists v. split; [exact Hv|]. rewrite Hval. reflexivity.
  - vm_compute in E. discriminate E.
Defined.

(** ** X4 *)

Lemma indices_witness_clear_scene :
  exists out ndvi,
    processLandsat Sample.scene_L8 = OK out
    /\ EE.select1 out "NDVI" = OK (Some ndvi)
    /\ (-1 <= ndvi)%Q /\ (ndvi <= 1)%Q.
Proof.
  destruct (processLandsat Sample.scene_L8) as [out|msg] eqn:E.
  - pose proof E as E'. vm_compute in E'. injection E' as <-.
    eexists. 
    destruct (processLandsat_indices Sample.scene_L8 _ _ _ _ E
                Logic.eq_refl Logic.eq_refl Logic.eq_refl)
      as (ndvi & ndwi & Hndvi & _ & _ & _ & Hb & _).
    exists ndvi. split; [reflexivity|]. split; [exact Hndvi|].
    apply Hb; vm_compute; first [reflexivity | discriminate].
  - vm_compute in E. discriminate E.
Defined.

(** ** X5 *)

Lemma masks_witness_cloudy_scene :
  exists out masked,
    processLandsat Sample.scene_cloudy = OK out
    /\ ObsCount.maskLandsatQA Sample.scene_cloudy = OK masked
    /\ EE.select1 masked "QA_PIXEL" = OK None
    /\ EE.select1 out "pixel_qa" = OK None.
Proof.
  destruct (processLandsat Sample.scene_cloudy) as [out|msg] eqn:E;
    [|vm_compute in E; discriminate E].
  destruct (ObsCount.maskLandsatQA Sample.scene_cloudy) as [masked|msg] eqn:Em;
    [|vm_compute in Em; discriminate Em].
  exists out, masked. split; [reflexivity|]. split; [reflexivity|].
  destruct (density_mask_agrees_with_retrieval_mask _ _ _ E Em)
    as (qa & Hqa & _ & Hm & Ho & _).
  vm_compute in Hqa. injection Hqa as <-.
  split; [exact Hm | exact Ho].
Defined.

(** ** X6 *)

Lemma nlcd_year_witness_2000 :
  exists e,
    nlcd_year Sample.date_year Sample.scene_L8 = OK (inject_Z e) /\ e = 2001.
Proof.
  assert (Hy : 1984 <= Sample.date_year 962409600000%Q <= 2024)
    by (unfold Sample.date_year; lia).
  destruct (nlcd_year_is_nearest_epoch Sample.date_year Sample.scene_L8
              962409600000%Q Logic.eq_refl Hy) as (e & He & _ & Hnear & _).
  exists e. split; [exact He|].
  vm_compute in He. injection He as He. congruence.
Defined.

(** ** X7 *)

Lemma failure_witness_2025 :
  Sample.date_year_2025 962409600000%Q = 2025
  /\ exists msg,
       getLAIImage Sample.date_year_2025 (Sample.nlcd 41) Sample.lon Sample.lat
         (Sample.rf 2.34) Sample.hull_all Sample.scene_L8 None = Err msg.
Proof.
  split; [reflexivity|].
  assert (Hy : Sample.date_year_2025 962409600000%Q < 1984
               \/ 2024 < Sample.date_year_2025 962409600000%Q)
    by (right; unfold Sample.date_year_2025; lia).
  destruct (retrieval_fails_outside_1984_2024 false 50 "median"
              Sample.date_year_2025 (Sample.nlcd 41) Sample.lon Sample.lat
              (Sample.rf 2.34) Sample.hull_all Sample.one_scene EE.CountsNoData
              Sample.scene_L8 None 962409600000%Q Logic.eq_refl Hy)
    as (_ & _ & Hfail & _).
  exact Hfail.
Defined.

(** ** X9 *)

Lemma output_witness_forest_pixel :
  exists out,
    getLAIImage Sample.date_year (Sample.nlcd 41) Sample.lon Sample.lat
      (Sample.rf 2.34) Sample.hull_all Sample.scene_L8 None = OK out
    /\ EE.bandNames out = ["LAI"; "QA"]
    /\ EE.get out "LAI_version" = Some (EE.PStr "0.2.0")
    /\ EE.get out "LAI_NLCD_year" = Some (EE.PNum 2001%Q).
Proof.
  destruct (getLAIImage Sample.date_year (Sample.nlcd 41) Sample.lon Sample.lat
              (Sample.rf 2.34) Sample.hull_all Sample.scene_L8 None)
    as [out|msg] eqn:E.
  - exists out. split; [reflexivity|].
    destruct (getLAIImage_output _ _ _ _ _ _ _ _ _ E)
      as (lai & qa & y & Hb & _ & _ & _ & Hy & Hny & _ & _ & Hv & _).
    split; [unfold EE.bandNames; rewrite Hb; reflexivity|].
    split; [exact Hv|].
    vm_compute in Hy. injection Hy as <-. exact Hny.
  - vm_compute in E. discriminate E.
Defined.

(** ** X10 *)

Lemma composited_value_witness_LAI_2_34 :
  exists out,
    getLAIImage Sample.date_year (Sample.nlcd 41) Sample.lon Sample.lat
      (Sample.rf 2.34) Sample.hull_all Sample.scene_L8 None = OK out
    /\ maskedLAI out = OK (Some 234%Q)
    /\ exists sensor c,
         EE.Dictionary_get sensor_dict (EE.slice "LANDSAT_8" 8 9) = OK sensor
         /\ 234%Q = inject_Z c /\ 0 <= c <= 800.
Proof.
  destruct (getLAIImage Sample.date_year (Sample.nlcd 41) Sample.lon Sample.lat
              (Sample.rf 2.34) Sample.hull_all Sample.scene_L8 None)
    as [out|msg] eqn:E.
  - exists out. split; [reflexivity|].
    assert (Hm : maskedLAI out = OK (Some 234%Q)).
    { pose proof E as E'. vm_compute in E'. injection E' as <-.
      vm_compute. reflexivity. }
    split; [exact Hm|].
    destruct (composited_value_is_a_valid_code _ _ _ _ _ _ _ _ _ _ E Hm)
      as (id & sensor & train_img & red & green & nir & swir1 & feats & xs & l & c & q
          & Hid & Hsensor & _ & _ & _ & _ & _ & _ & _ & _ & _ & _ & _ & _ & Hv & Hc & _).
    vm_compute in Hid. injection Hid as <-.
    exists sensor, c. split; [exact Hsensor|]. split; [exact Hv | exact Hc].
  - vm_compute in E. discriminate E.
Defined.

(** ** X11 *)

Lemma composite_witness_cloudy_month :
  exists out,
    buildMonthlyLAI false 50 "median" Sample.date_year (Sample.nlcd 41) Sample.lon
      Sample.lat (Sample.rf 2.34) Sample.hull_all
      (fun _ _ => [Sample.scene_cloudy]) EE.CountsNoData 2000 7 = OK out
    /\ EE.bands out = [("LAI", None); ("obs_count", None)].
Proof.
  destruct (buildMonthlyLAI false 50 "median" Sample.date_year (Sample.nlcd 41)
              Sample.lon Sample.lat (Sample.rf 2.34) Sample.hull_all
              (fun _ _ => [Sample.scene_cloudy]) EE.CountsNoData 2000 7)
    as [out|msg] eqn:E.
  - exists out. split; [reflexivity|].
    destruct (composite_has_data_iff_observed _ _ _ _ _ _ _ _ _ _ _ _ _ _ E)
      as (laiImgs & lai & count & n & Himgs & Hn & Hb & _ & _ & Hnone & _ & Hzero & _).
    vm_compute in Himgs. injection Himgs as <-.
    vm_compute in Hn.
    rewrite Hb, (proj2 Hnone Hn), (proj1 (Hzero Hn)). reflexivity.
  - vm_compute in E. discriminate E.
Defined.

(** ** X12 *)

Lemma composite_range_witness_two_scenes :
  exists out c,
    buildMonthlyLAI false 50 "mean" Sample.date_year (Sample.nlcd 41) Sample.lon
      Sample.lat (Sample.rf 2.34) Sample.hull_all Sample.two_scenes EE.CountsNoData
      2000 7 = OK out
    /\ EE.select1 out "LAI" = OK (Some (inject_Z c))
    /\ 0 <= c <= 800.
Proof.
  destruct (buildMonthlyLAI false 50 "mean" Sample.date_year (Sample.nlcd 41)
              Sample.lon Sample.lat (Sample.rf 2.34) Sample.hull_all
              Sample.two_scenes EE.CountsNoData 2000 7) as [out|msg] eqn:E.
  - destruct (composite_within_range_of_observations _ _ _ _ _ _ _ _ _ _ _ _ _ _ E)
      as (laiImgs & coll & _ & _ & _ & Hrange).
    assert (Hl : EE.select1 out "LAI" = OK (Some 234%Q)).
    { pose proof E as E'. vm_compute in E'. injection E' as <-. reflexivity. }
    destruct (Hrange _ Hl) as (c & Hc & Hr).
    exists out, c. split; [reflexivity|]. split; [congruence | exact Hr].
  - vm_compute in E. discriminate E.
Defined.

(** ** X16 *)

Lemma counts_witness_two_scenes :
  exists out obs,
    buildMonthlyLAI false 50 "median" Sample.date_year (Sample.nlcd 41) Sample.lon
      Sample.lat (Sample.rf 2.34) Sample.hull_OLI Sample.two_scenes EE.CountsNoData
      2000 7 = OK out
    /\ ObsCount.getObsCount Sample.two_scenes EE.CountsNoData 2000 7 = OK obs
    /\ EE.select1 out "obs_count" = OK (Some 1%Q)
    /\ EE.select1 obs "obs_count" = OK (Some 2%Q).
Proof.
  destruct (buildMonthlyLAI false 50 "median" Sample.date_year (Sample.nlcd 41)
              Sample.lon Sample.lat (Sample.rf 2.34) Sample.hull_OLI
              Sample.two_scenes EE.CountsNoData 2000 7) as [out|msg] eqn:E;
    [|vm_compute in E; discriminate E].
  destruct (ObsCount.getObsCount Sample.two_scenes EE.CountsNoData 2000 7)
    as [obs|msg] eqn:Eo; [|vm_compute in Eo; discriminate Eo].
  exists out, obs. split; [reflexivity|]. split; [reflexivity|].
  destruct (retrieval_count_at_most_density_count _ _ _ _ _ _ _ _ _ _ _ _ _ _ _ E Eo)
    as (laiImgs & n & k & Himgs & Hn & Hout & Hobs & _ & Ek & _ & _).
  vm_compute in Himgs. injection Himgs as <-.
  vm_compute in Hn. vm_compute in Ek. subst n k.
  split; [exact Hout | exact Hobs].
Defined.

(** ** X17 *)

Lemma gap_witness_one_observation_in_two_years :
  ObsCount.gapImg Sample.scenes_by_year [2000; 2001] EE.CountsZero 7 (Some 41%Q)
  = OK (Some 1%Q)
  /\ ObsCount.gapImg Sample.scenes_by_year [2000; 2001] EE.CountsNoData 7 (Some 41%Q)
     = OK (Some 0%Q)
  /\ total (yearly_counts Sample.scenes_by_year [2000; 2001] 7) = 1%nat
  /\ Nat.lt (total (yearly_counts Sample.scenes_by_year [2000; 2001] 7)) 2.
Proof.
  assert (Hg : ObsCount.gapImg Sample.scenes_by_year [2000; 2001] EE.CountsZero 7
                 (Some 41%Q) = OK (Some 1%Q)) by (vm_compute; reflexivity).
  assert (Hg' : ObsCount.gapImg Sample.scenes_by_year [2000; 2001] EE.CountsNoData 7
                  (Some 41%Q) = OK (Some 0%Q)) by (vm_compute; reflexivity).
  split; [exact Hg|]. split; [exact Hg'|]. split; [vm_compute; reflexivity|].
  destruct (gap_is_fewer_observations_than_years _ _ _ _ _ _ Hg)
    as (_ & _ & _ & _ & Hzero & _).
  destruct (Hzero Logic.eq_refl) as (_ & Hx).
  exact (proj1 (Hx 1%Q Logic.eq_refl) Logic.eq_refl).
Defined.

(** ** X19 *)

Lemma biome_model_witness :
  (forall sensor xs, Sample.rf_biome sensor None xs = Sample.rf_any_biome sensor None xs)
  /\ getLAIImage Sample.date_year (Sample.nlcd 41) Sample.lon Sample.lat
       Sample.rf_biome Sample.hull_all Sample.scene_L8 None
     = getLAIImage Sample.date_year (Sample.nlcd 41) Sample.lon Sample.lat
         Sample.rf_any_biome Sample.hull_all Sample.scene_L8 None.
Proof.
  assert (H : forall sensor xs,
             Sample.rf_biome sensor None xs = Sample.rf_any_biome sensor None xs)
    by reflexivity.
  split; [exact H|].
  exact (proj1 (proj2 (retrieval_never_uses_a_biome_model false 50 "median"
                         Sample.date_year (Sample.nlcd 41) Sample.lon Sample.lat
                         Sample.hull_all Sample.one_scene EE.CountsNoData
                         Sample.rf_biome Sample.rf_any_biome H))
           Sample.scene_L8 None).
Defined.

(** ** X20 *)

Lemma hull_witness_inside_table :
  (forall sensor i j k l,
      0 <= i <= 9 -> 0 <= j <= 9 -> 0 <= k <= 9 -> 0 <= l <= 9 ->
      Sample.hull_all sensor i j k l = Sample.hull_inside sensor i j k l)
  /\ getLAIQA Sample.hull_all Sample.train_px "LC08" (Some 2.34%Q)
     = getLAIQA Sample.hull_inside Sample.train_px "LC08" (Some 2.34%Q).
Proof.
  assert (H : forall sensor i j k l,
             0 <= i <= 9 -> 0 <= j <= 9 -> 0 <= k <= 9 -> 0 <= l <= 9 ->
             Sample.hull_all sensor i j k l = Sample.hull_inside sensor i j k l).
  { intros sensor i j k l Hi Hj Hk Hl. unfold Sample.hull_all, Sample.hull_inside.
    destruct (Z.leb_spec 0 i), (Z.leb_spec i 9), (Z.leb_spec 0 j), (Z.leb_spec j 9),
      (Z.leb_spec 0 k), (Z.leb_spec k 9), (Z.leb_spec 0 l), (Z.leb_spec l 9);
      try reflexivity; lia. }
  split; [exact H|].
  exact (proj2 (proj2 (hull_table_is_read_inside_its_bounds _ _ H))
           Sample.train_px "LC08" (Some 2.34%Q)).
Defined.

(** ** X18 *)

Lemma landsat_9_witness :
  exists out out9,
    getLAIImage Sample.date_year (Sample.nlcd 41) Sample.lon Sample.lat
      (Sample.rf 2.34) Sample.hull_OLI Sample.scene_L8 None = OK out
    /\ getLAIImage Sample.date_year (Sample.nlcd 41) Sample.lon Sample.lat
         (Sample.rf 2.34) Sample.hull_OLI
         (EE.set Sample.scene_L8 "SPACECRAFT_ID" (EE.PStr "LANDSAT_9")) None = OK out9
    /\ EE.bands out9 = EE.bands out.
Proof.
  destruct (getLAIImage Sample.date_year (Sample.nlcd 41) Sample.lon Sample.lat
              (Sample.rf 2.34) Sample.hull_OLI Sample.scene_L8 None)
    as [out|msg] eqn:E; [|vm_compute in E; discriminate E].
  assert (Hid : EE.get Sample.scene_L8 "SPACECRAFT_ID" = Some (EE.PStr "LANDSAT_8"))
    by (vm_compute; reflexivity).
  destruct (landsat_9_is_retrieved_as_landsat_8 _ _ _ _ _ _ _ _ _ Hid E)
    as (_ & out9 & H9 & Hb).
  exists out, out9. split; [reflexivity|]. split; [exact H9 | exact Hb].
Defined.

(** ** X22 *)

Lemma sentinel_witness_water_pixel :
  exists out,
    getLAIImage Sample.date_year (Sample.nlcd 11) Sample.lon Sample.lat
      (Sample.rf 2.34) Sample.hull_all Sample.scene_L8 None = OK out
    /\ EE.select1 out "LAI" = OK None.
Proof.
  destruct (getLAIImage Sample.date_year (Sample.nlcd 11) Sample.lon Sample.lat
              (Sample.rf 2.34) Sample.hull_all Sample.scene_L8 None)
    as [out|msg] eqn:E.
  - exists out. split; [reflexivity|].
    destruct (unmatched_biome_keeps_sentinel_and_is_masked _ _ _ _ _ _ _ _ _ E)
      as (sensor & train_img & lai_img & mask & biome2 & feats & Hall).
    cbv zeta in Hall.
    destruct Hall as (Ht & _ & Hbiome & _ & _ & _ & _ & Hzero & _).
    assert (Hb : biome2 = Some 0%Q).
    { destruct (getTrainImg Sample.date_year (Sample.nlcd 11) Sample.lon Sample.lat
                  Sample.scene_L8) as [t|] eqn:Et; [|discriminate Ht].
      injection Ht as <-.
      vm_compute in Et. injection Et as <-.
      vm_compute in Hbiome. injection Hbiome as <-. reflexivity. }
    exact (proj2 (Hzero 0%Q Hb (Qeq_refl 0) (or_introl Logic.eq_refl))).
  - vm_compute in E. discriminate E.
Defined.

(** ** X23 *)

Lemma empty_month_witness_no_scenes :
  Sample.no_scenes 2000 1 = []
  /\ exists out,
       buildMonthlyLAI false 50 "median" Sample.date_year (Sample.nlcd 41)
         Sample.lon Sample.lat (Sample.rf 2.34) Sample.hull_all Sample.no_scenes
         EE.CountsNoData 2000 1 = OK out
       /\ EE.bands out = [("LAI", None); ("obs_count", None)].
Proof.
  split; [reflexivity|].
  destruct (proj1 (empty_month_composite false 50 "median" Sample.date_year
                     (Sample.nlcd 41) Sample.lon Sample.lat (Sample.rf 2.34)
                     Sample.hull_all Sample.no_scenes EE.CountsNoData 2000 1
                     Logic.eq_refl))
    as (out & Hout & Hb & _).
  exists out. split; [exact Hout | exact Hb].
Defined.
